(** * Content validation pipeline of sciencehabits-content-api

    A shallow embedding of the validation engine: the [ContentValidator]
    class of the validation script (schemas, file loading, structural checks,
    business rules, cross references, translation completeness, quality
    checks and the report); the test suite of
    [tests/content-validation.test.js] (file structure, habit data, business
    rules with the duplicate-ID check, compatibility); the habit check and the
    duplicate-ID check of [scripts/validate-goal-content.js]; and the word
    count and the summary of the statistics script.

    Conventions of the embedding.
    - A parsed JSON value is a [json]; JavaScript's [undefined] is [None] in
      [jsval := option json].  Numbers are the integral JSON numbers (a [Z]);
      fractional numbers are outside the model.  The text of a number is its
      digits, which is what the language prints for a safe integer; the
      theorems that pin the text of a value from a file assume the value
      [printable].
    - A string is a sequence of code units below 256.
    - A [JObj] holds the own properties of the parsed object in the order
      [Object.keys] enumerates them (keys pairwise distinct).  What an object
      inherits from [Object.prototype] is modelled where the program can
      reach it: in the conversion of an object to a string, and in the read
      of the literal [evidenceQualityMap] at a key taken from a file.
    - The conversion of a value to a string or to a primitive (a template
      literal, [+], [join], a property key, a comparison) throws on an
      object whose own property [toString] hides the inherited method.  Code
      that converts a value from a file is therefore effectful ([render],
      [renderJoin], [less]); this includes the one progress line of the test
      suite that quotes such a value.  The pure [toString], [show] and [join]
      give the text when the conversion returns.
    - Code that mutates [this.errors], [this.warnings] and [this.stats] and may
      throw is a function from the validator state to a [Result]: a value or a
      thrown exception, each with the state reached (mutations made before a
      [throw] persist, as in JavaScript).  An exception is represented by its
      [message], the only part the program reads; the messages of the
      TypeErrors are those of V8.
    - The file system is a function from paths to entries and does not change
      during a run.  The clock is a record of readings ([Clock]): the year
      read when the schemas are built, the year read for each research
      record that is checked, the two readings of [Date.now()] and the time
      stamp of the report.
    - What the program takes from outside the repository is a parameter
      ([Host]) of the validator: the schema compiler of Ajv, the relational
      comparison of the language on operands that convert, and whether the
      report file can be written.  Compiling the three schemas is taken to
      succeed.
    - Console output is not modelled, apart from the conversions it makes;
      the report is the content of [validation-report.json] and the exit
      code. *)

From Stdlib Require Import List String Ascii ZArith Lia Bool Arith DecimalString.
Import ListNotations.

#[local] Set Warnings "-register-all".

#[local] Open Scope string_scope.
#[local] Open Scope list_scope.

Notation "a +++ b" := (String.append a b) (at level 60, right associativity).

(** ** JavaScript values *)

Module Js.

Inductive json : Type :=
| JNull
| JBool (b : bool)
| JNum (n : Z)
| JStr (s : string)
| JArr (items : list json)
| JObj (props : list (string * json)).

(** [None] is [undefined]. *)
Definition jsval : Type := option json.

(** The double quote character, for messages that quote a value. *)
Definition dquote : string := String (ascii_of_nat 34) EmptyString.

Definition showNat (n : nat) : string := NilZero.string_of_uint (Nat.to_uint n).

(** The decimal digits of an integer, which is what ToString gives for a
    safe integer ([printable] below). *)
Definition showZ (n : Z) : string := NilZero.string_of_int (Z.to_int n).

(** ToBoolean. *)
Definition truthy (v : jsval) : bool :=
  match v with
  | None => false
  | Some JNull => false
  | Some (JBool b) => b
  | Some (JNum n) => negb (n =? 0)%Z
  | Some (JStr s) => negb (s =? "")
  | Some (JArr _) => true
  | Some (JObj _) => true
  end.

Fixpoint joinStrings (sep : string) (l : list string) : string :=
  match l with
  | [] => ""
  | [x] => x
  | x :: rest => x +++ sep +++ joinStrings sep rest
  end.

(** ToString of a JSON value, for a value on which the conversion returns
    ([convertible] below).  An array is its elements joined by a comma,
    [null] elements rendered empty; a plain object is "[object Object]". *)
Fixpoint toString (v : json) : string :=
  match v with
  | JNull => "null"
  | JBool true => "true"
  | JBool false => "false"
  | JNum n => showZ n
  | JStr s => s
  | JArr items =>
      joinStrings ","
        ((fix elems (l : list json) : list string :=
            match l with
            | [] => []
            | JNull :: rest => "" :: elems rest
            | x :: rest => toString x :: elems rest
            end) items)
  | JObj _ => "[object Object]"
  end.

(** The text of a template-literal hole or of a string concatenation
    operand, when the conversion returns. *)
Definition show (v : jsval) : string :=
  match v with
  | None => "undefined"
  | Some j => toString j
  end.

(** The string an element contributes to [Array.prototype.join]:
    [undefined] and [null] contribute the empty string. *)
Definition joinElem (v : jsval) : string :=
  match v with
  | None => ""
  | Some JNull => ""
  | Some j => toString j
  end.

(** [arr.join(sep)], when the conversion of every element returns. *)
Definition join (sep : string) (l : list jsval) : string :=
  joinStrings sep (map joinElem l).

(** [arr.slice(0, n)]. *)
Definition slice0 {A : Type} (n : nat) (l : list A) : list A := firstn n l.

(** SameValueZero, the equality of [Set] and of [Array.prototype.includes].
    Two objects or arrays are equal only if they are the same reference;
    the values compared by the program come from distinct places of parsed
    files, so they never are. *)
Definition sameValueZero (a b : jsval) : bool :=
  match a, b with
  | None, None => true
  | Some JNull, Some JNull => true
  | Some (JBool x), Some (JBool y) => Bool.eqb x y
  | Some (JNum x), Some (JNum y) => (x =? y)%Z
  | Some (JStr x), Some (JStr y) => (x =? y)
  | _, _ => false
  end.

(** Strict equality with a string constant: [v === s]. *)
Definition strictEqStr (v : jsval) (s : string) : bool :=
  match v with
  | Some (JStr x) => (x =? s)
  | _ => false
  end.

(** Strict equality with a number constant: [v === n]. *)
Definition strictEqNum (v : jsval) (n : Z) : bool :=
  match v with
  | Some (JNum x) => (x =? n)%Z
  | _ => false
  end.

(** A [Set], as the list of its elements in insertion order. *)
Definition JsSet : Type := list jsval.

Definition setHas (s : JsSet) (v : jsval) : bool := existsb (sameValueZero v) s.

Definition setAdd (s : JsSet) (v : jsval) : JsSet :=
  if setHas s v then s else s ++ [v].

(** [new Set(array)]. *)
Definition newSet (l : list jsval) : JsSet := fold_left setAdd l [].

(** Own property lookup on the property list of an object. *)
Fixpoint lookup (key : string) (props : list (string * json)) : jsval :=
  match props with
  | [] => None
  | (k, v) :: rest => if (k =? key) then Some v else lookup key rest
  end.

(** [v.key] for a value that is neither [null] nor [undefined], and a key
    that is not a built-in member of strings, numbers, booleans or arrays. *)
Definition member (v : json) (key : string) : jsval :=
  match v with
  | JObj props => lookup key props
  | _ => None
  end.

(** [v.length] for a value that is neither [null] nor [undefined]. *)
Definition lengthOf (v : json) : jsval :=
  match v with
  | JArr items => Some (JNum (Z.of_nat (List.length items)))
  | JStr s => Some (JNum (Z.of_nat (String.length s)))
  | JObj props => lookup "length" props
  | _ => None
  end.

(** Whether ToPrimitive and ToString return on a parsed value.  Both call
    the method [toString] of an object; an own property of that name, whose
    value is never callable in parsed JSON, hides the inherited method, and
    the conversion throws a TypeError.  An array converts by joining the
    conversions of its elements, so it throws when one of them does. *)
Fixpoint convertible (v : json) : bool :=
  match v with
  | JArr items =>
      (fix all (l : list json) : bool :=
         match l with
         | [] => true
         | x :: rest => convertible x && all rest
         end) items
  | JObj props =>
      match lookup "toString" props with
      | Some _ => false
      | None => true
      end
  | _ => true
  end.

Definition converts (v : jsval) : bool :=
  match v with
  | None => true
  | Some j => convertible j
  end.

(** [Number.MAX_SAFE_INTEGER] *)
Definition maxSafeInteger : Z := 9007199254740991.

(** Whether [toString] is the text the conversion gives: the conversion
    returns, and every number that is printed is a safe integer.  ToString
    prints the digits of a safe integer; beyond, it rounds them and, from
    10^21, switches to the exponent form. *)
Fixpoint printable (v : json) : bool :=
  match v with
  | JNum n => (Z.abs n <=? maxSafeInteger)%Z
  | JArr items =>
      (fix all (l : list json) : bool :=
         match l with
         | [] => true
         | x :: rest => printable x && all rest
         end) items
  | JObj props =>
      match lookup "toString" props with
      | Some _ => false
      | None => true
      end
  | _ => true
  end.

Definition prints (v : jsval) : bool :=
  match v with
  | None => true
  | Some j => printable j
  end.

(** The members every object literal inherits from [Object.prototype], each
    with the string it converts to in a comparison: the source text V8 gives
    for a built-in function, and the text of the prototype object itself
    under [__proto__]. *)
Definition nativeCode (name : string) : string :=
  "function " +++ name +++ "() { [native code] }".

Definition objectPrototype : list (string * string) :=
  [ ("constructor", nativeCode "Object");
    ("__defineGetter__", nativeCode "__defineGetter__");
    ("__defineSetter__", nativeCode "__defineSetter__");
    ("hasOwnProperty", nativeCode "hasOwnProperty");
    ("__lookupGetter__", nativeCode "__lookupGetter__");
    ("__lookupSetter__", nativeCode "__lookupSetter__");
    ("isPrototypeOf", nativeCode "isPrototypeOf");
    ("propertyIsEnumerable", nativeCode "propertyIsEnumerable");
    ("toString", nativeCode "toString");
    ("valueOf", nativeCode "valueOf");
    ("__proto__", "[object Object]");
    ("toLocaleString", nativeCode "toLocaleString") ].

(** ** Strings *)

Fixpoint isPrefix (p s : string) : bool :=
  match p, s with
  | EmptyString, _ => true
  | String a p', String b s' => (a =? b)%char && isPrefix p' s'
  | String _ _, EmptyString => false
  end.

(** [hay.includes(needle)] on strings. *)
Fixpoint includes (needle hay : string) : bool :=
  isPrefix needle hay ||
  match hay with
  | EmptyString => false
  | String _ rest => includes needle rest
  end.

(** The white space class [\s], on code units below 256. *)
Definition isSpace (c : ascii) : bool :=
  let n := nat_of_ascii c in
  ((9 <=? n)%nat && (n <=? 13)%nat) || (n =? 32)%nat || (n =? 160)%nat.

(** Number of maximal runs of white space in a string; [inRun] tells whether
    the previous character was white space. *)
Fixpoint spaceRuns (inRun : bool) (s : string) : nat :=
  match s with
  | EmptyString => 0
  | String c rest =>
      if isSpace c
      then (if inRun then 0 else 1) + spaceRuns true rest
      else spaceRuns false rest
  end.

(** [s.split(/\s+/).length]: one more than the number of separators. *)
Definition splitSpacesLength (s : string) : nat := S (spaceRuns false s).

Definition isDigit (c : ascii) : bool :=
  let n := nat_of_ascii c in (48 <=? n)%nat && (n <=? 57)%nat.

Definition isLower (c : ascii) : bool :=
  let n := nat_of_ascii c in (97 <=? n)%nat && (n <=? 122)%nat.

Definition isUpper (c : ascii) : bool :=
  let n := nat_of_ascii c in (65 <=? n)%nat && (n <=? 90)%nat.

Fixpoint allChars (p : ascii -> bool) (s : string) : bool :=
  match s with
  | EmptyString => true
  | String c rest => p c && allChars p rest
  end.

Fixpoint dropWhile (p : ascii -> bool) (s : string) : string :=
  match s with
  | EmptyString => EmptyString
  | String c rest => if p c then dropWhile p rest else s
  end.

Fixpoint countWhile (p : ascii -> bool) (s : string) : nat :=
  match s with
  | EmptyString => 0
  | String c rest => if p c then S (countWhile p rest) else 0
  end.

(** The class [[-._;()/:a-zA-Z0-9]] of the DOI check. *)
Definition isDoiChar (c : ascii) : bool :=
  isLower c || isUpper c || isDigit c ||
  existsb (fun d => (c =? d)%char) (list_ascii_of_string "-._;()/:").

(** [/^10\.\d{4,}\/[-._;()\/:a-zA-Z0-9]+$/] *)
Definition matchesDoi (s : string) : bool :=
  match s with
  | String "1" (String "0" (String "." rest)) =>
      (4 <=? countWhile isDigit rest)%nat &&
      match dropWhile isDigit rest with
      | String "/" tail => negb (tail =? "") && allChars isDoiChar tail
      | _ => false
      end
  | _ => false
  end.

(** ** Relational comparison

    [a < b] of JavaScript: both operands are converted to primitives; two
    strings compare by code units, anything else compares as numbers, and
    a comparison with NaN is false.  A number is given exactly, as a
    decimal; the language rounds every number to a double first, which
    changes a comparison only between values that agree in their first 15
    significant digits.  The validator takes the comparison as a parameter
    of the host ([Host.lessThan] below), so its theorems do not depend on
    this model. *)

Inductive number : Type :=
| NaN
| Infinity (negative : bool)
| Finite (mantissa exponent : Z).   (* mantissa * 10 ^ exponent *)

Definition toPrimitive (v : jsval) : jsval :=
  match v with
  | Some (JArr items) => Some (JStr (toString (JArr items)))
  | Some (JObj props) => Some (JStr (toString (JObj props)))
  | _ => v
  end.

Fixpoint takeWhile (p : ascii -> bool) (s : string) : string :=
  match s with
  | EmptyString => EmptyString
  | String c rest => if p c then String c (takeWhile p rest) else EmptyString
  end.

Definition isHexDigit (c : ascii) : bool :=
  let n := nat_of_ascii c in
  isDigit c || ((97 <=? n)%nat && (n <=? 102)%nat)
  || ((65 <=? n)%nat && (n <=? 70)%nat).

Definition isOctalDigit (c : ascii) : bool :=
  let n := nat_of_ascii c in (48 <=? n)%nat && (n <=? 55)%nat.

Definition isBinaryDigit (c : ascii) : bool :=
  let n := nat_of_ascii c in (48 <=? n)%nat && (n <=? 49)%nat.

Definition digitOf (c : ascii) : Z :=
  let n := nat_of_ascii c in
  if isDigit c then Z.of_nat (n - 48)
  else if (97 <=? n)%nat then Z.of_nat (n - 87)
  else Z.of_nat (n - 55).

(** The value of a non-empty string of digits of the base; [None] for any
    other string. *)
Fixpoint digitsFrom (base : Z) (digit : ascii -> bool) (acc : Z) (s : string)
    : option Z :=
  match s with
  | EmptyString => Some acc
  | String c rest =>
      if digit c then digitsFrom base digit (base * acc + digitOf c)%Z rest
      else None
  end.

Definition digitsValue (base : Z) (digit : ascii -> bool) (s : string) : option Z :=
  match s with
  | EmptyString => None
  | _ => digitsFrom base digit 0 s
  end.

(** [ExponentPart], or nothing: the exponent, when the string is empty or
    [e] or [E], an optional sign and decimal digits. *)
Definition exponentPart (s : string) : option Z :=
  match s with
  | EmptyString => Some 0%Z
  | String c rest =>
      if (c =? "e")%char || (c =? "E")%char then
        match rest with
        | String "-" digits => option_map Z.opp (digitsValue 10 isDigit digits)
        | String "+" digits => digitsValue 10 isDigit digits
        | digits => digitsValue 10 isDigit digits
        end
      else None
  end.

(** [StrUnsignedDecimalLiteral]: [Infinity], or digits with an optional
    fraction and exponent, one digit at least before or after the dot. *)
Definition unsignedDecimal (s : string) : number :=
  if s =? "Infinity" then Infinity false
  else
    let whole := takeWhile isDigit s in
    let afterWhole := dropWhile isDigit s in
    let fraction :=
      match afterWhole with
      | String "." rest => takeWhile isDigit rest
      | _ => EmptyString
      end in
    let afterFraction :=
      match afterWhole with
      | String "." rest => dropWhile isDigit rest
      | _ => afterWhole
      end in
    match digitsValue 10 isDigit (whole +++ fraction), exponentPart afterFraction with
    | Some mantissa, Some exponent =>
        Finite mantissa (exponent - Z.of_nat (String.length fraction))
    | _, _ => NaN
    end.

Definition negate (n : number) : number :=
  match n with
  | NaN => NaN
  | Infinity negative => Infinity (negb negative)
  | Finite mantissa exponent => Finite (- mantissa) exponent
  end.

Definition integerOf (value : option Z) : number :=
  match value with
  | Some n => Finite n 0
  | None => NaN
  end.

Definition revString (s : string) : string :=
  string_of_list_ascii (rev (list_ascii_of_string s)).

Definition trim (s : string) : string :=
  revString (dropWhile isSpace (revString (dropWhile isSpace s))).

(** StringToNumber: white space is trimmed; the empty string is 0; a
    literal with the prefix [0x], [0o] or [0b] is an integer of that base
    and takes no sign; anything else is a signed decimal literal or NaN. *)
Definition stringToNumber (s : string) : number :=
  match trim s with
  | EmptyString => Finite 0 0
  | String "0" (String "x" digits) | String "0" (String "X" digits) =>
      integerOf (digitsValue 16 isHexDigit digits)
  | String "0" (String "o" digits) | String "0" (String "O" digits) =>
      integerOf (digitsValue 8 isOctalDigit digits)
  | String "0" (String "b" digits) | String "0" (String "B" digits) =>
      integerOf (digitsValue 2 isBinaryDigit digits)
  | String "-" rest => negate (unsignedDecimal rest)
  | String "+" rest => unsignedDecimal rest
  | t => unsignedDecimal t
  end.

(** ToNumber of a primitive. *)
Definition toNumber (v : jsval) : number :=
  match v with
  | None => NaN
  | Some JNull => Finite 0 0
  | Some (JBool b) => Finite (if b then 1 else 0) 0
  | Some (JNum n) => Finite n 0
  | Some (JStr s) => stringToNumber s
  | Some _ => NaN
  end.

(** [x < y] on numbers: two integers compare as integers, two other finite
    values after scaling both to the smaller exponent. *)
Definition numberLess (x y : number) : bool :=
  match x, y with
  | NaN, _ | _, NaN => false
  | Infinity true, Infinity true => false
  | Infinity true, _ => true
  | _, Infinity true => false
  | Infinity false, _ => false
  | _, Infinity false => true
  | Finite m 0%Z, Finite n 0%Z => (m <? n)%Z
  | Finite m d, Finite n e =>
      let low := Z.min d e in
      (m * 10 ^ (d - low) <? n * 10 ^ (e - low))%Z
  end.

Definition lessThan (a b : jsval) : bool :=
  match toPrimitive a, toPrimitive b with
  | Some (JStr x), Some (JStr y) => String.ltb x y
  | pa, pb => numberLess (toNumber pa) (toNumber pb)
  end.

End Js.

Import Js.

(** The fields [supportedLanguages] and [contentTypes] that the constructor
    of [ContentValidator] sets. *)
Definition supportedLanguages : list string := ["en"; "de"; "fr"; "es"].
Definition contentTypes : list string := ["habits"; "research"; "locales"].

(** ** Schema registry

    The schema literals of [loadSchemas], as data. *)

Module Schema.

(** The three regular expressions of the schemas. *)
Inductive Pattern : Type :=
| PatSlug        (* ^[a-z0-9-]+$ *)
| PatDoiPrefix   (* ^10\. *)
| PatLocaleKey.  (* ^[a-zA-Z0-9._-]+$ *)

Definition patternSource (p : Pattern) : string :=
  match p with
  | PatSlug => "^[a-z0-9-]+$"
  | PatDoiPrefix => "^10\."
  | PatLocaleKey => "^[a-zA-Z0-9._-]+$"
  end.

Definition isSlugChar (c : ascii) : bool :=
  isLower c || isDigit c || (c =? "-")%char.

Definition isLocaleKeyChar (c : ascii) : bool :=
  isLower c || isUpper c || isDigit c ||
  (c =? ".")%char || (c =? "_")%char || (c =? "-")%char.

Definition patternTest (p : Pattern) (s : string) : bool :=
  match p with
  | PatSlug => negb (s =? "") && allChars isSlugChar s
  | PatDoiPrefix => isPrefix "10." s
  | PatLocaleKey => negb (s =? "") && allChars isLocaleKeyChar s
  end.

(** The schema of one field. *)
Inductive FieldSchema : Type :=
| TString (minLength maxLength : option nat) (pattern : option Pattern)
          (enum : option (list string))
| TInteger (minimum maximum : Z)
| TBoolean
| TStringArray (minItems maxItems : nat).

Record ObjectSchema : Type := {
  required : list string;
  properties : list (string * FieldSchema);
  patternProperties : list (Pattern * FieldSchema);
  additionalProperties : bool
}.

Definition categories : list string :=
  ["sleep"; "productivity"; "health"; "mindfulness"; "nutrition"; "exercise"].

Definition habit : ObjectSchema := {|
  required := ["id"; "title"; "description"; "category"; "difficulty";
               "timeMinutes"; "language"];
  properties :=
    [ ("id", TString None None (Some PatSlug) None);
      ("title", TString (Some 5) (Some 100) None None);
      ("description", TString (Some 20) (Some 500) None None);
      ("category", TString None None None (Some categories));
      ("difficulty",
        TString None None None (Some ["beginner"; "intermediate"; "advanced"]));
      ("timeMinutes", TInteger 1 180);
      ("language", TString None None None (Some supportedLanguages));
      ("researchBacked", TBoolean);
      ("sources", TStringArray 0 10) ];
  patternProperties := [];
  additionalProperties := false
|}.

(** [year] is [new Date().getFullYear()] when the validator is constructed. *)
Definition research (year : Z) : ObjectSchema := {|
  required := ["id"; "title"; "summary"; "authors"; "year"; "journal";
               "category"; "evidenceLevel"; "qualityScore"; "language"];
  properties :=
    [ ("id", TString None None (Some PatSlug) None);
      ("title", TString (Some 10) (Some 200) None None);
      ("summary", TString (Some 50) (Some 1000) None None);
      ("authors", TString (Some 5) (Some 200) None None);
      ("year", TInteger 1990 (year + 1));
      ("journal", TString (Some 5) (Some 100) None None);
      ("doi", TString None None (Some PatDoiPrefix) None);
      ("category", TString None None None (Some categories));
      ("evidenceLevel",
        TString None None None
          (Some ["systematic_review"; "rct"; "observational"; "case_study"]));
      ("qualityScore", TInteger 0 100);
      ("language", TString None None None (Some supportedLanguages)) ];
  patternProperties := [];
  additionalProperties := false
|}.

Definition locales : ObjectSchema := {|
  required := [];
  properties := [];
  patternProperties := [ (PatLocaleKey, TString (Some 1) (Some 200) None None) ];
  additionalProperties := false
|}.

End Schema.

(** ** Schema validation

    The Ajv library is not part of the repository.  The definitions of this
    module are modelled from the spec (sections 4.1, 4.3 and 8): a violation
    identifies the field path and the violated constraint, and a missing
    required field yields exactly one error that names it.  The wording of
    the messages follows Ajv 8.  [node], the host of the concrete runs, uses
    this model; the theorems that quantify over the host do not depend on
    it. *)

Module Ajv.

Import Schema.

(** One entry of [validate.errors]. *)
Record AjvError : Type := { instancePath : string; message : string }.

Definition err (path msg : string) : list AjvError :=
  [ {| instancePath := path; message := msg |} ].

Definition when_ (b : bool) (l : list AjvError) : list AjvError :=
  if b then l else [].

Definition isString (v : json) : bool :=
  match v with JStr _ => true | _ => false end.

(** Modelled from the spec: the length and pattern constraints of a string
    field, one error per violated constraint. *)
Definition stringErrors (path : string) (minLength maxLength : option nat)
    (pattern : option Pattern) (s : string) : list AjvError :=
  match maxLength with
  | Some n => when_ (n <? String.length s)%nat
                (err path ("must NOT have more than " +++ showNat n +++ " characters"))
  | None => []
  end ++
  match minLength with
  | Some n => when_ (String.length s <? n)%nat
                (err path ("must NOT have fewer than " +++ showNat n +++ " characters"))
  | None => []
  end ++
  match pattern with
  | Some p => when_ (negb (patternTest p s))
                (err path ("must match pattern " +++ dquote +++ patternSource p +++ dquote))
  | None => []
  end.

(** Modelled from the spec: enum membership of a field. *)
Definition enumErrors (path : string) (enum : option (list string)) (v : json)
    : list AjvError :=
  match enum with
  | Some allowed =>
      when_ (negb (existsb (fun a => sameValueZero (Some v) (Some (JStr a))) allowed))
        (err path "must be equal to one of the allowed values")
  | None => []
  end.

(** Modelled from the spec: the item type of an array of strings, one error
    per item that is not a string, at the path of the item. *)
Fixpoint itemErrors (path : string) (index : nat) (items : list json)
    : list AjvError :=
  match items with
  | [] => []
  | x :: rest =>
      when_ (negb (isString x)) (err (path +++ "/" +++ showNat index) "must be string")
      ++ itemErrors path (S index) rest
  end.

(** Modelled from the spec: the errors the compiled schema of one field
    reports (the Ajv library is not part of the repository), in the style of
    Ajv 8 with [allErrors]: every violated constraint of the field yields
    one error that carries the field path and the violated constraint.
    A field whose only string constraint is an enumeration has its type
    checked first and the enumeration checked in any case. *)
Definition fieldErrors (path : string) (f : FieldSchema) (v : json)
    : list AjvError :=
  match f with
  | TString minLength maxLength pattern enum =>
      let typed :=
        match minLength, maxLength, pattern with
        | None, None, None => false
        | _, _, _ => true
        end in
      when_ (negb typed && negb (isString v)) (err path "must be string")
      ++ enumErrors path enum v
      ++ match v with
         | JStr s => stringErrors path minLength maxLength pattern s
         | _ => when_ typed (err path "must be string")
         end
  | TInteger minimum maximum =>
      match v with
      | JNum n =>
          when_ (maximum <? n)%Z (err path ("must be <= " +++ showZ maximum))
          ++ when_ (n <? minimum)%Z (err path ("must be >= " +++ showZ minimum))
      | _ => err path "must be integer"
      end
  | TBoolean =>
      match v with
      | JBool _ => []
      | _ => err path "must be boolean"
      end
  | TStringArray minItems maxItems =>
      match v with
      | JArr items =>
          when_ (maxItems <? List.length items)%nat
            (err path ("must NOT have more than " +++ showNat maxItems +++ " items"))
          ++ when_ (List.length items <? minItems)%nat
               (err path ("must NOT have fewer than " +++ showNat minItems +++ " items"))
          ++ itemErrors path 0 items
      | _ => err path "must be array"
      end
  end.

(** Modelled from the spec: the allow-list of the declared field names (and
    key patterns) of a schema. *)
Definition isDeclared (s : ObjectSchema) (key : string) : bool :=
  existsb (fun p => (fst p =? key)) (properties s)
  || existsb (fun p => patternTest (fst p) key) (patternProperties s).

(** Modelled from the spec: the errors the compiled schema of a record
    reports (the Ajv library is not part of the repository): one error per
    missing required field, naming it; one per undeclared field when
    additional properties are rejected; then the errors of every declared
    field that is present, and of every value whose key matches a pattern
    property. *)
Definition validate (s : ObjectSchema) (v : json) : list AjvError :=
  match v with
  | JObj props =>
      flat_map (fun r =>
          match lookup r props with
          | None => err "" ("must have required property '" +++ r +++ "'")
          | Some _ => []
          end) (required s)
      ++ when_ (negb (additionalProperties s))
           (flat_map (fun kv =>
                when_ (negb (isDeclared s (fst kv)))
                  (err "" "must NOT have additional properties")) props)
      ++ flat_map (fun pf =>
             match lookup (fst pf) props with
             | Some x => fieldErrors ("/" +++ fst pf) (snd pf) x
             | None => []
             end) (properties s)
      ++ flat_map (fun pf =>
             flat_map (fun kv =>
                 when_ (patternTest (fst pf) (fst kv))
                   (fieldErrors ("/" +++ fst kv) (snd pf) (snd kv))) props)
           (patternProperties s)
  | _ => err "" "must be object"
  end.

(** A record conforms to a schema when the check reports nothing. *)
Definition conforms (s : ObjectSchema) (v : json) : bool :=
  match validate s v with
  | [] => true
  | _ :: _ => false
  end.

End Ajv.

(** ** The host: what the program takes from outside the repository *)

Record Host : Type := {
  (** [ajv.compile(schema)]: the validate function of a schema, returning
      the content of [validate.errors] (empty when the value is valid). *)
  compile : Schema.ObjectSchema -> json -> list Ajv.AjvError;
  (** The relational comparison [a < b] of the language, on operands whose
      conversion to a primitive returns. *)
  lessThan : jsval -> jsval -> bool;
  (** [fs.writeFileSync(path, data)]: [None] when the file is written, the
      message of the error the call throws otherwise. *)
  writeFileSync : string -> option string
}.

(** The host used for concrete runs; every file can be written. *)
Definition node : Host := {|
  compile := Ajv.validate;
  lessThan := Js.lessThan;
  writeFileSync := fun _ => None
|}.

(** ** The file system *)

Inductive Entry : Type :=
| Missing                        (* nothing at this path *)
| Directory                      (* a directory *)
| Unparsable (message : string)  (* a file whose text JSON.parse rejects *)
| Content (value : json).        (* a file that parses to this value *)

Definition FileSystem : Type := string -> Entry.

Definition existsSync (fs : FileSystem) (path : string) : bool :=
  match fs path with
  | Missing => false
  | _ => true
  end.

(** ** Effects: state and exceptions *)

Module Eff.

Inductive Result (St A : Type) : Type :=
| Ok (a : A) (s : St)
| Throw (message : string) (s : St).

Arguments Ok {St A} a s.
Arguments Throw {St A} message s.

Definition M (St A : Type) : Type := St -> Result St A.

Definition stateOf {St A : Type} (r : Result St A) : St :=
  match r with
  | Ok _ s => s
  | Throw _ s => s
  end.

Definition ret {St A : Type} (a : A) : M St A := fun s => Ok a s.

Definition bind {St A B : Type} (m : M St A) (k : A -> M St B) : M St B :=
  fun s =>
    match m s with
    | Ok a s' => k a s'
    | Throw e s' => Throw e s'
    end.

Definition throw {St A : Type} (message : string) : M St A :=
  fun s => Throw message s.

(** [try { m } catch (error) { handler(error.message) }] *)
Definition tryCatch {St A : Type} (m : M St A) (handler : string -> M St A)
    : M St A :=
  fun s =>
    match m s with
    | Ok a s' => Ok a s'
    | Throw e s' => handler e s'
    end.

Definition modify {St : Type} (f : St -> St) : M St unit :=
  fun s => Ok tt (f s).

Definition when {St : Type} (b : bool) (m : M St unit) : M St unit :=
  if b then m else ret tt.

Declare Scope eff_scope.
Delimit Scope eff_scope with eff.

Notation "x <- c ;; k" := (bind c (fun x => k))
  (at level 61, c at next level, right associativity) : eff_scope.
Notation "c ;; k" := (bind c (fun _ => k))
  (at level 61, right associativity) : eff_scope.

#[local] Open Scope eff_scope.

(** [for (const x of l) body(x)] and [l.forEach(x => body(x))]. *)
Fixpoint forEach {St A : Type} (l : list A) (body : A -> M St unit) : M St unit :=
  match l with
  | [] => ret tt
  | x :: rest => body x ;; forEach rest body
  end.

(** [l.forEach((x, index) => body(x, index))], counting from [index]. *)
Fixpoint forEachFrom {St A : Type} (index : nat) (l : list A)
    (body : A -> nat -> M St unit) : M St unit :=
  match l with
  | [] => ret tt
  | x :: rest => body x index ;; forEachFrom (S index) rest body
  end.

(** A loop that updates local variables [acc]. *)
Fixpoint foldM {St A B : Type} (body : B -> A -> M St B) (l : list A) (acc : B)
    : M St B :=
  match l with
  | [] => ret acc
  | x :: rest => acc' <- body acc x ;; foldM body rest acc'
  end.

(** [l.map(f)] for a callback that may throw. *)
Fixpoint mapM {St A B : Type} (f : A -> M St B) (l : list A) : M St (list B) :=
  match l with
  | [] => ret []
  | x :: rest => y <- f x ;; ys <- mapM f rest ;; ret (y :: ys)
  end.

(** The elements of [v] when a method of arrays ([forEach], [map]) is called
    on it: a TypeError when [v] is not an array.  [name] is the expression
    the call is made on, which the message quotes. *)
Definition arrayOf {St : Type} (name method : string) (v : json)
    : M St (list json) :=
  match v with
  | JArr items => ret items
  | JNull => throw ("Cannot read properties of null (reading '" +++ method +++ "')")
  | _ => throw (name +++ "." +++ method +++ " is not a function")
  end.

(** [v.key]: a TypeError when [v] is [null]. *)
Definition get {St : Type} (v : json) (key : string) : M St jsval :=
  match v with
  | JNull => throw ("Cannot read properties of null (reading '" +++ key +++ "')")
  | _ => ret (member v key)
  end.

(** The value [v] when a member of it is read: a TypeError when [v] is
    [undefined] or [null]. *)
Definition defined {St : Type} (v : jsval) (key : string) : M St json :=
  match v with
  | None => throw ("Cannot read properties of undefined (reading '" +++ key +++ "')")
  | Some JNull => throw ("Cannot read properties of null (reading '" +++ key +++ "')")
  | Some j => ret j
  end.

(** [content.map(h => h.id)]; [name] is the variable holding [content]. *)
Definition recordIds {St : Type} (name : string) (content : json)
    : M St (list jsval) :=
  items <- arrayOf name "map" content ;;
  mapM (fun h => get h "id") items.

(** The message of the TypeError of a conversion that does not return. *)
Definition notPrimitive : string := "Cannot convert object to primitive value".

(** The text of [v] in a template literal, in a string concatenation or as
    a property key; a TypeError when [v] does not convert. *)
Definition render {St : Type} (v : jsval) : M St string :=
  if converts v then ret (show v) else throw notPrimitive.

(** [l.join(sep)]; a TypeError when an element does not convert. *)
Definition renderJoin {St : Type} (sep : string) (l : list jsval) : M St string :=
  if forallb converts l then ret (join sep l) else throw notPrimitive.

(** [a < b]: both operands are converted to primitives, then compared. *)
Definition less {St : Type} (host : Host) (a b : jsval) : M St bool :=
  if converts a && converts b then ret (lessThan host a b) else throw notPrimitive.

(** [JSON.parse(fs.readFileSync(path, 'utf8'))] *)
Definition readJson {St : Type} (fs : FileSystem) (path : string) : M St json :=
  match fs path with
  | Content value => ret value
  | Unparsable message => throw message
  | Directory => throw "EISDIR: illegal operation on a directory, read"
  | Missing => throw ("ENOENT: no such file or directory, open '" +++ path +++ "'")
  end.

End Eff.

(** ** The validator: class [ContentValidator] of the validation script *)

Module ContentValidator.

Import Eff.
#[local] Open Scope eff_scope.

Record Stats : Type := {
  filesValidated : nat;
  totalErrors : nat;
  totalWarnings : nat;
  validationTime : Z
}.

(** The fields [errors], [warnings] and [stats] of the validator object. *)
Record State : Type := {
  errors : list string;
  warnings : list string;
  stats : Stats
}.

(** The state the constructor sets up. *)
Definition constructor : State := {|
  errors := [];
  warnings := [];
  stats := {| filesValidated := 0; totalErrors := 0; totalWarnings := 0;
              validationTime := 0 |}
|}.

Definition addError (message : string) : M State unit :=
  modify (fun s => {|
    errors := errors s ++ [message];
    warnings := warnings s;
    stats := {| filesValidated := filesValidated (stats s);
                totalErrors := S (totalErrors (stats s));
                totalWarnings := totalWarnings (stats s);
                validationTime := validationTime (stats s) |}
  |}).

Definition addWarning (message : string) : M State unit :=
  modify (fun s => {|
    errors := errors s;
    warnings := warnings s ++ [message];
    stats := {| filesValidated := filesValidated (stats s);
                totalErrors := totalErrors (stats s);
                totalWarnings := S (totalWarnings (stats s));
                validationTime := validationTime (stats s) |}
  |}).

(** [this.stats.filesValidated++] *)
Definition countFile : M State unit :=
  modify (fun s => {|
    errors := errors s;
    warnings := warnings s;
    stats := {| filesValidated := S (filesValidated (stats s));
                totalErrors := totalErrors (stats s);
                totalWarnings := totalWarnings (stats s);
                validationTime := validationTime (stats s) |}
  |}).

(** [this.stats.validationTime = t] *)
Definition setValidationTime (t : Z) (s : State) : State := {|
  errors := errors s;
  warnings := warnings s;
  stats := {| filesValidated := filesValidated (stats s);
              totalErrors := totalErrors (stats s);
              totalWarnings := totalWarnings (stats s);
              validationTime := t |}
|}.

(** [`src/content/${contentType}/${language}.json`] *)
Definition contentPath (contentType language : string) : string :=
  "src/content/" +++ contentType +++ "/" +++ language +++ ".json".

Definition requiredDirs : list string :=
  [ "src/content/habits"; "src/content/research"; "src/content/locales";
    "src/content/metadata" ].

(** [`${filePath}[${index}]`] *)
Definition at_ (filePath : string) (index : nat) : string :=
  filePath +++ "[" +++ showNat index +++ "]".

Fixpoint assoc {A : Type} (key : string) (l : list (string * A)) : option A :=
  match l with
  | [] => None
  | (k, v) :: rest => if (k =? key) then Some v else assoc key rest
  end.

(** The object literal [evidenceQualityMap], read at [key]: one of its four
    own properties, else a member it inherits from [Object.prototype], else
    [undefined].  An inherited member is given by the string it converts
    to, which is all the comparison that follows takes from it. *)
Definition evidenceQualityMap (key : string) : jsval :=
  if key =? "systematic_review" then Some (JNum 80)
  else if key =? "rct" then Some (JNum 70)
  else if key =? "observational" then Some (JNum 60)
  else if key =? "case_study" then Some (JNum 40)
  else option_map JStr (assoc key objectPrototype).

(** [!sources || sources.length === 0] *)
Definition noSources (sources : jsval) : bool :=
  negb (truthy sources) ||
  match sources with
  | Some j => strictEqNum (lengthOf j) 0
  | None => false
  end.

(** [v.includes(needle)]: the substring test of strings, the membership
    test of arrays, a TypeError on anything else. *)
Definition includesText (name : string) (v : jsval) (needle : string)
    : M State bool :=
  match v with
  | None => throw "Cannot read properties of undefined (reading 'includes')"
  | Some JNull => throw "Cannot read properties of null (reading 'includes')"
  | Some (JStr s) => ret (includes needle s)
  | Some (JArr items) =>
      ret (existsb (fun x => sameValueZero (Some x) (Some (JStr needle))) items)
  | Some _ => throw (name +++ ".includes is not a function")
  end.

(** [v.includes('TODO') || v.includes('placeholder')] *)
Definition hasPlaceholder (name : string) (v : jsval) : M State bool :=
  todo <- includesText name v "TODO" ;;
  if todo then ret true else includesText name v "placeholder".

(** The value of [(a + ' ' + b).split(/\s+/).length]. *)
Definition wordCount (a b : jsval) : nat :=
  splitSpacesLength (show a +++ " " +++ show b).

(** [(a + ' ' + b).split(/\s+/).length]: the concatenation converts both
    operands. *)
Definition countWords (a b : jsval) : M State nat :=
  if converts a && converts b then ret (wordCount a b) else throw notPrimitive.

(** [Object.keys(v)] *)
Definition objectKeys (v : json) : M State (list jsval) :=
  match v with
  | JNull => throw "Cannot convert undefined or null to object"
  | JObj props => ret (map (fun kv => Some (JStr (fst kv))) props)
  | JArr items =>
      ret (map (fun i => Some (JStr (showNat i))) (seq 0 (List.length items)))
  | JStr s =>
      ret (map (fun i => Some (JStr (showNat i))) (seq 0 (String.length s)))
  | _ => ret []
  end.

(** [[...baseline].filter(id => !other.has(id))] *)
Definition missingFrom (baseline other : JsSet) : list jsval :=
  filter (fun id => negb (setHas other id)) baseline.

(** [`${missing.slice(0, n).join(', ')}${missing.length > n ? '...' : ''}`] *)
Definition preview (n : nat) (missing : list jsval) : M State string :=
  shown <- renderJoin ", " (slice0 n missing) ;;
  ret (shown +++ (if (n <? List.length missing)%nat then "..." else "")).

(** [this.supportedLanguages.filter(l => l !== 'en')] *)
Definition otherLanguages : list string :=
  filter (fun l => negb (l =? "en")) supportedLanguages.

(** [Math.round(total / items) < 50]; with no item the quotient is NaN and
    the comparison is false. *)
Definition averageBelow50 (total items : nat) : bool :=
  match items with
  | O => false
  | _ => ((2 * Z.of_nat total + Z.of_nat items) / (2 * Z.of_nat items) <? 50)%Z
  end.

(** The readings of the clock in one run: the year [loadSchemas] reads when
    the validator is constructed; the year [validateResearchSpecific] reads
    while it checks the record at [index] of the file [filePath], once for
    every such record; [Date.now()] before and after the stages; and the
    time stamp of the report. *)
Record Clock : Type := {
  yearAtStart : Z;
  yearAt : string -> nat -> Z;
  startTime : Z;
  endTime : Z;
  isoTime : string
}.

Section Run.

Variable host : Host.
Variable fs : FileSystem.
Variable clock : Clock.

(** [this.schemas], keyed as [loadSchemas] keys them. *)
Definition schemas : list (string * Schema.ObjectSchema) :=
  [ ("habit", Schema.habit); ("research", Schema.research (yearAtStart clock));
    ("locales", Schema.locales) ].

(** [this.compiledSchemas[name]]: [undefined] for any name that is not a
    key of [this.schemas]. *)
Definition compiledSchemas (name : string) : option (json -> list Ajv.AjvError) :=
  option_map (compile host) (assoc name schemas).

(** [validate(value)] followed by a read of [validate.errors]; calling
    [undefined] is a TypeError. *)
Definition call (validate : option (json -> list Ajv.AjvError)) (value : json)
    : M State (list Ajv.AjvError) :=
  match validate with
  | Some f => ret (f value)
  | None => throw "validate is not a function"
  end.

Definition validateContentStructure : M State unit :=
  forEach requiredDirs (fun dir =>
    when (negb (existsSync fs dir))
      (addError ("Missing required directory: " +++ dir))) ;;
  forEach contentTypes (fun contentType =>
    forEach supportedLanguages (fun language =>
      let filePath := contentPath contentType language in
      when (negb (existsSync fs filePath))
        (addWarning ("Missing content file: " +++ filePath)))).

Definition validateHabitSpecific (habit : json) (filePath : string) (index : nat)
    : M State unit :=
  researchBacked <- get habit "researchBacked" ;;
  sources <- get habit "sources" ;;
  when (truthy researchBacked && noSources sources)
    (addWarning (at_ filePath index +++
       ": Habit marked as research-backed but has no sources")) ;;
  timeMinutes <- get habit "timeMinutes" ;;
  long <- less host (Some (JNum 60)) timeMinutes ;;
  difficulty <- get habit "difficulty" ;;
  when (long && strictEqStr difficulty "beginner")
    (minutes <- render timeMinutes ;;
     addWarning (at_ filePath index +++ ": Long duration (" +++
       minutes +++ "min) for beginner habit")) ;;
  title <- get habit "title" ;;
  titleValue <- defined title "length" ;;
  short <- less host (lengthOf titleValue) (Some (JNum 10)) ;;
  when short
    (shown <- render title ;;
     addWarning (at_ filePath index +++ ": Title may be too short: " +++
       dquote +++ shown +++ dquote)).

Definition validateResearchSpecific (research : json) (filePath : string)
    (index : nat) : M State unit :=
  doi <- get research "doi" ;;
  (if truthy doi then
     matched <- match doi with
                | Some (JStr s) => ret (matchesDoi s)
                | _ => throw "research.doi.match is not a function"
                end ;;
     when (negb matched)
       (shown <- render doi ;;
        addWarning (at_ filePath index +++ ": DOI format may be invalid: " +++
          shown))
   else ret tt) ;;
  evidenceLevel <- get research "evidenceLevel" ;;
  key <- render evidenceLevel ;;
  let expectedMinQuality := evidenceQualityMap key in
  qualityScore <- get research "qualityScore" ;;
  low <- less host qualityScore expectedMinQuality ;;
  when low
    (score <- render qualityScore ;;
     level <- render evidenceLevel ;;
     addWarning (at_ filePath index +++ ": Quality score (" +++
       score +++ ") seems low for " +++ level)) ;;
  let currentYear := yearAt clock filePath index in
  researchYear <- get research "year" ;;
  old <- less host researchYear (Some (JNum (currentYear - 10))) ;;
  when old
    (shown <- render researchYear ;;
     addWarning (at_ filePath index +++ ": Research is over 10 years old (" +++
       shown +++ ")")).

Definition validateContentItem (item : json) (contentType language filePath : string)
    (index : nat) : M State unit :=
  let validate := compiledSchemas contentType in
  errs <- call validate item ;;
  forEach errs (fun error =>
    addError (at_ filePath index +++ ": " +++ Ajv.instancePath error +++ " " +++
              Ajv.message error)) ;;
  (if contentType =? "habit" then validateHabitSpecific item filePath index
   else if contentType =? "research" then validateResearchSpecific item filePath index
   else ret tt) ;;
  itemLanguage <- get item "language" ;;
  when (truthy itemLanguage && negb (strictEqStr itemLanguage language))
    (shown <- render itemLanguage ;;
     addWarning (at_ filePath index +++ ": Language mismatch (expected " +++
       language +++ ", got " +++ shown +++ ")")).

Definition validateContentFile (content : json) (contentType language filePath : string)
    : M State unit :=
  if contentType =? "locales" then
    let validate := compiledSchemas "locales" in
    errs <- call validate content ;;
    forEach errs (fun error =>
      addError (filePath +++ ": " +++ Ajv.instancePath error +++ " " +++
                Ajv.message error))
  else
    match content with
    | JArr items =>
        forEachFrom 0 items (fun item index =>
          validateContentItem item contentType language filePath index)
    | _ => addError (filePath +++ ": Content must be an array")
    end.

(** The body of the loop of [validateContentType], for one language. *)
Definition validateContentTypeIn (contentType language : string) : M State unit :=
  let filePath := contentPath contentType language in
  if negb (existsSync fs filePath) then
    addWarning ("Missing " +++ contentType +++ " file for " +++ language +++
                ": " +++ filePath)
  else
    tryCatch
      (content <- readJson fs filePath ;;
       validateContentFile content contentType language filePath ;;
       countFile)
      (fun message => addError ("Invalid JSON in " +++ filePath +++ ": " +++ message)).

Definition validateContentType (contentType : string) : M State unit :=
  forEach supportedLanguages (validateContentTypeIn contentType).

(** First loop of [validateCrossReferences]: the IDs of one research file
    are added to [allResearchIds]. *)
Definition collectResearchIds (allResearchIds : JsSet) (language : string)
    : M State JsSet :=
  let filePath := "src/content/research/" +++ language +++ ".json" in
  if existsSync fs filePath then
    research <- readJson fs filePath ;;
    items <- arrayOf "research" "forEach" research ;;
    foldM (fun ids item => id <- get item "id" ;; ret (setAdd ids id))
      items allResearchIds
  else ret allResearchIds.

(** Second loop of [validateCrossReferences]: the sources of the habits of
    one file are looked up. *)
Definition checkHabitSources (allResearchIds : JsSet) (language : string)
    : M State unit :=
  let filePath := "src/content/habits/" +++ language +++ ".json" in
  if existsSync fs filePath then
    habits <- readJson fs filePath ;;
    items <- arrayOf "habits" "forEach" habits ;;
    forEachFrom 0 items (fun habit index =>
      sources <- get habit "sources" ;;
      match sources with
      | Some list =>
          if truthy sources then
            sourceIds <- arrayOf "habit.sources" "forEach" list ;;
            forEach sourceIds (fun sourceId =>
              when (negb (setHas allResearchIds (Some sourceId)))
                (shown <- render (Some sourceId) ;;
                 addWarning (at_ filePath index +++
                   ": References unknown research: " +++ shown)))
          else ret tt
      | None => ret tt
      end)
  else ret tt.

Definition validateCrossReferences : M State unit :=
  allResearchIds <- foldM collectResearchIds supportedLanguages [] ;;
  forEach supportedLanguages (checkHabitSources allResearchIds).

Definition loadContentSafely (contentType language : string) : M State json :=
  let filePath := contentPath contentType language in
  loaded <- tryCatch
              (if existsSync fs filePath
               then content <- readJson fs filePath ;; ret (Some content)
               else ret None)
              (fun message =>
                 addError ("Failed to load " +++ filePath +++ ": " +++ message) ;;
                 ret None) ;;
  match loaded with
  | Some content => ret content
  | None => ret (if contentType =? "locales" then JObj [] else JArr [])
  end.

(** [if (missing.length > 0) this.addWarning(`${label}${preview}`)] *)
Definition warnMissing (label : string) (n : nat) (missing : list jsval)
    : M State unit :=
  when (0 <? List.length missing)%nat
    (shown <- preview n missing ;; addWarning (label +++ shown)).

Definition validateTranslationCompleteness : M State unit :=
  (* habits *)
  englishHabits <- loadContentSafely "habits" "en" ;;
  ids <- recordIds "englishHabits" englishHabits ;;
  let englishHabitIds := newSet ids in
  forEach otherLanguages (fun language =>
    langHabits <- loadContentSafely "habits" language ;;
    ids <- recordIds "langHabits" langHabits ;;
    let langHabitIds := newSet ids in
    warnMissing ("Missing " +++ language +++ " translations for habits: ") 5
      (missingFrom englishHabitIds langHabitIds)) ;;
  (* research *)
  englishResearch <- loadContentSafely "research" "en" ;;
  ids <- recordIds "englishResearch" englishResearch ;;
  let englishResearchIds := newSet ids in
  forEach otherLanguages (fun language =>
    langResearch <- loadContentSafely "research" language ;;
    ids <- recordIds "langResearch" langResearch ;;
    let langResearchIds := newSet ids in
    warnMissing ("Missing " +++ language +++ " translations for research: ") 3
      (missingFrom englishResearchIds langResearchIds)) ;;
  (* locale keys *)
  englishLocales <- loadContentSafely "locales" "en" ;;
  keys <- objectKeys englishLocales ;;
  let englishKeys := newSet keys in
  forEach otherLanguages (fun language =>
    langLocales <- loadContentSafely "locales" language ;;
    keys <- objectKeys langLocales ;;
    let langKeys := newSet keys in
    warnMissing ("Missing " +++ language +++ " locale keys: ") 5
      (missingFrom englishKeys langKeys)).

(** The callback of [habits.forEach] in [validateContentQuality]; the pair
    is the local variables [totalWordCount] and [contentItems]. *)
Definition habitQuality (totals : nat * nat) (habit : json) : M State (nat * nat) :=
  title <- get habit "title" ;;
  description <- get habit "description" ;;
  words <- countWords title description ;;
  id <- get habit "id" ;;
  when (words <? 20)%nat
    (shown <- render id ;;
     addWarning ("Habit " +++ shown +++ " has low word count (" +++
       showNat words +++ " words)")) ;;
  placeholder <- hasPlaceholder "habit.description" description ;;
  when placeholder
    (shown <- render id ;;
     addError ("Habit " +++ shown +++ " contains placeholder text")) ;;
  ret (fst totals + words, S (snd totals)).

(** The callback of [research.forEach] in [validateContentQuality]. *)
Definition researchQuality (totals : nat * nat) (article : json)
    : M State (nat * nat) :=
  title <- get article "title" ;;
  summary <- get article "summary" ;;
  words <- countWords title summary ;;
  id <- get article "id" ;;
  when (words <? 30)%nat
    (shown <- render id ;;
     addWarning ("Research " +++ shown +++ " has low word count (" +++
       showNat words +++ " words)")) ;;
  placeholder <- hasPlaceholder "article.summary" summary ;;
  when placeholder
    (shown <- render id ;;
     addError ("Research " +++ shown +++ " contains placeholder text")) ;;
  ret (fst totals + words, S (snd totals)).

(** The body of the loop over the languages in [validateContentQuality]. *)
Definition languageQuality (totals : nat * nat) (language : string)
    : M State (nat * nat) :=
  habits <- loadContentSafely "habits" language ;;
  habitItems <- arrayOf "habits" "forEach" habits ;;
  totals <- foldM habitQuality habitItems totals ;;
  research <- loadContentSafely "research" language ;;
  researchItems <- arrayOf "research" "forEach" research ;;
  foldM researchQuality researchItems totals.

Definition validateContentQuality : M State unit :=
  totals <- foldM languageQuality supportedLanguages (0, 0) ;;
  when (averageBelow50 (fst totals) (snd totals))
    (addWarning "Overall content word count is below recommended minimum").

(** The stages of [validateAll] between the two readings of the clock. *)
Definition stages : M State unit :=
  validateContentStructure ;;
  forEach contentTypes validateContentType ;;
  validateCrossReferences ;;
  validateTranslationCompleteness ;;
  validateContentQuality.

End Run.

(** The content of [validation-report.json]. *)
Record Report : Type := {
  timestamp : string;
  statistics : Stats;
  reportErrors : list string;
  reportWarnings : list string;
  passed : bool
}.

(** How a run ends: [generateReport] writes the report and exits with a
    code, or an exception reaches the [catch] of [validateAll], which prints
    its message and exits with code 1 without any report. *)
Inductive Outcome : Type :=
| Reported (report : Report) (exitCode : Z)
| Aborted (message : string) (final : State).

(** [generateReport], called inside the [try] of [validateAll]; [now] is
    [new Date().toISOString()].  The report is written before the process
    exits, so a write that throws ends the run in the [catch].  The console
    output is not part of the model. *)
Definition generateReport (host : Host) (now : string) (s : State) : Outcome :=
  let report :=
    {| timestamp := now;
       statistics := stats s;
       reportErrors := errors s;
       reportWarnings := warnings s;
       passed := (List.length (errors s) =? 0)%nat |} in
  match writeFileSync host "validation-report.json" with
  | None => Reported report (if (0 <? List.length (errors s))%nat then 1%Z else 0%Z)
  | Some message => Aborted message s
  end.

Definition validateAll (host : Host) (fs : FileSystem) (clock : Clock) : Outcome :=
  match stages host fs clock constructor with
  | Ok _ s =>
      generateReport host (isoTime clock)
        (setValidationTime (endTime clock - startTime clock) s)
  | Throw message s => Aborted message s
  end.

End ContentValidator.

(** ** The duplicate-ID check of [tests/content-validation.test.js] *)

Module ContentTests.

Import Eff.
#[local] Open Scope eff_scope.

(** The fields [errors] and [warnings] of the test validator; its [stats]
    are not touched by the check. *)
Record State : Type := { errors : list string; warnings : list string }.

Definition start : State := {| errors := []; warnings := [] |}.

(** [this.errors.push(message)] *)
Definition pushError (message : string) : M State unit :=
  modify (fun s => {| errors := errors s ++ [message]; warnings := warnings s |}).

(** The files are named relative to [CONTENT_DIR]. *)
Definition REQUIRED_FILES : list string :=
  [ "multilingual-science-habits-en.json"; "multilingual-science-habits-de.json" ].

(** The callback of [habits.forEach]: the pair is the local sets [fileIds]
    and [fileDuplicates]. *)
Definition noteId (sets : JsSet * JsSet) (id : jsval) : JsSet * JsSet :=
  if truthy id then
    (setAdd (fst sets) id,
     if setHas (fst sets) id then setAdd (snd sets) id else snd sets)
  else sets.

Definition noteHabit (sets : JsSet * JsSet) (habit : json) : M State (JsSet * JsSet) :=
  id <- get habit "id" ;;
  ret (noteId sets id).

(** The body of the first loop of [checkDuplicateIds], for one file. *)
Definition checkFile (fs : FileSystem) (file : string) : M State unit :=
  if negb (existsSync fs file) then ret tt
  else
    habits <- readJson fs file ;;
    items <- arrayOf "habits" "forEach" habits ;;
    sets <- foldM noteHabit items ([], []) ;;
    let fileDuplicates := snd sets in
    when (0 <? List.length fileDuplicates)%nat
      (shown <- renderJoin ", " fileDuplicates ;;
       pushError ("Duplicate habit IDs in " +++ file +++ ": " +++ shown)).

(** The second part of [checkDuplicateIds]: the EN and DE files must have
    the same IDs. *)
Definition checkMatchingIds (fs : FileSystem) : M State unit :=
  let enFilePath := nth 0 REQUIRED_FILES "" in
  let deFilePath := nth 1 REQUIRED_FILES "" in
  if existsSync fs enFilePath && existsSync fs deFilePath then
    enHabits <- readJson fs enFilePath ;;
    deHabits <- readJson fs deFilePath ;;
    enList <- recordIds "enHabits" enHabits ;;
    let enIds := newSet enList in
    deList <- recordIds "deHabits" deHabits ;;
    let deIds := newSet deList in
    let missingInDe := filter (fun id => negb (setHas deIds id)) enIds in
    let missingInEn := filter (fun id => negb (setHas enIds id)) deIds in
    when (0 <? List.length missingInDe)%nat
      (shown <- renderJoin ", " missingInDe ;;
       pushError ("Missing German translations for habit IDs: " +++ shown)) ;;
    when (0 <? List.length missingInEn)%nat
      (shown <- renderJoin ", " missingInEn ;;
       pushError ("Missing English translations for habit IDs: " +++ shown))
  else ret tt.

Definition checkDuplicateIds (fs : FileSystem) : M State unit :=
  forEach REQUIRED_FILES (checkFile fs) ;;
  checkMatchingIds fs.

End ContentTests.

(** ** The duplicate-ID check of [scripts/validate-goal-content.js] *)

Module GoalContent.

(** The body of the inner loop of [validateCrossFileConsistency]: the pair
    is the local set [allHabitIds] and the array [duplicates]. *)
Definition noteId (acc : JsSet * list jsval) (id : jsval) : JsSet * list jsval :=
  if setHas (fst acc) id then (fst acc, snd acc ++ [id])
  else (setAdd (fst acc) id, snd acc).

(** The array [duplicates] after the loops; each validated file is given by
    the IDs of its habits, in order. *)
Definition duplicates (validatedFiles : list (list jsval)) : list jsval :=
  snd (fold_left (fun acc file => fold_left noteId file acc) validatedFiles ([], [])).

(** The message of the [ValidationError] the check throws, if it throws.
    An ID enters [duplicates] when the set has it, so it is a primitive or
    [undefined], on which the conversion that [join] makes returns. *)
Definition duplicateError (validatedFiles : list (list jsval)) : option string :=
  let ds := duplicates validatedFiles in
  if (0 <? List.length ds)%nat
  then Some ("Duplicate habit IDs found across files: " +++ join ", " ds)
  else None.

End GoalContent.

(** ** Operators of the language used by the test suite and the goal script *)

Module JsOps.

(** [typeof v] *)
Definition typeOf (v : jsval) : string :=
  match v with
  | None => "undefined"
  | Some (JBool _) => "boolean"
  | Some (JNum _) => "number"
  | Some (JStr _) => "string"
  | Some _ => "object"
  end.

(** [list.includes(v)] for an array of string constants. *)
Definition includedIn (list : list string) (v : jsval) : bool :=
  existsb (strictEqStr v) list.

(** [Array.isArray(v)] *)
Definition isArray (v : jsval) : bool :=
  match v with
  | Some (JArr _) => true
  | _ => false
  end.

(** [v === undefined || v === null] *)
Definition isNullish (v : jsval) : bool :=
  match v with
  | None => true
  | Some JNull => true
  | Some _ => false
  end.

(** [v || d] *)
Definition orElse (v : jsval) (d : json) : jsval :=
  if truthy v then v else Some d.

(** [a === b] for values that come from distinct places: two arrays or
    two objects are never the same reference. *)
Definition strictEquals (a b : jsval) : bool := sameValueZero a b.

(** [typeof v === 'number' && v < bound] *)
Definition numberBelow (v : jsval) (bound : Z) : bool :=
  match v with
  | Some (JNum n) => (n <? bound)%Z
  | _ => false
  end.

(** [typeof v === 'number' && v > bound] *)
Definition numberAbove (v : jsval) (bound : Z) : bool :=
  match v with
  | Some (JNum n) => (bound <? n)%Z
  | _ => false
  end.

End JsOps.

(** ** The habit check of [scripts/validate-goal-content.js] *)

Module GoalHabits.

Import JsOps.

(** The fields of [VALIDATION_RULES] that the check reads. *)
Definition requiredFields : list string :=
  [ "id"; "title"; "description"; "category"; "difficulty"; "timeMinutes";
    "language"; "researchBacked"; "effectivenessScore"; "effectivenessRank";
    "priority"; "isPrimaryRecommendation"; "goalTags"; "instructions";
    "whyEffective"; "researchSummary"; "sources"; "optimalTiming";
    "progressionTips" ].

Definition validDifficulties : list string :=
  [ "beginner"; "intermediate"; "advanced"; "easy"; "moderate"; "challenging" ].

Definition validCategories : list string :=
  [ "feel_better"; "get_moving"; "better_sleep" ].

Definition maxTimeMinutes : Z := 60.
Definition minEffectivenessScore : Z := 0.
Definition maxEffectivenessScore : Z := 10.

(** [!(field in habit) || habit[field] === null || habit[field] === undefined]
    for an object or an array [habit]. *)
Definition missing (habit : json) (field : string) : bool :=
  match member habit field with
  | None => true
  | Some JNull => true
  | Some _ => false
  end.

(** [!Array.isArray(v) || v.length === 0] *)
Definition notNonEmptyArray (v : jsval) : bool :=
  match v with
  | Some (JArr (_ :: _)) => false
  | _ => true
  end.

(** The line break and indentation between two errors of the message. *)
Definition separator : string := String (ascii_of_nat 10) "  ".

(** How [validateHabitStructure] ends: it returns, it throws a
    [ValidationError], or it throws a TypeError: the [in] operator on a
    [habit] that is not an object, or a comparison or a template literal on
    a field that does not convert. *)
Inductive Outcome : Type :=
| Passes
| Rejects (message : string)
| TypeError.

Section Checks.

Import Eff.
#[local] Open Scope eff_scope.

Variable host : Host.

(** [errors.push(message)] on the local array [errors]. *)
Definition push (message : string) : M (list string) unit :=
  modify (fun errors => errors ++ [message]).

(** [v < low || v > high] *)
Definition outside (v : jsval) (low high : Z) : M (list string) bool :=
  below <- less host v (Some (JNum low)) ;;
  if below then ret true else less host (Some (JNum high)) v.

(** [if (v && (v < low || v > high)) errors.push(`Invalid ${name}: ${v} (should be ${range})`)] *)
Definition checkRange (name : string) (v : jsval) (low high : Z) (range : string)
    : M (list string) unit :=
  if truthy v then
    out <- outside v low high ;;
    when out
      (shown <- render v ;;
       push ("Invalid " +++ name +++ ": " +++ shown +++ " (should be " +++
             range +++ ")"))
  else ret tt.

(** [if (v && !valid.includes(v)) errors.push(`Invalid ${name}: ${v}`)] *)
Definition checkListed (name : string) (v : jsval) (valid : list string)
    : M (list string) unit :=
  when (truthy v && negb (includedIn valid v))
    (shown <- render v ;; push ("Invalid " +++ name +++ ": " +++ shown)).

(** [if (!Array.isArray(v) || v.length === 0) errors.push(`${name} must be a non-empty array`)] *)
Definition checkArray (name : string) (v : jsval) : M (list string) unit :=
  when (notNonEmptyArray v) (push (name +++ " must be a non-empty array")).

(** The checks of [validateHabitStructure] that fill the array [errors],
    for an object or an array [habit]. *)
Definition checks (habit : json) : M (list string) unit :=
  forEach requiredFields (fun field =>
    when (missing habit field) (push ("Missing required field: " +++ field))) ;;
  checkListed "difficulty" (member habit "difficulty") validDifficulties ;;
  checkListed "category" (member habit "category") validCategories ;;
  checkRange "timeMinutes" (member habit "timeMinutes") 1 maxTimeMinutes
    ("1-" +++ showZ maxTimeMinutes) ;;
  checkRange "effectivenessScore" (member habit "effectivenessScore")
    minEffectivenessScore maxEffectivenessScore
    (showZ minEffectivenessScore +++ "-" +++ showZ maxEffectivenessScore) ;;
  checkRange "priority" (member habit "priority") 1 100 "1-100" ;;
  when (negb (typeOf (member habit "isPrimaryRecommendation") =? "boolean"))
    (push ("isPrimaryRecommendation must be boolean, got: " +++
           typeOf (member habit "isPrimaryRecommendation"))) ;;
  checkArray "goalTags" (member habit "goalTags") ;;
  checkArray "instructions" (member habit "instructions") ;;
  checkArray "sources" (member habit "sources") ;;
  checkArray "progressionTips" (member habit "progressionTips").

Definition validateHabitStructure (habit : json) (filename : string) : Outcome :=
  match habit with
  | JObj _ | JArr _ =>
      match checks habit [] with
      | Ok _ errors =>
          if (0 <? List.length errors)%nat then
            if converts (member habit "id")
            then Rejects ("Habit " +++ show (member habit "id") +++ " in " +++
                          filename +++ ":" +++ separator +++
                          joinStrings separator errors)
            else TypeError
          else Passes
      | Throw _ _ => TypeError
      end
  | _ => TypeError
  end.

End Checks.

End GoalHabits.

(** ** The test suite: class [ContentValidator] of
    [tests/content-validation.test.js] *)

Module ContentSuite.

Import Eff JsOps.
#[local] Open Scope eff_scope.

Definition REQUIRED_HABIT_FIELDS : list string :=
  [ "id"; "title"; "description"; "category"; "difficulty"; "timeMinutes";
    "language"; "researchBacked"; "effectivenessScore"; "effectivenessRank";
    "isPrimaryRecommendation"; "goalTags"; "instructions"; "whyEffective";
    "researchSummary"; "sources"; "optimalTiming"; "progressionTips" ].

Definition VALID_CATEGORIES : list string :=
  [ "better_sleep"; "get_moving"; "feel_better" ].

Definition VALID_DIFFICULTIES : list string :=
  [ "trivial"; "easy"; "moderate"; "intermediate"; "advanced"; "beginner" ].

(** The first name has the code unit 228, a with diaeresis, after [Anf]. *)
Definition VALID_DIFFICULTIES_DE : list string :=
  [ "Anf" +++ String (ascii_of_nat 228) "nger"; "Einfach"; "Mittelstufe";
    "Fortgeschritten"; "Experte" ].

Definition MIN_HABITS_PER_CATEGORY : nat := 2.

(** The fields [errors] and [warnings] and the statistics that the checks
    read: [stats.categoryCounts] at the three valid categories (a missing
    entry is the count 0; entries under other keys are never read) and
    [stats.languageCounts].  [stats.totalHabits] is only printed and is not
    part of the model. *)
Record State : Type := {
  errors : list string;
  warnings : list string;
  categoryCounts : string -> nat;
  languageCounts : string -> jsval
}.

Definition constructor : State := {|
  errors := [];
  warnings := [];
  categoryCounts := fun _ => 0;
  languageCounts := fun _ => None
|}.

(** [this.errors.push(message)] *)
Definition pushError (message : string) : M State unit :=
  modify (fun s => {| errors := errors s ++ [message];
                      warnings := warnings s;
                      categoryCounts := categoryCounts s;
                      languageCounts := languageCounts s |}).

(** [this.warnings.push(message)] *)
Definition pushWarning (message : string) : M State unit :=
  modify (fun s => {| errors := errors s;
                      warnings := warnings s ++ [message];
                      categoryCounts := categoryCounts s;
                      languageCounts := languageCounts s |}).

(** [counts[key] = (counts[key] || 0) + 1] *)
Definition countCategory (key : string) : M State unit :=
  modify (fun s => {| errors := errors s;
                      warnings := warnings s;
                      categoryCounts :=
                        fun k => if k =? key then S (categoryCounts s k)
                                 else categoryCounts s k;
                      languageCounts := languageCounts s |}).

(** [this.stats.languageCounts[language] = count] *)
Definition setLanguageCount (language : string) (count : jsval) : M State unit :=
  modify (fun s => {| errors := errors s;
                      warnings := warnings s;
                      categoryCounts := categoryCounts s;
                      languageCounts :=
                        fun k => if k =? language then count
                                 else languageCounts s k |}).

(** A read of the validator object. *)
Definition read {A : Type} (f : State -> A) : M State A := fun s => Ok (f s) s.

(** Test 1. *)
Definition validateFileStructure (fs : FileSystem) : M State unit :=
  forEach ContentTests.REQUIRED_FILES (fun file =>
    when (negb (existsSync fs file))
      (pushError ("Missing required file: " +++ file))) ;;
  forEach ContentTests.REQUIRED_FILES (fun file =>
    if existsSync fs file then
      tryCatch
        (data <- readJson fs file ;;
         when (negb (isArray (Some data)))
           (pushError (file +++ " must contain an array of habits")))
        (fun message => pushError ("Invalid JSON in " +++ file +++ ": " +++ message))
    else ret tt).

Definition validateSingleHabit (habit : json) (index : nat)
    (fileName language : string) : M State unit :=
  id <- get habit "id" ;;
  shownId <- render (orElse id (JStr "unknown")) ;;
  let habitContext :=
    fileName +++ "[" +++ showNat index +++ "] (ID: " +++ shownId +++ ")" in
  forEach REQUIRED_HABIT_FIELDS (fun field =>
    when (isNullish (member habit field))
      (pushError (habitContext +++ ": Missing required field '" +++ field +++ "'"))) ;;
  when (truthy id && negb (typeOf id =? "string"))
    (pushError (habitContext +++ ": 'id' must be a string")) ;;
  let category := member habit "category" in
  when (truthy category && negb (includedIn VALID_CATEGORIES category))
    (shown <- render category ;;
     pushError (habitContext +++ ": Invalid category '" +++ shown +++
                "'. Must be one of: " +++ joinStrings ", " VALID_CATEGORIES)) ;;
  let difficulty := member habit "difficulty" in
  (if truthy difficulty then
     let validDifficulties :=
       if language =? "de" then VALID_DIFFICULTIES_DE else VALID_DIFFICULTIES in
     when (negb (includedIn validDifficulties difficulty))
       (shown <- render difficulty ;;
        pushError (habitContext +++ ": Invalid difficulty '" +++ shown +++
                   "'. Must be one of: " +++ joinStrings ", " validDifficulties))
   else ret tt) ;;
  let habitLanguage := member habit "language" in
  when (truthy habitLanguage && negb (strictEqStr habitLanguage language))
    (shown <- render habitLanguage ;;
     pushError (habitContext +++ ": Language field '" +++ shown +++
                "' doesn't match file language '" +++ language +++ "'")) ;;
  let effectivenessScore := member habit "effectivenessScore" in
  when (truthy effectivenessScore
        && (negb (typeOf effectivenessScore =? "number")
            || numberBelow effectivenessScore 0
            || numberAbove effectivenessScore 10))
    (pushError (habitContext +++
                ": effectivenessScore must be a number between 0 and 10")) ;;
  let timeMinutes := member habit "timeMinutes" in
  when (truthy timeMinutes
        && (negb (typeOf timeMinutes =? "number") || numberBelow timeMinutes 0))
    (pushError (habitContext +++ ": timeMinutes must be a positive number")) ;;
  let goalTags := member habit "goalTags" in
  when (truthy goalTags && negb (isArray goalTags))
    (pushError (habitContext +++ ": goalTags must be an array")) ;;
  let instructions := member habit "instructions" in
  when (truthy instructions && negb (isArray instructions))
    (pushError (habitContext +++ ": instructions must be an array")) ;;
  when (truthy category) (key <- render category ;; countCategory key).

(** Test 2.  The progress line printed for a file quotes [habits.length] in
    a template literal, which converts it. *)
Definition validateHabitData (fs : FileSystem) : M State unit :=
  forEach ContentTests.REQUIRED_FILES (fun file =>
    if negb (existsSync fs file) then ret tt
    else
      habits <- readJson fs file ;;
      let language := if includes "-en." file then "en" else "de" in
      habitsValue <- defined (Some habits) "length" ;;
      _ <- render (lengthOf habitsValue) ;;
      setLanguageCount language (lengthOf habitsValue) ;;
      items <- arrayOf "habits" "forEach" habits ;;
      forEachFrom 0 items (fun habit index =>
        validateSingleHabit habit index file language)).

(** A call that runs on the [errors] and [warnings] of the validator and
    leaves its statistics alone. *)
Definition onIssues {A : Type} (m : M ContentTests.State A) : M State A :=
  fun s =>
    let put (t : ContentTests.State) : State :=
      {| errors := ContentTests.errors t;
         warnings := ContentTests.warnings t;
         categoryCounts := categoryCounts s;
         languageCounts := languageCounts s |} in
    match m {| ContentTests.errors := errors s;
               ContentTests.warnings := warnings s |} with
    | Ok a t => Ok a (put t)
    | Throw message t => Throw message (put t)
    end.

(** Test 3. *)
Definition validateBusinessRules (fs : FileSystem) : M State unit :=
  forEach VALID_CATEGORIES (fun category =>
    count <- read (fun s => categoryCounts s category) ;;
    when (count <? MIN_HABITS_PER_CATEGORY)%nat
      (pushError ("Category '" +++ category +++ "' has only " +++ showNat count +++
                  " habits, minimum required: " +++
                  showNat MIN_HABITS_PER_CATEGORY))) ;;
  en <- read (fun s => languageCounts s "en") ;;
  de <- read (fun s => languageCounts s "de") ;;
  let enCount := orElse en (JNum 0) in
  let deCount := orElse de (JNum 0) in
  when (negb (strictEquals enCount deCount))
    (shownEn <- render enCount ;;
     shownDe <- render deCount ;;
     pushWarning ("Language mismatch: EN has " +++ shownEn +++
                  " habits, DE has " +++ shownDe +++ " habits")) ;;
  onIssues (ContentTests.checkDuplicateIds fs).

(** The callback of [habits.map] in [validateCompatibility]: of the object
    it builds, the checks read [goalCategory] alone. *)
Definition convert (habit : json) : M State jsval :=
  _ <- get habit "id" ;;
  ret (member habit "category").

(** Test 4. *)
Definition validateCompatibility (fs : FileSystem) : M State unit :=
  let enFile := "multilingual-science-habits-en.json" in
  if negb (existsSync fs enFile) then
    pushError "Cannot test compatibility: English habit file missing"
  else
    habits <- readJson fs enFile ;;
    tryCatch
      (items <- arrayOf "habits" "map" habits ;;
       convertedHabits <- mapM convert items ;;
       forEach VALID_CATEGORIES (fun category =>
         let categoryHabits :=
           filter (fun goalCategory => strictEqStr goalCategory category)
             convertedHabits in
         when (List.length categoryHabits =? 0)%nat
           (pushError ("No habits found for goal category: " +++ category))))
      (fun message => pushError ("Compatibility test failed: " +++ message)).

(** The four tests in sequence. *)
Definition tests (fs : FileSystem) : M State unit :=
  validateFileStructure fs ;;
  validateHabitData fs ;;
  validateBusinessRules fs ;;
  validateCompatibility fs.

(** How a run ends: with the exit code that follows the report, or in the
    [catch] of [validateAll], which prints the message and exits with
    code 1. *)
Inductive Outcome : Type :=
| Finished (exitCode : Z) (final : State)
| Aborted (message : string) (final : State).

Definition validateAll (fs : FileSystem) : Outcome :=
  match tests fs constructor with
  | Ok _ s => Finished (if (0 <? List.length (errors s))%nat then 1 else 0)%Z s
  | Throw message s => Aborted message s
  end.

End ContentSuite.

(** ** The statistics script: class [ContentStatsGenerator] *)

Module ContentStats.

(** [text.split(/\s+/)]: the tokens between the maximal runs of white
    space. [current] is the token read so far and [inRun] tells whether the
    previous character was white space. *)
Fixpoint splitFrom (inRun : bool) (current : string) (s : string) : list string :=
  match s with
  | EmptyString => [current]
  | String c rest =>
      if isSpace c then
        if inRun then splitFrom true current rest
        else current :: splitFrom true "" rest
      else splitFrom false (current +++ String c "") rest
  end.

Definition splitSpaces (text : string) : list string := splitFrom false "" text.

(** [countWords(text)] for a string:
    [text ? text.split(/\s+/).filter(word => word.length > 0).length : 0] *)
Definition countWords (text : string) : nat :=
  if text =? "" then 0
  else List.length
         (filter (fun word => (0 <? String.length word)%nat) (splitSpaces text)).

(** [loadContentSafely(filePath)] of the generator: the parsed content, or
    [null] when the file is absent or reading or parsing it throws. *)
Definition loadContentSafely (fs : FileSystem) (filePath : string) : json :=
  match fs filePath with
  | Content value => value
  | _ => JNull
  end.

(** [Object.keys(v).length] for a truthy value. *)
Definition keyCount (v : json) : nat :=
  match v with
  | JObj props => List.length props
  | JArr items => List.length items
  | JStr text => String.length text
  | _ => 0
  end.

(** [content.length] for an array. *)
Definition arrayLength (v : json) : nat :=
  match v with
  | JArr items => List.length items
  | _ => 0
  end.

(** The local variables of [calculateSummaryStats]. *)
Record Totals : Type := {
  totalFiles : nat;
  totalHabits : nat;
  totalResearch : nat;
  totalLocaleKeys : nat
}.

(** The body of the inner loop of [calculateSummaryStats]. *)
Definition countContent (fs : FileSystem) (language : string) (t : Totals)
    (contentType : string) : Totals :=
  let filePath := ContentValidator.contentPath contentType language in
  if existsSync fs filePath then
    let content := loadContentSafely fs filePath in
    let files := S (totalFiles t) in
    if (contentType =? "habits") && JsOps.isArray (Some content) then
      {| totalFiles := files;
         totalHabits := totalHabits t + arrayLength content;
         totalResearch := totalResearch t;
         totalLocaleKeys := totalLocaleKeys t |}
    else if (contentType =? "research") && JsOps.isArray (Some content) then
      {| totalFiles := files;
         totalHabits := totalHabits t;
         totalResearch := totalResearch t + arrayLength content;
         totalLocaleKeys := totalLocaleKeys t |}
    else if (contentType =? "locales") && truthy (Some content) then
      {| totalFiles := files;
         totalHabits := totalHabits t;
         totalResearch := totalResearch t;
         totalLocaleKeys := totalLocaleKeys t + keyCount content |}
    else
      {| totalFiles := files;
         totalHabits := totalHabits t;
         totalResearch := totalResearch t;
         totalLocaleKeys := totalLocaleKeys t |}
  else t.

(** The totals after the two loops of [calculateSummaryStats]. *)
Definition summaryTotals (fs : FileSystem) : Totals :=
  fold_left
    (fun t language => fold_left (countContent fs language) contentTypes t)
    supportedLanguages
    {| totalFiles := 0; totalHabits := 0; totalResearch := 0;
       totalLocaleKeys := 0 |}.

(** [Math.round(total / n)] for a count [total] and a positive [n]. *)
Definition roundedAverage (total n : nat) : nat := (2 * total + n) / (2 * n).

(** [this.stats.summary] *)
Record Summary : Type := {
  totals : Totals;
  averageHabitsPerLanguage : nat;
  averageResearchPerLanguage : nat;
  averageLocaleKeysPerLanguage : nat
}.

Definition calculateSummaryStats (fs : FileSystem) : Summary :=
  let t := summaryTotals fs in
  let languages := List.length supportedLanguages in
  {| totals := t;
     averageHabitsPerLanguage := roundedAverage (totalHabits t) languages;
     averageResearchPerLanguage := roundedAverage (totalResearch t) languages;
     averageLocaleKeysPerLanguage := roundedAverage (totalLocaleKeys t) languages |}.

End ContentStats.

(** ** Concrete inputs *)

Module Inputs.

(** A file system given by its entries; every other path is missing. *)
Definition files (entries : list (string * Entry)) : FileSystem :=
  fun path =>
    match ContentValidator.assoc path entries with
    | Some e => e
    | None => Missing
    end.

(** The four required directories. *)
Definition dirs : list (string * Entry) :=
  map (fun d => (d, Directory)) ContentValidator.requiredDirs.

(** A habit that conforms to the habit schema, marked as research-backed
    and without [sources]. *)
Definition morningWalk : json :=
  JObj [ ("id", JStr "morning-walk");
         ("title", JStr "Morning walk");
         ("description", JStr "Walk outside for ten minutes after waking up.");
         ("category", JStr "exercise");
         ("difficulty", JStr "beginner");
         ("timeMinutes", JNum 10);
         ("language", JStr "en");
         ("researchBacked", JBool true) ].

(** A research record of 2015 that conforms to the research schema. *)
Definition sleepStudy : json :=
  JObj [ ("id", JStr "sleep-duration-2015");
         ("title", JStr "Sleep duration and health outcomes");
         ("summary", JStr "A large cohort study relating nightly sleep duration to long term health outcomes.");
         ("authors", JStr "Smith J, Doe A");
         ("year", JNum 2015);
         ("journal", JStr "Sleep Medicine");
         ("category", JStr "sleep");
         ("evidenceLevel", JStr "observational");
         ("qualityScore", JNum 75);
         ("language", JStr "en") ].


(** The English habits file holds the one conforming habit. *)
Definition oneHabit : FileSystem :=
  files (("src/content/habits/en.json", Content (JArr [morningWalk])) :: dirs).

(** The English research file is not JSON. *)
Definition brokenResearch : FileSystem :=
  files (("src/content/research/en.json", Unparsable "Unexpected end of JSON input")
         :: dirs).

(** The English habits file is a single object, not an array. *)
Definition objectHabits : FileSystem :=
  files (("src/content/habits/en.json", Content morningWalk) :: dirs).

(** The English research file holds the one conforming record. *)
Definition oneStudy : FileSystem :=
  files (("src/content/research/en.json", Content (JArr [sleepStudy])) :: dirs).

Definition idOnly (id : string) : json := JObj [ ("id", JStr id) ].





(** A habit of a goal file with every required field, no duration and
    priority 0. *)
Definition restDayFields : list (string * json) :=
       [ ("id", JStr "rest-day");
         ("title", JStr "Take a rest day");
         ("description", JStr "Skip training once a week.");
         ("category", JStr "get_moving");
         ("difficulty", JStr "easy");
         ("timeMinutes", JNum 0);
         ("language", JStr "en");
         ("researchBacked", JBool true);
         ("effectivenessScore", JNum 8);
         ("effectivenessRank", JNum 3);
         ("priority", JNum 0);
         ("isPrimaryRecommendation", JBool false);
         ("goalTags", JArr [JStr "get_moving"]);
         ("instructions", JArr [JStr "Plan one day without training."]);
         ("whyEffective", JStr "Recovery supports adaptation.");
         ("researchSummary", JStr "Rest days reduce overuse injuries.");
         ("sources", JArr [JStr "recovery-2019"]);
         ("optimalTiming", JStr "weekly");
         ("progressionTips", JArr [JStr "Keep the day fixed."]) ].

Definition restDay : json := JObj restDayFields.

(** The English and the German habits file of the test suite both hold
    the habit [restDay]. *)
Definition restDays : FileSystem :=
  files [ ("multilingual-science-habits-en.json", Content (JArr [restDay]));
          ("multilingual-science-habits-de.json", Content (JArr [restDay])) ].

(** The English habits a, b and c and the German habits a, b and d of the
    test suite. *)
Definition unmatchedHabits : FileSystem :=
  files [ ("multilingual-science-habits-en.json",
            Content (JArr [idOnly "a"; idOnly "b"; idOnly "c"]));
          ("multilingual-science-habits-de.json",
            Content (JArr [idOnly "a"; idOnly "b"; idOnly "d"])) ].

(** A research record whose DOI is a number. *)
Definition numberedStudy : json :=
  JObj [ ("id", JStr "numbered-2020"); ("doi", JNum 1234) ].

(** The English research file holds the record with the numeric DOI. *)
Definition numberedTree : FileSystem :=
  files (("src/content/research/en.json", Content (JArr [numberedStudy])) :: dirs).

(** A habit that cites research records by ID. *)
Definition citing (id : string) (sources : list string) : json :=
  JObj [ ("id", JStr id); ("sources", JArr (map JStr sources)) ].

(** A German habit cites the study of the English research file and a
    study that no file holds. *)
Definition citingTree : FileSystem :=
  files (("src/content/habits/de.json",
            Content (JArr [citing "walk" ["sleep-duration-2015"; "ghost-study"]]))
         :: ("src/content/research/en.json", Content (JArr [sleepStudy]))
         :: dirs).

(** A run in June 2025. *)
Definition clock1 : ContentValidator.Clock :=
  {| ContentValidator.yearAtStart := 2025%Z;
     ContentValidator.yearAt := fun _ _ => 2025%Z;
     ContentValidator.startTime := 1000%Z; ContentValidator.endTime := 1250%Z;
     ContentValidator.isoTime := "2025-06-01T10:00:00.000Z" |}.

(** A run in June 2026. *)
Definition clock2 : ContentValidator.Clock :=
  {| ContentValidator.yearAtStart := 2026%Z;
     ContentValidator.yearAt := fun _ _ => 2026%Z;
     ContentValidator.startTime := 5000%Z; ContentValidator.endTime := 5400%Z;
     ContentValidator.isoTime := "2026-06-01T10:00:00.000Z" |}.

(** A slower run in December 2025. *)
Definition clock3 : ContentValidator.Clock :=
  {| ContentValidator.yearAtStart := 2025%Z;
     ContentValidator.yearAt := fun _ _ => 2025%Z;
     ContentValidator.startTime := 7000%Z; ContentValidator.endTime := 7900%Z;
     ContentValidator.isoTime := "2025-12-24T18:30:00.000Z" |}.

End Inputs.

(** * Properties *)

Module Props.

Import Eff ContentValidator.

(** The counters of the issue accumulator agree with the issue lists. *)
Definition Consistent (s : State) : Prop :=
  totalErrors (stats s) = List.length (errors s) /\
  totalWarnings (stats s) = List.length (warnings s).

(** A computation keeps a property of the state, whether it returns or
    throws. *)
Definition Preserves {St A : Type} (P : St -> Prop) (m : M St A) : Prop :=
  forall s, P s -> P (stateOf (m s)).

(** A computation throws from every state. *)
Definition Throws {St A : Type} (m : M St A) : Prop :=
  forall s, exists message s', m s = Throw message s'.


(** The empty-equivalent value of a content type. *)
Definition emptyValue (contentType : string) : json :=
  if contentType =? "locales" then JObj [] else JArr [].

(** Two outcomes agree in everything but the time stamp of the report and
    the elapsed time: two reports with the same issues, counters, flag and
    exit code, or two aborted runs with the same message and the same
    issues and counters in the state they leave. *)
Definition AgreeUpToTime (a b : Outcome) : Prop :=
  match a, b with
  | Reported r1 code1, Reported r2 code2 =>
      reportErrors r1 = reportErrors r2 /\
      reportWarnings r1 = reportWarnings r2 /\
      filesValidated (statistics r1) = filesValidated (statistics r2) /\
      totalErrors (statistics r1) = totalErrors (statistics r2) /\
      totalWarnings (statistics r1) = totalWarnings (statistics r2) /\
      passed r1 = passed r2 /\
      code1 = code2
  | Aborted m1 s1, Aborted m2 s2 =>
      m1 = m2 /\
      errors s1 = errors s2 /\
      warnings s1 = warnings s2 /\
      filesValidated (stats s1) = filesValidated (stats s2) /\
      totalErrors (stats s1) = totalErrors (stats s2) /\
      totalWarnings (stats s1) = totalWarnings (stats s2)
  | _, _ => False
  end.

(** Two clocks show the same year at every reading of the year. *)
Definition SameYears (c1 c2 : Clock) : Prop :=
  yearAtStart c1 = yearAtStart c2 /\
  forall filePath index, yearAt c1 filePath index = yearAt c2 filePath index.

(** The warnings a run reports ([[]] when it reports nothing). *)
Definition warningsOf (o : Outcome) : list string :=
  match o with
  | Reported r _ => reportWarnings r
  | Aborted _ _ => []
  end.

(** The errors a run reports ([[]] when it reports nothing). *)
Definition errorsOf (o : Outcome) : list string :=
  match o with
  | Reported r _ => reportErrors r
  | Aborted _ _ => []
  end.

(** The state after a sequence of [addError] calls. *)
Definition appendErrors (messages : list string) (s : State) : State := {|
  errors := errors s ++ messages;
  warnings := warnings s;
  stats := {| filesValidated := filesValidated (stats s);
              totalErrors := List.length messages + totalErrors (stats s);
              totalWarnings := totalWarnings (stats s);
              validationTime := validationTime (stats s) |}
|}.

(** The state after a sequence of [addWarning] calls. *)
Definition appendWarnings (messages : list string) (s : State) : State := {|
  errors := errors s;
  warnings := warnings s ++ messages;
  stats := {| filesValidated := filesValidated (stats s);
              totalErrors := totalErrors (stats s);
              totalWarnings := List.length messages + totalWarnings (stats s);
              validationTime := validationTime (stats s) |}
|}.

(** The paths of the content files, in the order the structure check visits
    them. *)
Definition contentPaths : list string :=
  flat_map (fun contentType => map (contentPath contentType) supportedLanguages)
    contentTypes.

(** A computation returns [a] from every state, appending the warnings
    [ws] and leaving the earlier warnings as they are. *)
Definition Emits {A : Type} (m : M State A) (a : A) (ws : list string) : Prop :=
  forall s, exists s', m s = Ok a s' /\ warnings s' = warnings s ++ ws.

(** The value [loadContentSafely] returns for a file. *)
Definition loadedValue (fs : FileSystem) (contentType language : string) : json :=
  match fs (contentPath contentType language) with
  | Content value => value
  | _ => emptyValue contentType
  end.

(** A value whose record IDs can be read: an array without [null]. *)
Definition recordsReadable (v : json) : bool :=
  match v with
  | JArr items =>
      forallb (fun h => match h with JNull => false | _ => true end) items
  | _ => false
  end.

(** A value whose keys can be read: anything but [null]. *)
Definition keysReadable (v : json) : bool :=
  match v with
  | JNull => false
  | _ => true
  end.

(** Every habits and research file that parses holds an array of records,
    none of them [null], and no locale file holds [null]. *)
Definition completenessReady (fs : FileSystem) : bool :=
  forallb (fun language =>
      recordsReadable (loadedValue fs "habits" language)
      && recordsReadable (loadedValue fs "research" language)
      && keysReadable (loadedValue fs "locales" language))
    supportedLanguages.

(** The IDs of the records of an array, in order. *)
Definition idsIn (v : json) : list jsval :=
  match v with
  | JArr items => map (fun h => member h "id") items
  | _ => []
  end.

(** The keys of a value, in the order of enumeration. *)
Definition keysIn (v : json) : list jsval :=
  match v with
  | JObj props => map (fun kv => Some (JStr (fst kv))) props
  | JArr items =>
      map (fun i => Some (JStr (showNat i))) (seq 0 (List.length items))
  | JStr text =>
      map (fun i => Some (JStr (showNat i))) (seq 0 (String.length text))
  | _ => []
  end.

(** The record IDs of a habits or research file, the keys of a locale
    file. *)
Definition namesIn (fs : FileSystem) (contentType language : string) : list jsval :=
  if contentType =? "locales"
  then keysIn (loadedValue fs contentType language)
  else idsIn (loadedValue fs contentType language).

(** Modelled from the spec: the set of the values of a list, each value
    once, at the place where the list has it first.  Two values are the
    same under SameValueZero. *)
Fixpoint firsts (l : list jsval) : list jsval :=
  match l with
  | [] => []
  | x :: rest => x :: filter (fun y => negb (sameValueZero y x)) (firsts rest)
  end.

(** Modelled from the spec: the set difference, the baseline set minus the
    set of the other language: the distinct baseline values that do not
    occur among the other values. *)
Definition setDifference (baseline other : list jsval) : list jsval :=
  filter (fun x => negb (existsb (sameValueZero x) other)) (firsts baseline).

(** The baseline names that a language lacks. *)
Definition gap (fs : FileSystem) (contentType language : string) : list jsval :=
  setDifference (namesIn fs contentType "en") (namesIn fs contentType language).

(** No two values of a list are the same under SameValueZero. *)
Fixpoint distinctValues (l : list jsval) : bool :=
  match l with
  | [] => true
  | x :: rest => negb (existsb (sameValueZero x) rest) && distinctValues rest
  end.

(** [l1] is [l2] with some elements left out. *)
Inductive Subsequence {A : Type} : list A -> list A -> Prop :=
| sub_nil : Subsequence [] []
| sub_take (x : A) (l1 l2 : list A) :
    Subsequence l1 l2 -> Subsequence (x :: l1) (x :: l2)
| sub_skip (x : A) (l1 l2 : list A) :
    Subsequence l1 l2 -> Subsequence l1 (x :: l2).


Definition gapLabel (contentType language : string) : string :=
  if contentType =? "locales"
  then "Missing " +++ language +++ " locale keys: "
  else "Missing " +++ language +++ " translations for " +++ contentType +++ ": ".

Definition previewSize (contentType : string) : nat :=
  if contentType =? "research" then 3 else 5.

(** The warnings expected for one content type and language: none when
    nothing is missing, else one that previews the missing names. *)
Definition gapWarning (fs : FileSystem) (contentType language : string)
    : list string :=
  let missing := gap fs contentType language in
  match missing with
  | [] => []
  | _ :: _ =>
      [ gapLabel contentType language
        +++ join ", " (firstn (previewSize contentType) missing)
        +++ (if (previewSize contentType <? List.length missing)%nat
             then "..." else "") ]
  end.

(** How often a value occurs in a list, up to SameValueZero. *)
Definition occurrences (x : jsval) (l : list jsval) : nat :=
  List.length (filter (sameValueZero x) l).

(** A duplicated ID of a list of IDs: a truthy value that occurs at least
    twice. *)
Definition duplicated (ids : list jsval) (x : jsval) : Prop :=
  truthy x = true /\ 2 <= occurrences x ids.

(** The state of the test validator after one more error. *)
Definition withError (message : string) (s : ContentTests.State)
    : ContentTests.State :=
  {| ContentTests.errors := ContentTests.errors s ++ [message];
     ContentTests.warnings := ContentTests.warnings s |}.

(** An entry that exists and on which [forEach] cannot be called: a file
    that does not parse, a directory, or a file whose content is not an
    array. *)
Definition notIterable (e : Entry) : Prop :=
  match e with
  | Missing => False
  | Content (JArr _) => False
  | _ => True
  end.

(** The warning of the research-backing rule for the record at [index]. *)
Definition researchBackingWarning (filePath : string) (index : nat) : string :=
  at_ filePath index +++ ": Habit marked as research-backed but has no sources".

Definition isReported (o : Outcome) : bool :=
  match o with
  | Reported _ _ => true
  | Aborted _ _ => false
  end.

End Props.

(** * Further properties *)

Module Laws.

Import Eff ContentValidator Props.

(** The state [s] continues [s0]: its issue lists start with those of [s0]
    and its file counter is not smaller. *)
Definition Extends (s0 s : State) : Prop :=
  (exists es, errors s = errors s0 ++ es) /\
  (exists ws, warnings s = warnings s0 ++ ws) /\
  filesValidated (stats s0) <= filesValidated (stats s).

(** The error that [validateContentType] records for an existing habits or
    research file that is not an array. *)
Definition recordedError (path : string) (e : Entry) : string :=
  match e with
  | Unparsable message => "Invalid JSON in " +++ path +++ ": " +++ message
  | Directory =>
      "Invalid JSON in " +++ path +++ ": EISDIR: illegal operation on a directory, read"
  | _ => path +++ ": Content must be an array"
  end.

(** A value without a method [includes]: anything but a string or an
    array. *)
Definition noText (v : jsval) : Prop :=
  match v with
  | Some (JStr _) | Some (JArr _) => False
  | _ => True
  end.

(** The content files that exist. *)
Definition existingPaths (fs : FileSystem) : list string :=
  filter (existsSync fs) contentPaths.

(** A computation returns [a] from every state and appends the warnings
    [ws], changing nothing else. *)
Definition Warns {A : Type} (m : M State A) (a : A) (ws : list string) : Prop :=
  forall s, m s = Ok a (appendWarnings ws s).

(** The IDs of the research records of all languages, as
    [validateCrossReferences] collects them. *)
Definition allResearchIds (fs : FileSystem) : JsSet :=
  newSet (flat_map (fun language => idsIn (loadedValue fs "research" language))
            supportedLanguages).

(** The elements of [habit.sources] when it is an array. *)
Definition sourcesOf (habit : json) : list json :=
  match member habit "sources" with
  | Some (JArr ids) => ids
  | _ => []
  end.

(** A record whose sources can be walked: it is not [null], and its
    [sources] are an array or falsy. *)
Definition sourcesReadable (habit : json) : bool :=
  match habit with
  | JNull => false
  | _ =>
      match member habit "sources" with
      | Some (JArr _) => true
      | v => negb (truthy v)
      end
  end.

(** Every research file is absent or an array of records, none [null];
    every habits file is absent or an array of records whose sources can be
    walked. *)
Definition referencesReady (fs : FileSystem) : bool :=
  forallb (fun language =>
      match fs (contentPath "research" language) with
      | Missing => true
      | Content v => recordsReadable v
      | _ => false
      end
      &&
      match fs (contentPath "habits" language) with
      | Missing => true
      | Content (JArr items) => forallb sourcesReadable items
      | _ => false
      end)
    supportedLanguages.

(** The IDs that the habits of all files cite, in the order language,
    habit, citation. *)
Definition citations (fs : FileSystem) : list json :=
  flat_map (fun language =>
      match fs (contentPath "habits" language) with
      | Content (JArr items) => flat_map sourcesOf items
      | _ => []
      end)
    supportedLanguages.

(** The warnings for the habit at [index] of a habits file: one per cited
    ID that no research record carries, in the order of citation. *)
Definition unknownSourcesOf (fs : FileSystem) (language : string) (index : nat)
    (habit : json) : list string :=
  map (fun id => at_ (contentPath "habits" language) index +++
                 ": References unknown research: " +++ toString id)
    (filter (fun id => negb (setHas (allResearchIds fs) (Some id)))
       (sourcesOf habit)).

(** The warnings for one habits file, habit by habit. *)
Definition unknownSources (fs : FileSystem) (language : string) : list string :=
  match fs (contentPath "habits" language) with
  | Content (JArr items) =>
      flat_map (fun entry => unknownSourcesOf fs language (fst entry) (snd entry))
        (combine (seq 0 (List.length items)) items)
  | _ => []
  end.

(** Every value of [a] occurs in [b], up to SameValueZero. *)
Definition covers (a b : list jsval) : Prop :=
  forall x, In x a -> existsb (sameValueZero x) b = true.

(** The errors expected of the comparison of the English and the German
    IDs: the one about the IDs that German lacks first, then the one about
    the IDs that English lacks, each only when there is such an ID. *)
Definition translationErrors (enIds deIds : list jsval) : list string :=
  match setDifference enIds deIds with
  | [] => []
  | missingInDe =>
      ["Missing German translations for habit IDs: " +++ join ", " missingInDe]
  end ++
  match setDifference deIds enIds with
  | [] => []
  | missingInEn =>
      ["Missing English translations for habit IDs: " +++ join ", " missingInEn]
  end.

(** The state of the test validator after more errors. *)
Definition withErrors (messages : list string) (s : ContentTests.State)
    : ContentTests.State :=
  {| ContentTests.errors := ContentTests.errors s ++ messages;
     ContentTests.warnings := ContentTests.warnings s |}.

(** The error that the file-structure test of the test suite records for a
    required file that exists and is not an array. *)
Definition suiteRecordedError (file : string) (e : Entry) : string :=
  match e with
  | Unparsable message => "Invalid JSON in " +++ file +++ ": " +++ message
  | Directory =>
      "Invalid JSON in " +++ file +++ ": EISDIR: illegal operation on a directory, read"
  | _ => file +++ " must contain an array of habits"
  end.

(** The habits of a required file of the test suite. *)
Definition suiteHabits (fs : FileSystem) (file : string) : list json :=
  match fs file with
  | Content (JArr items) => items
  | _ => []
  end.

(** Every required file of the test suite is absent or an array of
    records, none [null]. *)
Definition suiteReady (fs : FileSystem) : bool :=
  forallb (fun file =>
      match fs file with
      | Missing => true
      | Content v => recordsReadable v
      | _ => false
      end)
    ContentTests.REQUIRED_FILES.

(** The fields of a habit that the test suite quotes in a message or uses
    as a key. *)
Definition quotedFields : list string := ["id"; "category"; "difficulty"; "language"].

(** The quoted fields of a habit convert to strings. *)
Definition habitConverts (habit : json) : bool :=
  forallb (fun field => converts (member habit field)) quotedFields.

(** The quoted fields of every habit of the required files convert. *)
Definition suiteConverts (fs : FileSystem) : bool :=
  forallb (fun file => forallb habitConverts (suiteHabits fs file))
    ContentTests.REQUIRED_FILES.

(** The language counts of the test validator convert to strings. *)
Definition countsConvert (s : ContentSuite.State) : Prop :=
  forall language, converts (ContentSuite.languageCounts s language) = true.

(** The habits of a list that the test suite counts under a category: those
    with a truthy [category] that converts to the name of the category. *)
Definition tally (category : string) (habits : list json) : nat :=
  List.length
    (filter (fun habit =>
               truthy (member habit "category")
               && (show (member habit "category") =? category))
       habits).

(** A computation of the test suite returns from every state and adds [k]
    to the count of [category]. *)
Definition Counts {A : Type} (category : string) (m : M ContentSuite.State A)
    (k : nat) : Prop :=
  forall s, exists a s',
    m s = Ok a s' /\
    ContentSuite.categoryCounts s' category
    = ContentSuite.categoryCounts s category + k.

(** A computation returns from every state, with a value that satisfies
    [Q]. *)
Definition Yields {St A : Type} (m : M St A) (Q : A -> Prop) : Prop :=
  forall s, exists a s', m s = Ok a s' /\ Q a.

(** A computation returns from every state. *)
Definition Returns {St A : Type} (m : M St A) : Prop := Yields m (fun _ => True).

(** A value with a method [includes]: a string or an array. *)
Definition hasText (v : jsval) : bool :=
  match v with
  | Some (JStr _) | Some (JArr _) => true
  | _ => false
  end.

(** A value on which the quality check can run: an array of records that
    have the text field. *)
Definition textReadable (field : string) (v : json) : bool :=
  match v with
  | JArr items => forallb (fun item => hasText (member item field)) items
  | _ => false
  end.

(** The quality check can run on every habits and research file. *)
Definition textReady (fs : FileSystem) : bool :=
  forallb (fun language =>
      textReadable "description" (loadedValue fs "habits" language)
      && textReadable "summary" (loadedValue fs "research" language))
    supportedLanguages.

(** The content on which no stage of the validator throws. *)
Definition contentReady (fs : FileSystem) : bool :=
  referencesReady fs && completenessReady fs && textReady fs.

(** The records of a loaded file. *)
Definition itemsOf (v : json) : list json :=
  match v with
  | JArr items => items
  | _ => []
  end.

(** The fields of a record that the stages quote in a message or
    concatenate convert to strings: its [id], its [title] and its text. *)
Definition recordConverts (field : string) (item : json) : bool :=
  converts (member item "id") && converts (member item "title")
  && converts (member item field).

(** Every cited ID and the quoted fields of every habit and research record
    convert to strings. *)
Definition contentConverts (fs : FileSystem) : bool :=
  forallb convertible (citations fs)
  && forallb (fun language =>
         forallb (recordConverts "description")
           (itemsOf (loadedValue fs "habits" language))
         && forallb (recordConverts "summary")
              (itemsOf (loadedValue fs "research" language)))
       supportedLanguages.

(** Whether a run of the test suite reaches its report. *)
Definition isFinished (o : ContentSuite.Outcome) : bool :=
  match o with
  | ContentSuite.Finished _ _ => true
  | ContentSuite.Aborted _ _ => false
  end.

(** A DOI on which [match] cannot be called: a truthy value that is not a
    string. *)
Definition unmatchableDoi (record : json) : bool :=
  truthy (member record "doi")
  && match member record "doi" with
     | Some (JStr _) => false
     | _ => true
     end.

(** A check of the goal script that returns has only pushed errors, and
    when it pushed none, [c] holds. *)
Definition pushes (m : M (list string) unit) (c : Prop) : Prop :=
  forall errors errors',
    m errors = Ok tt errors' ->
    exists added, errors' = errors ++ added /\ (added = [] -> c).

(** A host whose comparison of two numbers is the comparison of numbers. *)
Definition NumericHost (host : Host) : Prop :=
  forall a b, lessThan host (Some (JNum a)) (Some (JNum b)) = (a <? b)%Z.

End Laws.

(** * Proofs *)

Import Eff ContentValidator Props.
#[local] Open Scope eff_scope.

(** ** The effect combinators keep what their parts keep *)

Section Preservation.

Context {St : Type} (P : St -> Prop).

Lemma pres_ret {A : Type} (a : A) : Preserves P (ret a).
Proof. intros s H. exact H. Qed.

Lemma pres_throw {A : Type} (message : string) : Preserves P (@throw St A message).
Proof. intros s H. exact H. Qed.

Lemma pres_bind {A B : Type} (m : M St A) (k : A -> M St B) :
  Preserves P m -> (forall a, Preserves P (k a)) -> Preserves P (bind m k).
Proof.
  intros Hm Hk s H. unfold bind.
  specialize (Hm s H). destruct (m s) as [a s' | e s']; simpl in *.
  - apply Hk. exact Hm.
  - exact Hm.
Qed.

Lemma pres_tryCatch {A : Type} (m : M St A) (handler : string -> M St A) :
  Preserves P m -> (forall e, Preserves P (handler e)) ->
  Preserves P (tryCatch m handler).
Proof.
  intros Hm Hh s H. unfold tryCatch.
  specialize (Hm s H). destruct (m s) as [a s' | e s']; simpl in *.
  - exact Hm.
  - apply Hh. exact Hm.
Qed.

Lemma pres_when (b : bool) (m : M St unit) :
  Preserves P m -> Preserves P (when b m).
Proof. intros Hm. destruct b; simpl; [exact Hm | apply pres_ret]. Qed.

Lemma pres_forEach {A : Type} (l : list A) (body : A -> M St unit) :
  (forall x, Preserves P (body x)) -> Preserves P (forEach l body).
Proof.
  intros Hb. induction l as [| x rest IH]; simpl.
  - apply pres_ret.
  - apply pres_bind; [apply Hb | intros _; exact IH].
Qed.

Lemma pres_forEachFrom {A : Type} (l : list A) (body : A -> nat -> M St unit) :
  (forall x i, Preserves P (body x i)) ->
  forall index, Preserves P (forEachFrom index l body).
Proof.
  intros Hb. induction l as [| x rest IH]; intros index; simpl.
  - apply pres_ret.
  - apply pres_bind; [apply Hb | intros _; apply IH].
Qed.

Lemma pres_foldM {A B : Type} (body : B -> A -> M St B) (l : list A) :
  (forall acc x, Preserves P (body acc x)) ->
  forall acc, Preserves P (foldM body l acc).
Proof.
  intros Hb. induction l as [| x rest IH]; intros acc; simpl.
  - apply pres_ret.
  - apply pres_bind; [apply Hb | intros acc'; apply IH].
Qed.

Lemma pres_mapM {A B : Type} (f : A -> M St B) (l : list A) :
  (forall x, Preserves P (f x)) -> Preserves P (mapM f l).
Proof.
  intros Hf. induction l as [| x rest IH]; simpl.
  - apply pres_ret.
  - apply pres_bind; [apply Hf | intros y].
    apply pres_bind; [exact IH | intros ys; apply pres_ret].
Qed.

Lemma pres_arrayOf (name method : string) (v : json) :
  Preserves P (@arrayOf St name method v).
Proof. destruct v; simpl; first [apply pres_ret | apply pres_throw]. Qed.

Lemma pres_get (v : json) (key : string) : Preserves P (@get St v key).
Proof. destruct v; simpl; first [apply pres_ret | apply pres_throw]. Qed.

Lemma pres_defined (v : jsval) (key : string) : Preserves P (@defined St v key).
Proof.
  destruct v as [[]|]; simpl; first [apply pres_ret | apply pres_throw].
Qed.

Lemma pres_readJson (fs : FileSystem) (path : string) :
  Preserves P (@readJson St fs path).
Proof.
  unfold readJson. destruct (fs path); first [apply pres_ret | apply pres_throw].
Qed.

Lemma pres_recordIds (name : string) (content : json) :
  Preserves P (@recordIds St name content).
Proof.
  unfold recordIds. apply pres_bind; [apply pres_arrayOf | intros items].
  apply pres_mapM. intros h. apply pres_get.
Qed.

Lemma pres_render (v : jsval) : Preserves P (@render St v).
Proof. unfold render. destruct (converts v); [apply pres_ret | apply pres_throw]. Qed.

Lemma pres_renderJoin (sep : string) (l : list jsval) :
  Preserves P (@renderJoin St sep l).
Proof.
  unfold renderJoin. destruct (forallb converts l); [apply pres_ret | apply pres_throw].
Qed.

Lemma pres_less (host : Host) (a b : jsval) : Preserves P (@less St host a b).
Proof.
  unfold less. destruct (converts a && converts b); [apply pres_ret | apply pres_throw].
Qed.

End Preservation.

Create HintDb pres.

#[local] Hint Resolve pres_ret pres_throw pres_arrayOf pres_get pres_defined
  pres_readJson pres_recordIds pres_render pres_renderJoin pres_less : pres.

(** One step of a preservation proof: split the computation at its head. *)
Ltac pres_step :=
  first
    [ solve [auto with pres]
    | apply pres_forEach
    | apply pres_forEachFrom
    | apply pres_foldM
    | apply pres_mapM
    | apply pres_tryCatch
    | apply pres_when
    | apply pres_bind
    | match goal with
      | |- Preserves _ (if ?b then _ else _) => destruct b
      | |- Preserves _ (match ?x with _ => _ end) => destruct x
      end ].

Ltac pres := repeat (intros; cbv zeta; pres_step).

(** ** The issue accumulator *)

Lemma consistent_constructor : Consistent constructor.
Proof. split; reflexivity. Qed.

Lemma pres_addError (message : string) : Preserves Consistent (addError message).
Proof.
  intros s [He Hw]. unfold Consistent; simpl. rewrite length_app; simpl.
  split; lia.
Qed.

Lemma pres_addWarning (message : string) : Preserves Consistent (addWarning message).
Proof.
  intros s [He Hw]. unfold Consistent; simpl. rewrite length_app; simpl.
  split; lia.
Qed.

Lemma pres_countFile : Preserves Consistent countFile.
Proof. intros s H. exact H. Qed.

#[local] Hint Resolve pres_addError pres_addWarning pres_countFile : pres.

Lemma pres_validateContentStructure (fs : FileSystem) :
  Preserves Consistent (validateContentStructure fs).
Proof. unfold validateContentStructure. pres. Qed.

Lemma pres_validateHabitSpecific host habit filePath index :
  Preserves Consistent (validateHabitSpecific host habit filePath index).
Proof. unfold validateHabitSpecific. pres. Qed.

Lemma pres_validateResearchSpecific host clock research filePath index :
  Preserves Consistent (validateResearchSpecific host clock research filePath index).
Proof. unfold validateResearchSpecific. pres. Qed.

Lemma pres_call validate value : Preserves Consistent (call validate value).
Proof. unfold call. pres. Qed.

#[local] Hint Resolve pres_validateHabitSpecific pres_validateResearchSpecific
  pres_call : pres.

Lemma pres_validateContentItem host clock item contentType language filePath index :
  Preserves Consistent
    (validateContentItem host clock item contentType language filePath index).
Proof. unfold validateContentItem. pres. Qed.

#[local] Hint Resolve pres_validateContentItem : pres.

Lemma pres_validateContentFile host clock content contentType language filePath :
  Preserves Consistent
    (validateContentFile host clock content contentType language filePath).
Proof. unfold validateContentFile. pres. Qed.

#[local] Hint Resolve pres_validateContentFile : pres.

Lemma pres_validateContentType host fs clock contentType :
  Preserves Consistent (validateContentType host fs clock contentType).
Proof. unfold validateContentType, validateContentTypeIn. pres. Qed.

Lemma pres_validateCrossReferences fs :
  Preserves Consistent (validateCrossReferences fs).
Proof.
  unfold validateCrossReferences, collectResearchIds, checkHabitSources. pres.
Qed.

Lemma pres_loadContentSafely fs contentType language :
  Preserves Consistent (loadContentSafely fs contentType language).
Proof. unfold loadContentSafely. pres. Qed.

#[local] Hint Resolve pres_loadContentSafely : pres.

Lemma pres_objectKeys v : Preserves Consistent (objectKeys v).
Proof. unfold objectKeys. pres. Qed.

Lemma pres_hasPlaceholder name v : Preserves Consistent (hasPlaceholder name v).
Proof. unfold hasPlaceholder, includesText. pres. Qed.

#[local] Hint Resolve pres_objectKeys pres_hasPlaceholder : pres.

Lemma pres_validateTranslationCompleteness fs :
  Preserves Consistent (validateTranslationCompleteness fs).
Proof. unfold validateTranslationCompleteness, warnMissing, preview. pres. Qed.

Lemma pres_validateContentQuality fs :
  Preserves Consistent (validateContentQuality fs).
Proof.
  unfold validateContentQuality, languageQuality, habitQuality, researchQuality,
    countWords.
  pres.
Qed.

#[local] Hint Resolve pres_validateContentStructure pres_validateContentType
  pres_validateCrossReferences pres_validateTranslationCompleteness
  pres_validateContentQuality : pres.

Lemma pres_stages host fs clock : Preserves Consistent (stages host fs clock).
Proof. unfold stages. pres. Qed.
(** ** Computations that agree step by step *)

Section Extensionality.

Context {St : Type}.

Lemma bind_ext {A B : Type} (m m' : M St A) (k k' : A -> M St B) :
  (forall s, m s = m' s) -> (forall a s, k a s = k' a s) ->
  forall s, bind m k s = bind m' k' s.
Proof.
  intros Hm Hk s. unfold bind. rewrite Hm.
  destruct (m' s) as [a s' | e s']; [apply Hk | reflexivity].
Qed.

Lemma forEach_ext {A : Type} (l : list A) (f g : A -> M St unit) :
  (forall x, In x l -> forall s, f x s = g x s) ->
  forall s, forEach l f s = forEach l g s.
Proof.
  induction l as [| x rest IH]; intros H s; simpl; [reflexivity |].
  apply bind_ext.
  - apply H. now left.
  - intros _ s0. apply IH. intros y Hy. apply H. now right.
Qed.


Lemma forEachFrom_ext {A : Type} (l : list A) (f g : A -> nat -> M St unit) :
  (forall x index, In x l -> forall s, f x index s = g x index s) ->
  forall index s, forEachFrom index l f s = forEachFrom index l g s.
Proof.
  induction l as [| x rest IH]; intros H index s; simpl; [reflexivity |].
  apply bind_ext.
  - apply H. now left.
  - intros _ s0. apply IH. intros y i Hy. apply H. now right.
Qed.

Lemma tryCatch_ext {A : Type} (m m' : M St A) (handler : string -> M St A) :
  (forall s, m s = m' s) ->
  forall s, tryCatch m handler s = tryCatch m' handler s.
Proof. intros Hm s. unfold tryCatch. rewrite Hm. reflexivity. Qed.

End Extensionality.

(** C10. Invariant of the issue accumulator: the counters agree with the
    issue lists in the state the constructor sets up; [addError] and
    [addWarning] keep the agreement; and at the end of every run, in the
    report or in the state an aborted run leaves, [totalErrors] is the
    length of the error list and [totalWarnings] the length of the warning
    list. *)
Theorem counters_agree_with_issue_lists
    (host : Host) (fs : FileSystem) (clock : Clock) :
  Consistent constructor /\
  (forall message s, Consistent s -> Consistent (stateOf (addError message s))) /\
  (forall message s, Consistent s -> Consistent (stateOf (addWarning message s))) /\
  match validateAll host fs clock with
  | Reported r _ =>
      totalErrors (statistics r) = List.length (reportErrors r) /\
      totalWarnings (statistics r) = List.length (reportWarnings r)
  | Aborted _ s => Consistent s
  end.
Proof.
  split; [exact consistent_constructor |].
  split; [intros message s; apply pres_addError |].
  split; [intros message s; apply pres_addWarning |].
  unfold validateAll, generateReport.
  pose proof (pres_stages host fs clock constructor consistent_constructor) as H.
  destruct (stages host fs clock constructor) as [u s | e s]; simpl in *;
    [| exact H].
  destruct (writeFileSync host "validation-report.json"); simpl; exact H.
Qed.

(** ** The report *)

(** A run that reports went through the stages and wrote the report. *)
Lemma reported_inv host fs clock report code :
  validateAll host fs clock = Reported report code ->
  exists s,
    stages host fs clock constructor = Ok tt s /\
    writeFileSync host "validation-report.json" = None /\
    report = {| timestamp := isoTime clock;
                statistics :=
                  stats (setValidationTime (endTime clock - startTime clock) s);
                reportErrors := errors s;
                reportWarnings := warnings s;
                passed := (List.length (errors s) =? 0)%nat |} /\
    code = (if (0 <? List.length (errors s))%nat then 1 else 0)%Z.
Proof.
  unfold validateAll, generateReport. intros H.
  destruct (stages host fs clock constructor) as [[] s | e s]; [| discriminate].
  destruct (writeFileSync host "validation-report.json"); [discriminate |].
  injection H as <- <-. exists s. repeat split.
Qed.

(** A run whose stages return and whose report can be written reports. *)
Lemma reported_intro host fs clock s :
  stages host fs clock constructor = Ok tt s ->
  writeFileSync host "validation-report.json" = None ->
  exists report code, validateAll host fs clock = Reported report code.
Proof.
  unfold validateAll, generateReport. intros -> ->. eauto.
Qed.

Lemma length_zero_iff_nil {A : Type} (l : list A) :
  (List.length l =? 0)%nat = true <-> l = [].
Proof. destruct l; simpl; split; intros H; congruence. Qed.

(** C8. For every completed run the report holds the errors and warnings
    that the stages accumulated; its [passed] flag is true exactly when no
    error was accumulated, the exit code is 0 exactly then and 1 otherwise;
    and two states with the same errors get the same flag and exit code
    whatever their warnings are. *)
Theorem passed_exactly_when_no_errors host fs clock report code :
  validateAll host fs clock = Reported report code ->
  exists s,
    stages host fs clock constructor = Ok tt s /\
    reportErrors report = errors s /\
    reportWarnings report = warnings s /\
    totalErrors (statistics report) = List.length (errors s) /\
    (passed report = true <-> errors s = []) /\
    (code = 0%Z <-> errors s = []) /\
    (code = 1%Z <-> errors s <> []) /\
    (forall now1 now2 s1 s2,
       errors s1 = errors s2 ->
       match generateReport host now1 s1, generateReport host now2 s2 with
       | Reported r1 c1, Reported r2 c2 => passed r1 = passed r2 /\ c1 = c2
       | Aborted _ _, Aborted _ _ => True
       | _, _ => False
       end).
Proof.
  intros H.
  destruct (reported_inv _ _ _ _ _ H) as (s & Hs & Hw & -> & ->).
  exists s. split; [exact Hs |]. cbn [reportErrors reportWarnings passed statistics].
  pose proof (pres_stages host fs clock constructor consistent_constructor) as Hc.
  rewrite Hs in Hc. destruct Hc as [He _].
  split; [reflexivity |]. split; [reflexivity |]. split; [exact He |].
  split; [apply length_zero_iff_nil |].
  split; [| split].
  - destruct (errors s); simpl; split; intros; congruence.
  - destruct (errors s); simpl; split; intros; congruence.
  - intros now1 now2 s1 s2 Hsame. unfold generateReport. rewrite Hsame.
    destruct (writeFileSync host "validation-report.json"); [exact I |].
    split; reflexivity.
Qed.

(** A completed run with an error that the theorem applies to: the one
    conforming habit; the report is not passed and the exit code is 1. *)
Lemma passed_exactly_when_no_errors_witness :
  exists report code s,
    validateAll node Inputs.oneHabit Inputs.clock1 = Reported report code /\
    stages node Inputs.oneHabit Inputs.clock1 constructor = Ok tt s /\
    reportErrors report = errors s /\
    (passed report = true <-> errors s = []) /\
    (code = 0%Z <-> errors s = []) /\
    code = 1%Z.
Proof.
  destruct (validateAll node Inputs.oneHabit Inputs.clock1)
    as [report code | message s] eqn:E.
  - destruct (passed_exactly_when_no_errors _ _ _ _ _ E)
      as (s & Hs & He & _ & _ & Hp & Hc & _).
    exists report, code, s.
    assert (code = 1%Z) as H1 by (vm_compute in E; injection E as _ <-; reflexivity).
    repeat split; try assumption; try apply Hp; try apply Hc.
  - vm_compute in E. discriminate E.
Defined.

(** ** Readings of the clock *)

Lemma validateResearchSpecific_clock host clock clock' research filePath index :
  SameYears clock clock' ->
  forall s, validateResearchSpecific host clock research filePath index s
            = validateResearchSpecific host clock' research filePath index s.
Proof.
  intros [_ Hyear] s. unfold validateResearchSpecific. rewrite Hyear. reflexivity.
Qed.

Lemma validateContentItem_clock host clock clock' item contentType language
    filePath index :
  SameYears clock clock' ->
  forall s, validateContentItem host clock item contentType language filePath index s
            = validateContentItem host clock' item contentType language filePath
                index s.
Proof.
  intros Hsame s. unfold validateContentItem, compiledSchemas, schemas.
  rewrite (proj1 Hsame).
  apply bind_ext; [reflexivity |]. intros errs s0.
  apply bind_ext; [reflexivity |]. intros _ s1.
  apply bind_ext; [| reflexivity]. intros s2.
  destruct (contentType =? "habit"); [reflexivity |].
  destruct (contentType =? "research"); [| reflexivity].
  apply validateResearchSpecific_clock. exact Hsame.
Qed.

Lemma validateContentFile_clock host clock clock' content contentType language
    filePath :
  SameYears clock clock' ->
  forall s, validateContentFile host clock content contentType language filePath s
            = validateContentFile host clock' content contentType language filePath s.
Proof.
  intros Hsame s. unfold validateContentFile, compiledSchemas, schemas.
  rewrite (proj1 Hsame).
  destruct (contentType =? "locales"); [reflexivity |].
  destruct content; try reflexivity.
  apply forEachFrom_ext. intros item index _ s0.
  apply validateContentItem_clock. exact Hsame.
Qed.

Lemma validateContentType_clock host fs clock clock' contentType :
  SameYears clock clock' ->
  forall s, validateContentType host fs clock contentType s
            = validateContentType host fs clock' contentType s.
Proof.
  intros Hsame. unfold validateContentType. apply forEach_ext.
  intros language _ s. unfold validateContentTypeIn.
  destruct (negb (existsSync fs (contentPath contentType language)));
    [reflexivity |].
  apply tryCatch_ext. intros s0.
  apply bind_ext; [reflexivity |]. intros content s1.
  apply bind_ext; [| reflexivity]. intros s2.
  apply validateContentFile_clock. exact Hsame.
Qed.

(** The stages read the clock for the current year alone. *)
Lemma stages_clock host fs clock clock' :
  SameYears clock clock' ->
  forall s, stages host fs clock s = stages host fs clock' s.
Proof.
  intros Hsame s. unfold stages.
  apply bind_ext; [reflexivity |]. intros _ s0.
  apply bind_ext; [| reflexivity]. intros s1.
  apply forEach_ext. intros contentType _ s2.
  apply validateContentType_clock. exact Hsame.
Qed.

(** C9, as stated, fails: the same files validated in 2025 and in 2026 give
    different reports, because the age check of a research record reads the
    current year.  The record of 2015 is not older than ten years in 2025
    and is in 2026. *)
Lemma report_changes_with_the_year :
  List.length (warningsOf (validateAll node Inputs.oneStudy Inputs.clock1)) = 27 /\
  List.length (warningsOf (validateAll node Inputs.oneStudy Inputs.clock2)) = 28 /\
  existsb (String.eqb "src/content/research/en.json[0]: Research is over 10 years old (2015)")
    (warningsOf (validateAll node Inputs.oneStudy Inputs.clock1)) = false /\
  existsb (String.eqb "src/content/research/en.json[0]: Research is over 10 years old (2015)")
    (warningsOf (validateAll node Inputs.oneStudy Inputs.clock2)) = true /\
  ~ AgreeUpToTime (validateAll node Inputs.oneStudy Inputs.clock1)
      (validateAll node Inputs.oneStudy Inputs.clock2).
Proof.
  repeat split; try (vm_compute; reflexivity).
  intros H. vm_compute in H. destruct H as (_ & _ & _ & _ & Hw & _).
  discriminate Hw.
Qed.

(** C9, amended. For a fixed set of files, two runs during which every
    reading of the current year gives the same value, the one the
    constructor makes for the schema and the one made for each research
    record, agree in everything but the time stamp and the elapsed time:
    both report, with the same errors and warnings in the same order, the
    same counters, flag and exit code, or both abort with the same message
    and the same issues recorded. *)
Theorem report_determined_by_files_and_year
    (host : Host) (fs : FileSystem) (clock clock' : Clock) :
  SameYears clock clock' ->
  AgreeUpToTime (validateAll host fs clock) (validateAll host fs clock').
Proof.
  intros Hsame. unfold validateAll, generateReport.
  rewrite (stages_clock host fs clock clock' Hsame).
  destruct (stages host fs clock' constructor) as [u s | e s]; simpl.
  - destruct (writeFileSync host "validation-report.json"); simpl; repeat split.
  - repeat split.
Qed.

(** Two runs of 2025 on the one research record, at different times, that
    the theorem applies to. *)
Lemma report_determined_by_files_and_year_witness :
  SameYears Inputs.clock1 Inputs.clock3 /\
  AgreeUpToTime (validateAll node Inputs.oneStudy Inputs.clock1)
    (validateAll node Inputs.oneStudy Inputs.clock3).
Proof.
  assert (SameYears Inputs.clock1 Inputs.clock3) as H
    by (split; [reflexivity | intros filePath index; reflexivity]).
  split; [exact H |].
  apply (report_determined_by_files_and_year node Inputs.oneStudy _ _ H).
Defined.
(** ** Exceptions that no stage catches *)

Section Throwing.

Context {St : Type}.

Lemma throws_bind_l {A B : Type} (m : M St A) (k : A -> M St B) :
  Throws m -> Throws (bind m k).
Proof.
  intros Hm s. unfold bind. destruct (Hm s) as (e & s' & ->). eauto.
Qed.

Lemma throws_bind_r {A B : Type} (m : M St A) (k : A -> M St B) :
  (forall a, Throws (k a)) -> Throws (bind m k).
Proof.
  intros Hk s. unfold bind. destruct (m s) as [a s' | e s'].
  - apply Hk.
  - eauto.
Qed.

Lemma forEach_throws {A : Type} (l : list A) (body : A -> M St unit) (x : A) :
  In x l -> Throws (body x) -> Throws (forEach l body).
Proof.
  intros Hin Hx. induction l as [| y rest IH]; [contradiction |].
  destruct Hin as [-> | Hin]; simpl.
  - apply throws_bind_l. exact Hx.
  - apply throws_bind_r. intros _. apply IH. exact Hin.
Qed.

Lemma foldM_throws {A B : Type} (body : B -> A -> M St B) (l : list A) (x : A) :
  In x l -> (forall acc, Throws (body acc x)) ->
  forall acc, Throws (foldM body l acc).
Proof.
  intros Hin Hx. induction l as [| y rest IH]; [contradiction |].
  destruct Hin as [-> | Hin]; intros acc; simpl.
  - apply throws_bind_l. apply Hx.
  - apply throws_bind_r. intros acc'. apply IH. exact Hin.
Qed.

(** A computation that reads a member first throws when the rest throws on
    the member; reading a member of [null] throws by itself. *)
Lemma throws_bind_get {B : Type} (v : json) (key : string) (k : jsval -> M St B) :
  Throws (k (member v key)) -> Throws (bind (get v key) k).
Proof.
  intros Hk s. unfold bind, get. destruct v; try apply Hk.
  unfold throw. eauto.
Qed.

End Throwing.

Lemma collectResearchIds_throws fs language ids :
  notIterable (fs (contentPath "research" language)) ->
  Throws (collectResearchIds fs ids language).
Proof.
  intros H s. unfold collectResearchIds, existsSync, readJson, bind.
  change ("src/content/research/" +++ language +++ ".json")
    with (contentPath "research" language).
  destruct (fs (contentPath "research" language)) as [| | m | v]; simpl in *;
    try contradiction; eauto.
  destruct v; simpl in *; try contradiction; unfold throw; eauto.
Qed.

Lemma checkHabitSources_throws fs language ids :
  notIterable (fs (contentPath "habits" language)) ->
  Throws (checkHabitSources fs ids language).
Proof.
  intros H s. unfold checkHabitSources, existsSync, readJson, bind.
  change ("src/content/habits/" +++ language +++ ".json")
    with (contentPath "habits" language).
  destruct (fs (contentPath "habits" language)) as [| | m | v]; simpl in *;
    try contradiction; eauto.
  destruct v; simpl in *; try contradiction; unfold throw; eauto.
Qed.

(** [validateCrossReferences] reads the habits and research files again,
    outside any [try]: it throws as soon as one of them exists and is not an
    array. *)
Lemma validateCrossReferences_throws fs contentType language :
  contentType = "habits" \/ contentType = "research" ->
  In language supportedLanguages ->
  notIterable (fs (contentPath contentType language)) ->
  Throws (validateCrossReferences fs).
Proof.
  intros [-> | ->] Hin H; unfold validateCrossReferences.
  - apply throws_bind_r. intros ids.
    apply forEach_throws with (x := language); [exact Hin |].
    apply checkHabitSources_throws. exact H.
  - apply throws_bind_l.
    apply foldM_throws with (x := language); [exact Hin |].
    intros acc. apply collectResearchIds_throws. exact H.
Qed.

(** A run over such a file ends in the [catch] of [validateAll]: no later
    stage runs and no report is written. *)
Lemma run_aborts_on_unusable_file host fs clock contentType language :
  contentType = "habits" \/ contentType = "research" ->
  In language supportedLanguages ->
  notIterable (fs (contentPath contentType language)) ->
  exists message s, validateAll host fs clock = Aborted message s.
Proof.
  intros Ht Hin H.
  assert (Throws (stages host fs clock)) as Hs.
  { unfold stages. apply throws_bind_r. intros _. apply throws_bind_r. intros _.
    apply throws_bind_l. eapply validateCrossReferences_throws; eassumption. }
  unfold validateAll. destruct (Hs constructor) as (e & s' & ->). eauto.
Qed.

(** No schema is compiled under the name of the content type [habits]:
    validating any item of a habits file throws before any check is made. *)
Lemma habits_item_never_validated host clock item language filePath index s :
  validateContentItem host clock item "habits" language filePath index s
  = Throw "validate is not a function" s.
Proof. reflexivity. Qed.

(** A habits file with at least one record is reported as invalid JSON,
    whatever its records are. *)
Lemma nonempty_habits_file_rejected host fs clock language item rest s :
  fs (contentPath "habits" language) = Content (JArr (item :: rest)) ->
  validateContentTypeIn host fs clock "habits" language s
  = addError ("Invalid JSON in " +++ contentPath "habits" language +++
              ": validate is not a function") s.
Proof.
  intros H. unfold validateContentTypeIn, existsSync, tryCatch, bind, readJson.
  rewrite H. reflexivity.
Qed.

(** C1, evaluated at a failing input. The habit [morningWalk] conforms to
    the habit schema, and the run over a habits file that holds just this
    habit reports an error for the file: the schema is compiled under the
    name [habit] and looked up under the content type [habits]. *)
Theorem conforming_habit_reported_as_error :
  Ajv.conforms Schema.habit Inputs.morningWalk = true /\
  errorsOf (validateAll node Inputs.oneHabit Inputs.clock1)
  = ["Invalid JSON in src/content/habits/en.json: validate is not a function"] /\
  isReported (validateAll node Inputs.oneHabit Inputs.clock1) = true.
Proof. repeat split; vm_compute; reflexivity. Qed.

(** C4, evaluated at a failing input. The habit [morningWalk] is marked as
    research-backed and has no sources; [validateHabitSpecific] would warn
    about it, but the run over a habits file that holds it reports no such
    warning: the rule is applied to the content type [habit], and the
    content type of the file is [habits]. *)
Theorem research_backing_warning_missing :
  truthy (member Inputs.morningWalk "researchBacked") = true /\
  member Inputs.morningWalk "sources" = None /\
  validateHabitSpecific node Inputs.morningWalk "src/content/habits/en.json" 0 constructor
  = addWarning (researchBackingWarning "src/content/habits/en.json" 0) constructor /\
  isReported (validateAll node Inputs.oneHabit Inputs.clock1) = true /\
  existsb (String.eqb (researchBackingWarning "src/content/habits/en.json" 0))
    (warningsOf (validateAll node Inputs.oneHabit Inputs.clock1)) = false.
Proof. repeat split; vm_compute; reflexivity. Qed.

(** C2, evaluated at a failing input. The English research file does not
    parse. [validateContentType] reports the parse error, and then
    [validateCrossReferences] parses the file again outside any [try]: the
    run aborts with the parse error, before the translation and quality
    stages, and writes no report. *)
Theorem unparsable_research_file_aborts_run :
  exists s,
    validateAll node Inputs.brokenResearch Inputs.clock1
    = Aborted "Unexpected end of JSON input" s /\
    errors s
    = ["Invalid JSON in src/content/research/en.json: Unexpected end of JSON input"].
Proof. eexists. split; vm_compute; reflexivity. Qed.

(** C5, evaluated at a failing input. The English habits file is a single
    object. [validateContentFile] records the one error that the content
    must be an array, and then [validateCrossReferences] calls [forEach] on
    the object: the run aborts with a TypeError and writes no report. *)
Theorem object_habits_file_aborts_run :
  exists s,
    validateAll node Inputs.objectHabits Inputs.clock1
    = Aborted "habits.forEach is not a function" s /\
    errors s = ["src/content/habits/en.json: Content must be an array"].
Proof. eexists. split; vm_compute; reflexivity. Qed.


(** ** Runs of [addError] and [addWarning] *)

Lemma state_eta (s : State) :
  s = {| errors := errors s; warnings := warnings s;
         stats := {| filesValidated := filesValidated (stats s);
                     totalErrors := totalErrors (stats s);
                     totalWarnings := totalWarnings (stats s);
                     validationTime := validationTime (stats s) |} |}.
Proof. destruct s as [e w [f te tw t]]. reflexivity. Qed.

Lemma appendErrors_nil s : appendErrors [] s = s.
Proof.
  unfold appendErrors. simpl. rewrite app_nil_r. symmetry. apply state_eta.
Qed.

Lemma appendWarnings_nil s : appendWarnings [] s = s.
Proof.
  unfold appendWarnings. simpl. rewrite app_nil_r. symmetry. apply state_eta.
Qed.

Lemma appendErrors_cons m ms s :
  appendErrors ms (appendErrors [m] s) = appendErrors (m :: ms) s.
Proof.
  unfold appendErrors. simpl. rewrite <- app_assoc. simpl.
  do 2 f_equal. lia.
Qed.

Lemma appendWarnings_cons m ms s :
  appendWarnings ms (appendWarnings [m] s) = appendWarnings (m :: ms) s.
Proof.
  unfold appendWarnings. simpl. rewrite <- app_assoc. simpl.
  do 2 f_equal. lia.
Qed.

Lemma appendWarnings_app ws1 ws2 s :
  appendWarnings ws2 (appendWarnings ws1 s) = appendWarnings (ws1 ++ ws2) s.
Proof.
  unfold appendWarnings. simpl. rewrite <- app_assoc, length_app.
  do 2 f_equal. lia.
Qed.

Lemma addError_append m s : addError m s = Ok tt (appendErrors [m] s).
Proof. reflexivity. Qed.

Lemma addWarning_append m s : addWarning m s = Ok tt (appendWarnings [m] s).
Proof. reflexivity. Qed.

Lemma forEach_when_addError {A : Type} (l : list A) (c : A -> bool)
    (msg : A -> string) s :
  forEach l (fun x => when (c x) (addError (msg x))) s
  = Ok tt (appendErrors (map msg (filter c l)) s).
Proof.
  revert s. induction l as [| x rest IH]; intros s; cbn [forEach filter].
  - cbn [map]. rewrite appendErrors_nil. reflexivity.
  - unfold bind. destruct (c x); cbn [when map].
    + rewrite addError_append, IH, appendErrors_cons. reflexivity.
    + unfold ret. apply IH.
Qed.

Lemma forEach_when_addWarning {A : Type} (l : list A) (c : A -> bool)
    (msg : A -> string) s :
  forEach l (fun x => when (c x) (addWarning (msg x))) s
  = Ok tt (appendWarnings (map msg (filter c l)) s).
Proof.
  revert s. induction l as [| x rest IH]; intros s; cbn [forEach filter].
  - cbn [map]. rewrite appendWarnings_nil. reflexivity.
  - unfold bind. destruct (c x); cbn [when map].
    + rewrite addWarning_append, IH, appendWarnings_cons. reflexivity.
    + unfold ret. apply IH.
Qed.

Lemma filter_of_map {A B : Type} (f : A -> B) (c : B -> bool) (l : list A) :
  filter c (map f l) = map f (filter (fun x => c (f x)) l).
Proof.
  induction l as [| x rest IH]; simpl; [reflexivity |].
  destruct (c (f x)); simpl; rewrite IH; reflexivity.
Qed.

(** [validateContentStructure] never throws: it adds one error per missing
    directory and one warning per missing content file. *)
Lemma validateContentStructure_issues fs s :
  validateContentStructure fs s
  = Ok tt
      (appendWarnings
         (map (fun path => "Missing content file: " +++ path)
            (filter (fun path => negb (existsSync fs path)) contentPaths))
         (appendErrors
            (map (fun dir => "Missing required directory: " +++ dir)
               (filter (fun dir => negb (existsSync fs dir)) requiredDirs))
            s)).
Proof.
  unfold validateContentStructure, bind.
  rewrite (forEach_when_addError requiredDirs
             (fun dir => negb (existsSync fs dir))
             (fun dir => "Missing required directory: " +++ dir)).
  set (s1 := appendErrors _ s). clearbody s1.
  assert (forall contentType s0,
    forEach supportedLanguages (fun language =>
      let filePath := contentPath contentType language in
      when (negb (existsSync fs filePath))
        (addWarning ("Missing content file: " +++ filePath))) s0
    = Ok tt (appendWarnings
        (map (fun path => "Missing content file: " +++ path)
           (filter (fun path => negb (existsSync fs path))
              (map (contentPath contentType) supportedLanguages))) s0)) as Hin.
  { intros contentType s0.
    rewrite (forEach_when_addWarning supportedLanguages
               (fun language => negb (existsSync fs (contentPath contentType language)))
               (fun language => "Missing content file: " +++ contentPath contentType language)).
    rewrite filter_of_map, map_map. reflexivity. }
  unfold contentPaths, contentTypes. cbn [forEach flat_map]. unfold bind, ret.
  rewrite !Hin. rewrite !appendWarnings_app.
  rewrite app_nil_r, !filter_app, !map_app, ?app_assoc. reflexivity.
Qed.

(** ** Absent files *)




Lemma other_language_supported language :
  In language otherLanguages -> In language supportedLanguages.
Proof. unfold otherLanguages. intros H. apply filter_In in H. tauto. Qed.

Section AbsentAsEmpty.

Variable fs : FileSystem.
Variables contentType language : string.
Hypothesis Htype : In contentType contentTypes.
Hypothesis Hlanguage : In language supportedLanguages.
Hypothesis Habsent : fs (contentPath contentType language) = Missing.






End AbsentAsEmpty.







(** ** Sets of identifiers *)

Lemma sameValueZero_eq (a b : jsval) : sameValueZero a b = true -> a = b.
Proof.
  destruct a as [[| x | x | x | x | x] |], b as [[| y | y | y | y | y] |];
    simpl; intros H; try discriminate; try reflexivity.
  - apply Bool.eqb_prop in H. congruence.
  - apply Z.eqb_eq in H. congruence.
  - apply String.eqb_eq in H. congruence.
Qed.

Lemma setHas_app (s1 s2 : JsSet) (x : jsval) :
  setHas (s1 ++ s2) x = setHas s1 x || setHas s2 x.
Proof. unfold setHas. apply existsb_app. Qed.

Lemma setHas_setAdd (s : JsSet) (y x : jsval) :
  setHas (setAdd s y) x = setHas s x || sameValueZero x y.
Proof.
  unfold setAdd. destruct (setHas s y) eqn:Hy.
  - destruct (sameValueZero x y) eqn:Hxy; [| now rewrite orb_false_r].
    apply sameValueZero_eq in Hxy. subst y. rewrite Hy. reflexivity.
  - rewrite setHas_app. simpl. now rewrite orb_false_r.
Qed.

Lemma setHas_fold (l : list jsval) (acc : JsSet) (x : jsval) :
  setHas (fold_left setAdd l acc) x = setHas acc x || existsb (sameValueZero x) l.
Proof.
  revert acc. induction l as [| y rest IH]; intros acc; simpl.
  - now rewrite orb_false_r.
  - rewrite IH, setHas_setAdd, orb_assoc. reflexivity.
Qed.

(** Membership in [new Set(l)] is membership in [l], up to SameValueZero. *)
Lemma setHas_newSet (l : list jsval) (x : jsval) :
  setHas (newSet l) x = existsb (sameValueZero x) l.
Proof. unfold newSet. rewrite setHas_fold. reflexivity. Qed.

Lemma in_setAdd (s : JsSet) (y x : jsval) :
  In x (setAdd s y) <-> In x s \/ x = y.
Proof.
  unfold setAdd. destruct (setHas s y) eqn:Hy.
  - split; [auto |]. intros [H | ->]; [exact H |].
    unfold setHas in Hy. apply existsb_exists in Hy as (z & Hz & Hyz).
    apply sameValueZero_eq in Hyz. subst z. exact Hz.
  - rewrite in_app_iff. simpl. intuition.
Qed.

Lemma in_fold_setAdd (l : list jsval) (acc : JsSet) (x : jsval) :
  In x (fold_left setAdd l acc) <-> In x acc \/ In x l.
Proof.
  revert acc. induction l as [| y rest IH]; intros acc; simpl.
  - intuition.
  - rewrite IH, in_setAdd. intuition.
Qed.

(** The elements of [new Set(l)] are those of [l]. *)
Lemma in_newSet (l : list jsval) (x : jsval) : In x (newSet l) <-> In x l.
Proof. unfold newSet. rewrite in_fold_setAdd. simpl. intuition. Qed.

(** ** The set difference *)

Lemma filter_filter_both {A : Type} (p q : A -> bool) (l : list A) :
  filter p (filter q l) = filter (fun x => q x && p x) l.
Proof.
  induction l as [| x rest IH]; simpl; [reflexivity |].
  destruct (q x); simpl; [destruct (p x) |]; rewrite IH; reflexivity.
Qed.

(** The elements of [new Set(l)], in the order of insertion, are the values
    of [l], each once, where [l] has it first. *)
Lemma fold_setAdd_firsts (l : list jsval) (acc : JsSet) :
  fold_left setAdd l acc
  = acc ++ filter (fun y => negb (setHas acc y)) (firsts l).
Proof.
  revert acc. induction l as [| x rest IH]; intros acc; simpl.
  - now rewrite app_nil_r.
  - rewrite IH. unfold setAdd. destruct (setHas acc x) eqn:Hx; simpl.
    + f_equal. rewrite filter_filter_both. apply filter_ext_in. intros y _.
      destruct (sameValueZero y x) eqn:Hyx; simpl; [| reflexivity].
      apply sameValueZero_eq in Hyx. subst y. rewrite Hx. reflexivity.
    + rewrite <- app_assoc. simpl. do 2 f_equal.
      rewrite filter_filter_both. apply filter_ext. intros y.
      rewrite setHas_app. unfold setHas at 2. simpl.
      rewrite orb_false_r, negb_orb, andb_comm. reflexivity.
Qed.

Lemma newSet_firsts (l : list jsval) : newSet l = firsts l.
Proof.
  unfold newSet. rewrite fold_setAdd_firsts. simpl.
  induction (firsts l) as [| y rest IH]; simpl; congruence.
Qed.

(** The difference the program computes on two sets is the set difference
    of the lists the sets were made from. *)
Lemma missingFrom_setDifference (baseline other : list jsval) :
  missingFrom (newSet baseline) (newSet other) = setDifference baseline other.
Proof.
  unfold missingFrom, setDifference. rewrite (newSet_firsts baseline).
  apply filter_ext. intros x. rewrite setHas_newSet. reflexivity.
Qed.

Lemma in_firsts (l : list jsval) (x : jsval) : In x (firsts l) <-> In x l.
Proof.
  induction l as [| y rest IH]; simpl; [reflexivity |].
  rewrite filter_In, IH. split.
  - intros [H | [H _]]; auto.
  - intros [H | H]; [now left |].
    destruct (sameValueZero x y) eqn:Hxy.
    + left. apply sameValueZero_eq in Hxy. congruence.
    + right. split; [exact H | reflexivity].
Qed.

(** The set difference holds exactly the baseline values that the other
    list lacks. *)
Lemma in_setDifference (baseline other : list jsval) (x : jsval) :
  In x (setDifference baseline other) <->
  In x baseline /\ existsb (sameValueZero x) other = false.
Proof.
  unfold setDifference. rewrite filter_In, in_firsts, negb_true_iff.
  reflexivity.
Qed.

Lemma sameValueZero_sym (a b : jsval) : sameValueZero a b = sameValueZero b a.
Proof.
  destruct a as [[| x | x | x | x | x] |], b as [[| y | y | y | y | y] |];
    simpl; try reflexivity.
  - destruct x, y; reflexivity.
  - apply Z.eqb_sym.
  - apply String.eqb_sym.
Qed.

Lemma existsb_filter_false {A : Type} (p q : A -> bool) (l : list A) :
  existsb p l = false -> existsb p (filter q l) = false.
Proof.
  induction l as [| x rest IH]; simpl; [auto |].
  intros H. apply orb_false_iff in H as [Hx Hrest].
  destruct (q x); simpl; [rewrite Hx |]; auto.
Qed.

Lemma distinctValues_filter (p : jsval -> bool) (l : list jsval) :
  distinctValues l = true -> distinctValues (filter p l) = true.
Proof.
  induction l as [| x rest IH]; simpl; [auto |].
  intros H. apply andb_true_iff in H as [Hx Hrest].
  destruct (p x); simpl; [| auto].
  apply andb_true_iff. split; [| auto].
  apply negb_true_iff in Hx. apply negb_true_iff.
  apply existsb_filter_false. exact Hx.
Qed.

Lemma distinctValues_firsts (l : list jsval) : distinctValues (firsts l) = true.
Proof.
  induction l as [| x rest IH]; simpl; [reflexivity |].
  apply andb_true_iff. split.
  - apply negb_true_iff.
    induction (firsts rest) as [| y ys IHy]; simpl; [reflexivity |].
    destruct (sameValueZero y x) eqn:Hyx; simpl.
    + apply IHy. simpl in IH. apply andb_true_iff in IH. apply IH.
    + rewrite sameValueZero_sym, Hyx. simpl. apply IHy.
      simpl in IH. apply andb_true_iff in IH. apply IH.
  - apply distinctValues_filter. exact IH.
Qed.

Lemma subsequence_refl {A : Type} (l : list A) : Subsequence l l.
Proof. induction l; constructor; assumption. Qed.

Lemma subsequence_filter {A : Type} (p : A -> bool) (l : list A) :
  Subsequence (filter p l) l.
Proof.
  induction l as [| x rest IH]; simpl; [constructor |].
  destruct (p x); constructor; exact IH.
Qed.

Lemma subsequence_trans {A : Type} (l1 l2 l3 : list A) :
  Subsequence l1 l2 -> Subsequence l2 l3 -> Subsequence l1 l3.
Proof.
  intros H12 H23. revert l1 H12.
  induction H23 as [| x l2 l3 H IH | x l2 l3 H IH]; intros l1 H12.
  - exact H12.
  - inversion H12; subst.
    + constructor. apply IH. assumption.
    + apply sub_skip. apply IH. assumption.
  - apply sub_skip. apply IH. exact H12.
Qed.

Lemma subsequence_firsts (l : list jsval) : Subsequence (firsts l) l.
Proof.
  induction l as [| x rest IH]; simpl; constructor.
  eapply subsequence_trans; [apply subsequence_filter | exact IH].
Qed.

(** The set difference names every missing value once, in the order of the
    baseline. *)
Lemma setDifference_ordered (baseline other : list jsval) :
  distinctValues (setDifference baseline other) = true /\
  Subsequence (setDifference baseline other) baseline.
Proof.
  unfold setDifference. split.
  - apply distinctValues_filter, distinctValues_firsts.
  - eapply subsequence_trans; [apply subsequence_filter | apply subsequence_firsts].
Qed.

Lemma subsequence_forallb {A : Type} (p : A -> bool) (l1 l2 : list A) :
  Subsequence l1 l2 -> forallb p l2 = true -> forallb p l1 = true.
Proof.
  induction 1 as [| x l1 l2 H IH | x l1 l2 H IH]; simpl; intros Hp;
    [reflexivity | |];
    apply andb_true_iff in Hp as [Hx Hrest]; [rewrite Hx |]; auto.
Qed.

Lemma printable_convertible (v : json) : printable v = true -> convertible v = true.
Proof.
  revert v. fix IH 1. intros [| b | n | text | items | props]; simpl; auto.
  induction items as [| x rest IHitems]; [reflexivity |].
  intros H. apply andb_true_iff in H as [Hx Hrest].
  rewrite (IH x Hx). simpl. apply IHitems. exact Hrest.
Qed.

Lemma prints_converts (v : jsval) : prints v = true -> converts v = true.
Proof. destruct v as [j |]; simpl; [apply printable_convertible | auto]. Qed.

Lemma forallb_prints_converts (l : list jsval) :
  forallb prints l = true -> forallb converts l = true.
Proof.
  rewrite !forallb_forall. intros H x Hx. apply prints_converts, H, Hx.
Qed.

(** ** Translation completeness *)

Lemma emits_ret {A : Type} (a : A) : Emits (ret a) a [].
Proof. intros s. exists s. split; [reflexivity | now rewrite app_nil_r]. Qed.

Lemma emits_bind {A B : Type} (m : M State A) (k : A -> M State B) a b ws1 ws2 :
  Emits m a ws1 -> Emits (k a) b ws2 -> Emits (bind m k) b (ws1 ++ ws2).
Proof.
  intros Hm Hk s. destruct (Hm s) as (s1 & E1 & W1).
  destruct (Hk s1) as (s2 & E2 & W2). exists s2. unfold bind. rewrite E1.
  split; [exact E2 |]. rewrite W2, W1, app_assoc. reflexivity.
Qed.

Lemma emits_bind_quiet {A B : Type} (m : M State A) (k : A -> M State B) a b ws :
  Emits m a [] -> Emits (k a) b ws -> Emits (bind m k) b ws.
Proof. intros Hm Hk. apply (emits_bind m k a b [] ws Hm Hk). Qed.

Lemma emits_forEach {A : Type} (l : list A) (body : A -> M State unit)
    (f : A -> list string) :
  (forall x, In x l -> Emits (body x) tt (f x)) ->
  Emits (forEach l body) tt (flat_map f l).
Proof.
  induction l as [| x rest IH]; intros H; simpl.
  - apply emits_ret.
  - apply emits_bind with (a := tt).
    + apply H. now left.
    + apply IH. intros y Hy. apply H. now right.
Qed.

Lemma emits_loadContentSafely fs contentType language :
  Emits (loadContentSafely fs contentType language)
    (loadedValue fs contentType language) [].
Proof.
  intros s. unfold loadContentSafely, loadedValue, tryCatch, bind, existsSync,
    readJson, emptyValue.
  destruct (fs (contentPath contentType language)); simpl;
    eexists; (split; [reflexivity |]); simpl; now rewrite app_nil_r.
Qed.

Lemma mapM_get_id (items : list json) (s : State) :
  forallb (fun h => match h with JNull => false | _ => true end) items = true ->
  mapM (fun h => get h "id") items s = Ok (map (fun h => member h "id") items) s.
Proof.
  induction items as [| h rest IH]; simpl; intros H; [reflexivity |].
  apply andb_true_iff in H as [Hh Hrest]. unfold bind.
  destruct h; try discriminate; simpl; rewrite (IH Hrest); reflexivity.
Qed.

Lemma emits_recordIds name v :
  recordsReadable v = true -> Emits (recordIds name v) (idsIn v) [].
Proof.
  intros H s. destruct v; try discriminate. simpl in H.
  exists s. unfold recordIds, bind. simpl.
  rewrite (mapM_get_id _ _ H). split; [reflexivity | now rewrite app_nil_r].
Qed.

Lemma emits_objectKeys v :
  keysReadable v = true -> Emits (objectKeys v) (keysIn v) [].
Proof.
  intros H s. destruct v; try discriminate; exists s;
    (split; [reflexivity | now rewrite app_nil_r]).
Qed.

Lemma emits_warnMissing label n missing :
  forallb converts missing = true ->
  Emits (warnMissing label n missing) tt
    match missing with
    | [] => []
    | _ => [label +++ join ", " (firstn n missing) +++
            (if (n <? List.length missing)%nat then "..." else "")]
    end.
Proof.
  intros Hc s. unfold warnMissing. destruct missing as [| x rest].
  - exists s. split; [reflexivity | now rewrite app_nil_r].
  - assert (forallb converts (slice0 n (x :: rest)) = true) as Hn.
    { apply (subsequence_forallb _ _ (x :: rest)); [| exact Hc].
      unfold slice0. clear. revert n.
      induction (x :: rest) as [| y l IH]; intros [| n]; simpl;
        try constructor; auto.
      clear. induction l; constructor; assumption. }
    cbn [List.length Nat.ltb Nat.leb when]. unfold preview, renderJoin, bind.
    rewrite Hn. eexists. split; reflexivity.
Qed.

Lemma ready_language fs language :
  completenessReady fs = true -> In language supportedLanguages ->
  recordsReadable (loadedValue fs "habits" language) = true /\
  recordsReadable (loadedValue fs "research" language) = true /\
  keysReadable (loadedValue fs "locales" language) = true.
Proof.
  intros H Hin. unfold completenessReady in H.
  rewrite forallb_forall in H. specialize (H language Hin).
  apply andb_true_iff in H as [H H3]. apply andb_true_iff in H as [H1 H2]. auto.
Qed.


(** The missing names of a content type convert when the baseline names
    do. *)
Lemma gap_converts fs contentType language :
  forallb converts (namesIn fs contentType "en") = true ->
  forallb converts (gap fs contentType language) = true.
Proof.
  intros H. eapply subsequence_forallb; [| exact H].
  apply setDifference_ordered.
Qed.

(** The warning of one content type and language, as the program issues
    it. *)
Lemma emits_gapWarning fs contentType language label n :
  forallb converts (namesIn fs contentType "en") = true ->
  label = gapLabel contentType language -> n = previewSize contentType ->
  Emits (warnMissing label n
           (missingFrom (newSet (namesIn fs contentType "en"))
              (newSet (namesIn fs contentType language))))
    tt (gapWarning fs contentType language).
Proof.
  intros Hp -> ->. rewrite missingFrom_setDifference.
  change (setDifference (namesIn fs contentType "en")
            (namesIn fs contentType language))
    with (gap fs contentType language).
  pose proof (emits_warnMissing (gapLabel contentType language)
                (previewSize contentType) (gap fs contentType language)
                (gap_converts fs contentType language Hp)) as H.
  unfold gapWarning. destruct (gap fs contentType language); exact H.
Qed.

(** The translation check on content it can read: it returns, and warns
    once for every content type and language with a missing name. *)
Lemma validateTranslationCompleteness_emits fs :
  completenessReady fs = true ->
  (forall contentType, In contentType contentTypes ->
     forallb converts (namesIn fs contentType "en") = true) ->
  Emits (validateTranslationCompleteness fs) tt
    (flat_map (fun contentType => flat_map (gapWarning fs contentType) otherLanguages)
       contentTypes).
Proof.
  intros Hready Hconverts.
  assert (In "en" supportedLanguages) as Hen by (simpl; auto).
  destruct (ready_language fs "en" Hready Hen) as (Hh & Hr & Hl).
  assert (Emits (validateTranslationCompleteness fs) tt
            (flat_map (gapWarning fs "habits") otherLanguages ++
             flat_map (gapWarning fs "research") otherLanguages ++
             flat_map (gapWarning fs "locales") otherLanguages)) as H.
  { unfold validateTranslationCompleteness.
    eapply emits_bind_quiet; [apply emits_loadContentSafely |].
    eapply emits_bind_quiet; [apply emits_recordIds; exact Hh |].
    eapply emits_bind.
    { apply emits_forEach. intros language Hin.
      apply other_language_supported in Hin.
      destruct (ready_language fs language Hready Hin) as (Hh' & _ & _).
      eapply emits_bind_quiet; [apply emits_loadContentSafely |].
      eapply emits_bind_quiet; [apply emits_recordIds; exact Hh' |].
      apply (emits_gapWarning fs "habits" language); try reflexivity.
      apply Hconverts. simpl. auto. }
    eapply emits_bind_quiet; [apply emits_loadContentSafely |].
    eapply emits_bind_quiet; [apply emits_recordIds; exact Hr |].
    eapply emits_bind.
    { apply emits_forEach. intros language Hin.
      apply other_language_supported in Hin.
      destruct (ready_language fs language Hready Hin) as (_ & Hr' & _).
      eapply emits_bind_quiet; [apply emits_loadContentSafely |].
      eapply emits_bind_quiet; [apply emits_recordIds; exact Hr' |].
      apply (emits_gapWarning fs "research" language); try reflexivity.
      apply Hconverts. simpl. auto. }
    eapply emits_bind_quiet; [apply emits_loadContentSafely |].
    eapply emits_bind_quiet; [apply emits_objectKeys; exact Hl |].
    apply emits_forEach. intros language Hin.
    apply other_language_supported in Hin.
    destruct (ready_language fs language Hready Hin) as (_ & _ & Hl').
    eapply emits_bind_quiet; [apply emits_loadContentSafely |].
    eapply emits_bind_quiet; [apply emits_objectKeys; exact Hl' |].
    apply (emits_gapWarning fs "locales" language); try reflexivity.
    apply Hconverts. simpl. auto. }
  unfold contentTypes. cbn [flat_map]. rewrite app_nil_r. exact H.
Qed.




(** ** Duplicate identifiers *)

Lemma sameValueZero_refl_of (x y : jsval) :
  sameValueZero x y = true -> sameValueZero x x = true.
Proof. intros H. pose proof (sameValueZero_eq _ _ H) as <-. exact H. Qed.

Lemma occurrences_app x l1 l2 :
  occurrences x (l1 ++ l2) = occurrences x l1 + occurrences x l2.
Proof. unfold occurrences. rewrite filter_app, length_app. reflexivity. Qed.

Lemma occurrences_one x y :
  occurrences x [y] = if sameValueZero x y then 1 else 0.
Proof. unfold occurrences. simpl. destruct (sameValueZero x y); reflexivity. Qed.

(** A truthy value is in the set of the truthy values of a list exactly
    when it occurs in the list. *)
Lemma existsb_truthy_occurrences (y : jsval) (p : list jsval) :
  truthy y = true ->
  existsb (sameValueZero y) (filter truthy p) = true <-> 1 <= occurrences y p.
Proof.
  intros Hy. unfold occurrences. induction p as [| z rest IH]; simpl.
  - split; [discriminate | lia].
  - destruct (sameValueZero y z) eqn:E.
    + apply sameValueZero_eq in E as Ez. subst z. rewrite Hy. simpl. rewrite E.
      simpl. split; [lia | reflexivity].
    + destruct (truthy z); simpl; rewrite ?E; simpl; exact IH.
Qed.

Lemma fold_noteId_snoc (p : list jsval) (y : jsval) (acc : JsSet * JsSet) :
  fold_left ContentTests.noteId (p ++ [y]) acc
  = ContentTests.noteId (fold_left ContentTests.noteId p acc) y.
Proof. rewrite fold_left_app. reflexivity. Qed.

Lemma noteId_fst (sets : JsSet * JsSet) (y : jsval) :
  fst (ContentTests.noteId sets y)
  = if truthy y then setAdd (fst sets) y else fst sets.
Proof. unfold ContentTests.noteId. destruct (truthy y); reflexivity. Qed.

Lemma noteId_snd (sets : JsSet * JsSet) (y : jsval) :
  snd (ContentTests.noteId sets y)
  = if truthy y
    then (if setHas (fst sets) y then setAdd (snd sets) y else snd sets)
    else snd sets.
Proof. unfold ContentTests.noteId. destruct (truthy y); reflexivity. Qed.

(** [fileIds] is the set of the truthy IDs seen so far. *)
Lemma fileIds_spec (p : list jsval) (x : jsval) :
  setHas (fst (fold_left ContentTests.noteId p ([], []))) x
  = existsb (sameValueZero x) (filter truthy p).
Proof.
  induction p as [| y rest IH] using rev_ind; [reflexivity |].
  rewrite fold_noteId_snoc, noteId_fst, filter_app, existsb_app.
  cbn [filter]. destruct (truthy y); cbn [existsb].
  - rewrite setHas_setAdd, IH, orb_false_r. reflexivity.
  - rewrite IH, orb_false_r. reflexivity.
Qed.

(** [fileDuplicates] holds exactly the duplicated IDs, each once. *)
Lemma fileDuplicates_spec (p : list jsval) :
  let dups := snd (fold_left ContentTests.noteId p ([], [])) in
  (forall x, In x dups <-> duplicated p x) /\ NoDup dups.
Proof.
  induction p as [| y rest IH] using rev_ind; cbv zeta.
  - split; [| constructor]. intros x. unfold duplicated, occurrences. simpl.
    split; [contradiction | lia].
  - rewrite fold_noteId_snoc, noteId_snd.
    cbv zeta in IH. destruct IH as [IHin IHnodup].
    pose proof (fileIds_spec rest) as Hids.
    destruct (fold_left ContentTests.noteId rest ([], [])) as [ids dups].
    cbn [fst snd] in *.
    assert (forall x, duplicated (rest ++ [y]) x <->
              truthy x = true /\
              2 <= occurrences x rest + (if sameValueZero x y then 1 else 0)) as Hd.
    { intros x. unfold duplicated.
      rewrite occurrences_app, occurrences_one. reflexivity. }
    destruct (truthy y) eqn:Hy.
    + destruct (setHas ids y) eqn:Hhas.
      * (* a repeated truthy ID: it joins the duplicates *)
        rewrite Hids in Hhas. apply existsb_truthy_occurrences in Hhas; [| exact Hy].
        assert (sameValueZero y y = true) as Hrefl.
        { unfold occurrences in Hhas.
          destruct (filter (sameValueZero y) rest) as [| z zs] eqn:Ef;
            [simpl in Hhas; lia |].
          assert (In z (filter (sameValueZero y) rest)) as Hz
            by (rewrite Ef; now left).
          apply filter_In in Hz as [_ Hz]. eapply sameValueZero_refl_of; eassumption. }
        split.
        -- intros x. rewrite in_setAdd, IHin, Hd. unfold duplicated.
           destruct (sameValueZero x y) eqn:E.
           ++ apply sameValueZero_eq in E as ->. split; [| auto].
              intros _. split; [exact Hy | lia].
           ++ split.
              ** intros [[Ht Ho] | ->]; [split; [exact Ht | lia] | congruence].
              ** intros [Ht Ho]. left. split; [exact Ht | lia].
        -- unfold setAdd. destruct (setHas dups y) eqn:Hdy; [exact IHnodup |].
           apply NoDup_app; [exact IHnodup | repeat constructor; simpl; tauto |].
           intros x Hx [<- | []].
           unfold setHas in Hdy.
           assert (existsb (sameValueZero y) dups = true) as Hc
             by (apply existsb_exists; exists y; auto).
           congruence.
      * (* the first occurrence of a truthy ID *)
        split; [| exact IHnodup].
        rewrite Hids in Hhas.
        assert (occurrences y rest = 0) as Hzero.
        { destruct (Nat.eq_dec (occurrences y rest) 0) as [E | E]; [exact E |].
          assert (1 <= occurrences y rest) as Hge by lia.
          apply existsb_truthy_occurrences in Hge; [congruence | exact Hy]. }
        intros x. rewrite IHin, Hd. unfold duplicated.
        destruct (sameValueZero x y) eqn:E.
        -- apply sameValueZero_eq in E as ->. rewrite Hzero. split; intros [_ ?]; lia.
        -- split; intros [Ht Ho]; (split; [exact Ht | lia]).
    + (* a falsy ID is skipped *)
      split; [| exact IHnodup].
      intros x. rewrite IHin, Hd. unfold duplicated.
      destruct (sameValueZero x y) eqn:E.
      * apply sameValueZero_eq in E as ->. split; intros [Ht _]; congruence.
      * split; intros [Ht Ho]; (split; [exact Ht | lia]).
Qed.

Lemma foldM_noteHabit (items : list json) (acc : JsSet * JsSet)
    (s : ContentTests.State) :
  recordsReadable (JArr items) = true ->
  foldM ContentTests.noteHabit items acc s
  = Ok (fold_left ContentTests.noteId (idsIn (JArr items)) acc) s.
Proof.
  simpl. revert acc. induction items as [| h rest IH]; intros acc H; simpl.
  - reflexivity.
  - simpl in H. apply andb_true_iff in H as [Hh Hrest]. unfold bind.
    destruct h; try discriminate; simpl; apply IH; exact Hrest.
Qed.

(** A value that is the same as some value is a primitive, which converts. *)
Lemma sameValueZero_converts (x y : jsval) :
  sameValueZero x y = true -> converts x = true.
Proof. destruct x as [[| | | | |] |]; simpl; try discriminate; reflexivity. Qed.

(** A duplicated ID converts, so the join of the duplicates does not
    throw. *)
Lemma duplicated_converts (ids : list jsval) (x : jsval) :
  duplicated ids x -> converts x = true.
Proof.
  intros [_ H]. unfold occurrences in H.
  destruct (filter (sameValueZero x) ids) as [| y rest] eqn:E; [simpl in H; lia |].
  assert (In y (filter (sameValueZero x) ids)) as Hy by (rewrite E; now left).
  apply filter_In in Hy as [_ Hy]. exact (sameValueZero_converts x y Hy).
Qed.

(** The duplicates of a file convert, so the check of a file of records
    returns: it pushes one error when there are duplicates and none
    otherwise. *)
Lemma checkFile_readable fs file items s :
  fs file = Content (JArr items) ->
  recordsReadable (JArr items) = true ->
  let dups := snd (fold_left ContentTests.noteId (idsIn (JArr items)) ([], [])) in
  ContentTests.checkFile fs file s
  = Ok tt match dups with
          | [] => s
          | _ :: _ =>
              withError ("Duplicate habit IDs in " +++ file +++ ": " +++
                         join ", " dups) s
          end.
Proof.
  intros Hfile Hready. cbv zeta.
  pose proof (fileDuplicates_spec (idsIn (JArr items))) as Hspec.
  cbv zeta in Hspec. destruct Hspec as [Hin _].
  unfold ContentTests.checkFile, existsSync, readJson, bind.
  rewrite Hfile. cbn [negb arrayOf ret].
  rewrite (foldM_noteHabit items ([], []) s Hready).
  assert (forallb converts
            (snd (fold_left ContentTests.noteId (idsIn (JArr items)) ([], [])))
          = true) as Hc.
  { apply forallb_forall. intros x Hx.
    apply (duplicated_converts (idsIn (JArr items))), Hin, Hx. }
  destruct (snd (fold_left ContentTests.noteId (idsIn (JArr items)) ([], [])))
    as [| d ds]; [reflexivity |].
  cbn [List.length Nat.ltb Nat.leb when]. unfold renderJoin. rewrite Hc.
  reflexivity.
Qed.





(** * Further proofs *)

Import Laws.

(** ** What every stage keeps *)

Create HintDb frame.

#[local] Hint Resolve pres_ret pres_throw pres_arrayOf pres_get pres_defined
  pres_readJson pres_recordIds pres_render pres_renderJoin pres_less : frame.

Ltac frame_step :=
  first
    [ solve [auto with frame]
    | apply pres_forEach
    | apply pres_forEachFrom
    | apply pres_foldM
    | apply pres_mapM
    | apply pres_tryCatch
    | apply pres_when
    | apply pres_bind
    | match goal with
      | |- Preserves _ (if ?b then _ else _) => destruct b
      | |- Preserves _ (match ?x with _ => _ end) => destruct x
      end ].

Ltac frame := repeat (intros; cbv zeta; frame_step).

Section Frame.

(** A property of the state that [addError] and [addWarning] keep. *)
Variable P : State -> Prop.
Hypothesis P_addError : forall message, Preserves P (addError message).
Hypothesis P_addWarning : forall message, Preserves P (addWarning message).

#[local] Hint Resolve P_addError P_addWarning : frame.

Lemma frame_validateContentStructure fs : Preserves P (validateContentStructure fs).
Proof. unfold validateContentStructure. frame. Qed.

Lemma frame_validateHabitSpecific host habit filePath index :
  Preserves P (validateHabitSpecific host habit filePath index).
Proof. unfold validateHabitSpecific. frame. Qed.

Lemma frame_validateResearchSpecific host clock research filePath index :
  Preserves P (validateResearchSpecific host clock research filePath index).
Proof. unfold validateResearchSpecific. frame. Qed.

Lemma frame_call validate value : Preserves P (call validate value).
Proof. unfold call. frame. Qed.

#[local] Hint Resolve frame_validateHabitSpecific frame_validateResearchSpecific
  frame_call : frame.

Lemma frame_validateContentItem host clock item contentType language filePath index :
  Preserves P (validateContentItem host clock item contentType language filePath index).
Proof. unfold validateContentItem. frame. Qed.

#[local] Hint Resolve frame_validateContentItem : frame.

Lemma frame_validateContentFile host clock content contentType language filePath :
  Preserves P (validateContentFile host clock content contentType language filePath).
Proof. unfold validateContentFile. frame. Qed.

Lemma frame_validateCrossReferences fs : Preserves P (validateCrossReferences fs).
Proof.
  unfold validateCrossReferences, collectResearchIds, checkHabitSources. frame.
Qed.

Lemma frame_loadContentSafely fs contentType language :
  Preserves P (loadContentSafely fs contentType language).
Proof. unfold loadContentSafely. frame. Qed.

Lemma frame_objectKeys v : Preserves P (objectKeys v).
Proof. unfold objectKeys. frame. Qed.

Lemma frame_hasPlaceholder name v : Preserves P (hasPlaceholder name v).
Proof. unfold hasPlaceholder, includesText. frame. Qed.

#[local] Hint Resolve frame_loadContentSafely frame_objectKeys
  frame_hasPlaceholder : frame.

Lemma frame_validateTranslationCompleteness fs :
  Preserves P (validateTranslationCompleteness fs).
Proof. unfold validateTranslationCompleteness, warnMissing, preview. frame. Qed.

Lemma frame_validateContentQuality fs : Preserves P (validateContentQuality fs).
Proof.
  unfold validateContentQuality, languageQuality, habitQuality, researchQuality,
    countWords.
  frame.
Qed.

(** With [countFile] too, the whole run keeps the property. *)
Hypothesis P_countFile : Preserves P countFile.

#[local] Hint Resolve P_countFile frame_validateContentFile : frame.

Lemma frame_validateContentTypeIn host fs clock contentType language :
  Preserves P (validateContentTypeIn host fs clock contentType language).
Proof. unfold validateContentTypeIn. frame. Qed.

#[local] Hint Resolve frame_validateContentTypeIn : frame.

Lemma frame_validateContentType host fs clock contentType :
  Preserves P (validateContentType host fs clock contentType).
Proof. unfold validateContentType. frame. Qed.

#[local] Hint Resolve frame_validateContentStructure frame_validateContentType
  frame_validateCrossReferences frame_validateTranslationCompleteness
  frame_validateContentQuality : frame.

Lemma frame_stages host fs clock : Preserves P (stages host fs clock).
Proof. unfold stages. frame. Qed.

End Frame.

(** ** Issues are only ever appended *)

Lemma extends_refl s : Extends s s.
Proof.
  repeat split; [exists [] | exists [] |]; rewrite ?app_nil_r; auto.
Qed.

Lemma extends_addError s0 message : Preserves (Extends s0) (addError message).
Proof.
  intros s ((es & He) & Hw & Hf). repeat split; simpl; [| exact Hw | exact Hf].
  exists (es ++ [message]). rewrite He, app_assoc. reflexivity.
Qed.

Lemma extends_addWarning s0 message : Preserves (Extends s0) (addWarning message).
Proof.
  intros s (He & (ws & Hw) & Hf). repeat split; simpl; [exact He | | exact Hf].
  exists (ws ++ [message]). rewrite Hw, app_assoc. reflexivity.
Qed.

Lemma extends_countFile s0 : Preserves (Extends s0) countFile.
Proof.
  intros s (He & Hw & Hf). repeat split; simpl; [exact He | exact Hw | lia].
Qed.

(** No stage removes or rewrites a recorded issue: whether a stage returns
    or throws, the errors and warnings it leaves start with the errors and
    warnings it found, in the same order, and the count of validated files
    has not decreased.  The same holds for all stages in sequence. *)
Theorem issues_are_append_only host fs clock s :
  Extends s (stateOf (validateContentStructure fs s)) /\
  (forall contentType,
     Extends s (stateOf (validateContentType host fs clock contentType s))) /\
  Extends s (stateOf (validateCrossReferences fs s)) /\
  Extends s (stateOf (validateTranslationCompleteness fs s)) /\
  Extends s (stateOf (validateContentQuality fs s)) /\
  (forall contentType language,
     Extends s (stateOf (loadContentSafely fs contentType language s))) /\
  Extends s (stateOf (stages host fs clock s)).
Proof.
  pose proof (extends_addError s) as HE.
  pose proof (extends_addWarning s) as HW.
  pose proof (extends_countFile s) as HC.
  pose proof (extends_refl s) as H0.
  split; [eapply (frame_validateContentStructure (Extends s)); eauto |].
  split; [intros contentType;
          eapply (frame_validateContentType (Extends s)); eauto |].
  split; [eapply (frame_validateCrossReferences (Extends s)); eauto |].
  split; [eapply (frame_validateTranslationCompleteness (Extends s)); eauto |].
  split; [eapply (frame_validateContentQuality (Extends s)); eauto |].
  split; [intros contentType language;
          eapply (frame_loadContentSafely (Extends s)); eauto |].
  eapply (frame_stages (Extends s)); eauto.
Qed.

(** ** Inverting a sequence *)

Section Sequences.

Context {St : Type}.

Lemma bind_ok_inv {A B : Type} (m : M St A) (k : A -> M St B) s b s' :
  bind m k s = Ok b s' -> exists a s1, m s = Ok a s1 /\ k a s1 = Ok b s'.
Proof.
  unfold bind. destruct (m s) as [a s1 | e s1]; [eauto | discriminate].
Qed.

Lemma bind_throw_inv {A B : Type} (m : M St A) (k : A -> M St B) s e s' :
  bind m k s = Throw e s' ->
  m s = Throw e s' \/ exists a s1, m s = Ok a s1 /\ k a s1 = Throw e s'.
Proof.
  unfold bind. destruct (m s) as [a s1 | e1 s1]; intros H.
  - right. eauto.
  - left. injection H as -> ->. reflexivity.
Qed.

Lemma bind_after_ok {A B : Type} (m : M St A) (k : A -> M St B) s a s1 :
  m s = Ok a s1 -> bind m k s = k a s1.
Proof. unfold bind. intros ->. reflexivity. Qed.

(** A loop whose bodies all return ends normally. *)
Lemma forEach_returns {A : Type} (l : list A) (body : A -> M St unit) :
  (forall x s, exists s', body x s = Ok tt s') ->
  forall s, exists s', forEach l body s = Ok tt s'.
Proof.
  intros H. induction l as [| x rest IH]; intros s; simpl.
  - exists s. reflexivity.
  - destruct (H x s) as (s1 & E). rewrite (bind_after_ok _ _ _ _ _ E). apply IH.
Qed.

(** What one body establishes and the others keep holds after the loop. *)
Lemma forEach_establishes {A : Type} (P : St -> Prop) (l : list A)
    (body : A -> M St unit) (x : A) :
  In x l ->
  (forall y, Preserves P (body y)) ->
  (forall y s, exists s', body y s = Ok tt s') ->
  (forall s, P (stateOf (body x s))) ->
  forall s, P (stateOf (forEach l body s)).
Proof.
  intros Hin Hkeep Hret Hx. induction l as [| y rest IH]; [contradiction |].
  intros s. simpl. destruct (Hret y s) as (s1 & E).
  rewrite (bind_after_ok _ _ _ _ _ E).
  destruct Hin as [-> | Hin].
  - apply pres_forEach; [exact Hkeep |].
    specialize (Hx s). rewrite E in Hx. exact Hx.
  - apply IH. exact Hin.
Qed.

End Sequences.

(** ** The structural stage *)

Lemma files_kept_addError n message :
  Preserves (fun s => filesValidated (stats s) = n) (addError message).
Proof. intros s H. exact H. Qed.

Lemma files_kept_addWarning n message :
  Preserves (fun s => filesValidated (stats s) = n) (addWarning message).
Proof. intros s H. exact H. Qed.

(** The validation of one file leaves the file counter alone and only
    appends issues. *)
Lemma validateContentFile_frame host fs clock path contentType language filePath s :
  let r := (content <- readJson fs path ;;
            validateContentFile host clock content contentType language filePath) s in
  filesValidated (stats (stateOf r)) = filesValidated (stats s) /\
  exists es, errors (stateOf r) = errors s ++ es.
Proof.
  intros r. subst r. split.
  - apply (pres_bind (fun st => filesValidated (stats st) = filesValidated (stats s)));
      [apply pres_readJson | | reflexivity].
    intros content. apply frame_validateContentFile;
      [apply files_kept_addError | apply files_kept_addWarning].
  - assert (Preserves (fun st => exists es, errors st = errors s ++ es)
              (content <- readJson fs path ;;
               validateContentFile host clock content contentType language filePath))
      as H.
    { apply pres_bind; [apply pres_readJson |]. intros content.
      apply frame_validateContentFile.
      - intros message st (es & E). exists (es ++ [message]). simpl.
        rewrite E, app_assoc. reflexivity.
      - intros message st H. exact H. }
    apply H. exists []. now rewrite app_nil_r.
Qed.

Lemma validateContentTypeIn_outcome host fs clock contentType language s :
  exists s',
    validateContentTypeIn host fs clock contentType language s = Ok tt s' /\
    (existsSync fs (contentPath contentType language) = true ->
     filesValidated (stats s') = S (filesValidated (stats s))
     \/ (filesValidated (stats s') = filesValidated (stats s) /\
         exists es message,
           errors s' = errors s ++ es ++
             ["Invalid JSON in " +++ contentPath contentType language +++ ": " +++ message])).
Proof.
  unfold validateContentTypeIn.
  destruct (existsSync fs (contentPath contentType language)) eqn:Hex; simpl.
  - pose proof (validateContentFile_frame host fs clock
                  (contentPath contentType language) contentType language
                  (contentPath contentType language) s) as [Hf (es & He)].
    cbv zeta in Hf, He. unfold tryCatch.
    destruct ((content <- readJson fs (contentPath contentType language) ;;
               validateContentFile host clock content contentType language
                 (contentPath contentType language) ;; countFile) s)
      as [u s1 | e s1] eqn:E.
    + destruct u. exists s1. split; [reflexivity |]. intros _. left.
      apply bind_ok_inv in E as (content & sa & Ea & E).
      apply bind_ok_inv in E as (u & sb & Eb & E).
      unfold bind in Hf. rewrite Ea, Eb in Hf. simpl in Hf.
      injection E as <-. simpl. rewrite Hf. reflexivity.
    + eexists. split; [reflexivity |]. intros _. right.
      assert (filesValidated (stats s1) = filesValidated (stats s) /\
              errors s1 = errors s ++ es) as [Hf1 He1].
      { apply bind_throw_inv in E as [E | (content & sa & Ea & E)].
        - unfold bind in Hf, He. rewrite E in Hf, He. auto.
        - apply bind_throw_inv in E as [E | (u & sb & Eb & E)].
          + unfold bind in Hf, He. rewrite Ea, E in Hf, He. auto.
          + discriminate E. }
      simpl. split; [exact Hf1 |]. exists es, e. rewrite He1, <- app_assoc.
      reflexivity.
  - eexists. split; [reflexivity |]. discriminate.
Qed.

Lemma validateContentType_returns host fs clock contentType s :
  exists s', validateContentType host fs clock contentType s = Ok tt s'.
Proof.
  unfold validateContentType. revert s. apply forEach_returns. intros language s.
  destruct (validateContentTypeIn_outcome host fs clock contentType language s)
    as (s' & E & _). eauto.
Qed.


(** The structure check never throws and leaves the file counter alone; it
    appends one error per missing required directory, in the order of the
    list of directories, and one warning per missing content file, in the
    order content type by language; a path that exists counts as present
    whether it is a file or a directory. *)
Theorem structure_check_reports_missing_paths fs s :
  exists s',
    validateContentStructure fs s = Ok tt s' /\
    errors s' = errors s ++
      map (fun dir => "Missing required directory: " +++ dir)
        (filter (fun dir => negb (existsSync fs dir)) requiredDirs) /\
    warnings s' = warnings s ++
      map (fun path => "Missing content file: " +++ path)
        (filter (fun path => negb (existsSync fs path)) contentPaths) /\
    filesValidated (stats s') = filesValidated (stats s).
Proof.
  eexists. split; [apply validateContentStructure_issues |].
  repeat split.
Qed.

(** ** Errors recorded before an abort *)

Lemma in_errors_addError e message :
  Preserves (fun s => In e (errors s)) (addError message).
Proof. intros s H. simpl. apply in_or_app. now left. Qed.

Lemma in_errors_addWarning e message :
  Preserves (fun s => In e (errors s)) (addWarning message).
Proof. intros s H. exact H. Qed.

Lemma in_errors_countFile e : Preserves (fun s => In e (errors s)) countFile.
Proof. intros s H. exact H. Qed.

(** For an existing habits or research file that is not an array,
    [validateContentType] records its error. *)
Lemma validateContentTypeIn_records host fs clock contentType language s :
  contentType = "habits" \/ contentType = "research" ->
  notIterable (fs (contentPath contentType language)) ->
  In (recordedError (contentPath contentType language)
        (fs (contentPath contentType language)))
    (errors (stateOf (validateContentTypeIn host fs clock contentType language s))).
Proof.
  intros Ht H. unfold validateContentTypeIn, existsSync, tryCatch, bind, readJson.
  destruct (fs (contentPath contentType language)) as [| | message | v];
    simpl in *; try contradiction.
  - apply in_or_app. right. now left.
  - apply in_or_app. right. now left.
  - destruct Ht as [-> | ->]; destruct v; simpl in *; try contradiction;
      apply in_or_app; right; now left.
Qed.

(** When a habits or research file exists and is not an array (it does not
    parse, is a directory, or holds another JSON value), the run ends in the
    [catch] of [validateAll]: no report is written, although the error of
    the file had been recorded in the state the run leaves behind. *)
Theorem unusable_file_recorded_then_lost host fs clock contentType language :
  contentType = "habits" \/ contentType = "research" ->
  In language supportedLanguages ->
  notIterable (fs (contentPath contentType language)) ->
  exists message s,
    validateAll host fs clock = Aborted message s /\
    In (recordedError (contentPath contentType language)
          (fs (contentPath contentType language)))
      (errors s).
Proof.
  intros Ht Hl H.
  set (e := recordedError (contentPath contentType language)
              (fs (contentPath contentType language))).
  set (P := fun s : State => In e (errors s)).
  assert (forall y, Preserves P (validateContentType host fs clock y)) as Hkeep.
  { intros y. apply frame_validateContentType;
      [apply in_errors_addError | apply in_errors_addWarning | apply in_errors_countFile]. }
  assert (forall s, P (stateOf (validateContentType host fs clock contentType s))) as Hest.
  { intros s. unfold validateContentType.
    apply forEach_establishes with (x := language); [exact Hl | | |].
    - intros y. apply frame_validateContentTypeIn;
        [apply in_errors_addError | apply in_errors_addWarning | apply in_errors_countFile].
    - intros y s0.
      destruct (validateContentTypeIn_outcome host fs clock contentType y s0)
        as (s' & E & _). eauto.
    - intros s0. apply validateContentTypeIn_records; assumption. }
  assert (In contentType contentTypes) as Hin
    by (destruct Ht as [-> | ->]; simpl; auto).
  assert (forall s, P (stateOf (forEach contentTypes (validateContentType host fs clock) s)))
    as Hall.
  { intros s. apply forEach_establishes with (x := contentType); auto.
    intros y s0. apply validateContentType_returns. }
  assert (exists s2,
    (validateContentStructure fs ;;
     forEach contentTypes (validateContentType host fs clock)) constructor = Ok tt s2 /\
    P s2) as (s2 & E2 & P2).
  { rewrite (bind_after_ok _ _ _ _ _ (validateContentStructure_issues fs constructor)).
    specialize (Hall (appendWarnings
      (map (fun path => "Missing content file: " +++ path)
         (filter (fun path => negb (existsSync fs path)) contentPaths))
      (appendErrors
         (map (fun dir => "Missing required directory: " +++ dir)
            (filter (fun dir => negb (existsSync fs dir)) requiredDirs))
         constructor))).
    destruct (forEach_returns contentTypes (validateContentType host fs clock)
                (validateContentType_returns host fs clock)
                (appendWarnings
      (map (fun path => "Missing content file: " +++ path)
         (filter (fun path => negb (existsSync fs path)) contentPaths))
      (appendErrors
         (map (fun dir => "Missing required directory: " +++ dir)
            (filter (fun dir => negb (existsSync fs dir)) requiredDirs))
         constructor))) as (s2 & E).
    rewrite E in Hall. exists s2. split; [exact E | exact Hall]. }
  set (rest := validateCrossReferences fs ;;
               validateTranslationCompleteness fs ;;
               validateContentQuality fs).
  assert (Preserves P rest) as Hrest.
  { unfold rest. apply pres_bind;
      [apply frame_validateCrossReferences; apply in_errors_addWarning |].
    intros _. apply pres_bind;
      [apply frame_validateTranslationCompleteness;
         [apply in_errors_addError | apply in_errors_addWarning] |].
    intros _. apply frame_validateContentQuality;
      [apply in_errors_addError | apply in_errors_addWarning]. }
  assert (Throws rest) as Hthrows.
  { unfold rest. apply throws_bind_l.
    eapply validateCrossReferences_throws; eassumption. }
  destruct (Hthrows s2) as (message & s3 & E3).
  specialize (Hrest s2 P2). rewrite E3 in Hrest. simpl in Hrest.
  exists message, s3. split; [| exact Hrest].
  unfold validateAll.
  assert (stages host fs clock constructor = Throw message s3) as ->; [| reflexivity].
  unfold stages.
  apply bind_ok_inv in E2 as (u1 & s1 & E1 & E2).
  rewrite (bind_after_ok _ _ _ _ _ E1). rewrite (bind_after_ok _ _ _ _ _ E2).
  exact E3.
Qed.

(** The theorem applies to the English research file that does not
    parse. *)
Lemma unusable_file_recorded_then_lost_witness :
  exists message s,
    validateAll node Inputs.brokenResearch Inputs.clock1 = Aborted message s /\
    In "Invalid JSON in src/content/research/en.json: Unexpected end of JSON input"
      (errors s).
Proof.
  apply (unusable_file_recorded_then_lost node Inputs.brokenResearch Inputs.clock1 "research" "en").
  - right. reflexivity.
  - simpl. auto.
  - exact I.
Defined.

(** ** Word counts *)

Lemma length_snoc_char (s : string) (c : ascii) :
  String.length (s +++ String c "") = S (String.length s).
Proof. induction s as [| a s IH]; simpl; [reflexivity | now rewrite IH]. Qed.

Lemma splitFrom_length (s : string) :
  forall inRun current,
    List.length (ContentStats.splitFrom inRun current s) = S (spaceRuns inRun s).
Proof.
  induction s as [| c rest IH]; intros inRun current; simpl; [reflexivity |].
  destruct (isSpace c); [destruct inRun |]; simpl; rewrite IH; reflexivity.
Qed.

(** At most the first and the last token of a split are empty. *)
Lemma splitFrom_empty_tokens (s : string) :
  let words l := List.length (filter (fun w => (0 <? String.length w)%nat) l) in
  List.length (ContentStats.splitFrom true "" s)
    <= words (ContentStats.splitFrom true "" s) + 1 /\
  forall current,
    List.length (ContentStats.splitFrom false current s)
    <= words (ContentStats.splitFrom false current s)
       + (if (0 <? String.length current)%nat then 0 else 1) + 1.
Proof.
  cbv zeta. induction s as [| c rest [IHa IHb]]; simpl.
  - split; [lia |]. intros current.
    destruct (0 <? String.length current)%nat; simpl; lia.
  - destruct (isSpace c).
    + split; [exact IHa |]. intros current. simpl.
      destruct (0 <? String.length current)%nat; simpl; lia.
    + assert (forall current,
                (0 <? String.length (current +++ String c ""))%nat = true) as Hne.
      { intros current. rewrite length_snoc_char. reflexivity. }
      split.
      * specialize (IHb (String c "")). simpl in IHb. simpl. lia.
      * intros current. specialize (IHb (current +++ String c "")).
        rewrite Hne in IHb.
        destruct (0 <? String.length current)%nat; lia.
Qed.

Lemma spaceRuns_after_space (x y : string) :
  1 <= spaceRuns false (x +++ String " " y).
Proof.
  induction x as [| c x IH]; simpl; [lia |].
  destruct (isSpace c); [lia | exact IH].
Qed.

(** The word count of the quality check is the number of tokens of the
    split, empty tokens included: it is never below 2 for a title and a
    description (even when both are empty or missing), and it exceeds the
    count of the statistics script, which drops the empty tokens, by at
    most 2. *)
Theorem word_count_includes_empty_tokens :
  (forall text, List.length (ContentStats.splitSpaces text) = splitSpacesLength text) /\
  (forall text,
     ContentStats.countWords text <= splitSpacesLength text /\
     splitSpacesLength text <= ContentStats.countWords text + 2) /\
  (forall a b, 2 <= wordCount a b).
Proof.
  split; [| split].
  - intros text. apply splitFrom_length.
  - intros text. unfold ContentStats.countWords, splitSpacesLength.
    rewrite <- (splitFrom_length text false "").
    fold (ContentStats.splitSpaces text).
    destruct (String.eqb_spec text "") as [-> | _].
    + simpl. lia.
    + split.
      * apply filter_length_le.
      * pose proof (splitFrom_empty_tokens text) as [_ H]. cbv zeta in H.
        specialize (H ""). simpl in H. unfold ContentStats.splitSpaces. lia.
  - intros a b. unfold wordCount, splitSpacesLength.
    pose proof (spaceRuns_after_space (show a) (show b)). simpl in *. lia.
Qed.

(** [Math.round(total / items) < 50], the test of the warning about the
    overall word count, holds exactly when there is at least one content
    item and the average is below 49.5 words: an average of exactly 49.5 is
    rounded up to 50 and passes. *)
Theorem low_average_threshold (total items : nat) :
  averageBelow50 total items = true <-> items <> 0 /\ 2 * total < 99 * items.
Proof.
  unfold averageBelow50. destruct items as [| n]; [split; [discriminate | lia] |].
  rewrite Z.ltb_lt. split.
  - intros H. split; [discriminate |].
    destruct (Z_lt_le_dec (2 * Z.of_nat total + Z.of_nat (S n))
                (2 * Z.of_nat (S n) * 50)) as [L | G]; [lia |].
    apply Z.div_le_lower_bound in G; lia.
  - intros [_ H]. apply Z.div_lt_upper_bound; lia.
Qed.

(** ** Records that the quality check cannot read *)

Lemma hasPlaceholder_throws name v : noText v -> Throws (hasPlaceholder name v).
Proof.
  intros H. unfold hasPlaceholder. apply throws_bind_l. intros s.
  destruct v as [[| b | n | text | elems | props] |]; simpl in *;
    try contradiction; unfold throw; eauto.
Qed.

Lemma habitQuality_throws item :
  noText (member item "description") ->
  forall totals, Throws (habitQuality totals item).
Proof.
  intros H totals. unfold habitQuality.
  do 2 apply throws_bind_get. apply throws_bind_r. intros words.
  apply throws_bind_get. apply throws_bind_r. intros _.
  apply throws_bind_l, hasPlaceholder_throws, H.
Qed.

Lemma researchQuality_throws item :
  noText (member item "summary") ->
  forall totals, Throws (researchQuality totals item).
Proof.
  intros H totals. unfold researchQuality.
  do 2 apply throws_bind_get. apply throws_bind_r. intros words.
  apply throws_bind_get. apply throws_bind_r. intros _.
  apply throws_bind_l, hasPlaceholder_throws, H.
Qed.

(** ** Counting the validated files *)

Section Growth.

Context {St : Type}.
Variable f : St -> nat.

Lemma grows_bind {A B : Type} (m : M St A) (k : A -> M St B) (a b : nat) :
  (forall s, f (stateOf (m s)) <= f s + a) ->
  (forall x s, f (stateOf (k x s)) <= f s + b) ->
  forall s, f (stateOf (bind m k s)) <= f s + (a + b).
Proof.
  intros Hm Hk s. unfold bind. specialize (Hm s).
  destruct (m s) as [x s1 | e s1]; simpl in *.
  - specialize (Hk x s1). lia.
  - lia.
Qed.

Lemma grows_forEach {A : Type} (l : list A) (body : A -> M St unit)
    (w : A -> nat) :
  (forall x s, f (stateOf (body x s)) <= f s + w x) ->
  forall s, f (stateOf (forEach l body s)) <= f s + list_sum (map w l).
Proof.
  intros H. induction l as [| x rest IH]; intros s; simpl.
  - lia.
  - apply grows_bind; [apply H | intros _; apply IH].
Qed.

Lemma grows_preserved {A : Type} (m : M St A) :
  (forall n, Preserves (fun s => f s <= n) m) ->
  forall s, f (stateOf (m s)) <= f s + 0.
Proof. intros H s. rewrite Nat.add_0_r. apply (H (f s)). lia. Qed.

End Growth.

Lemma length_filter_sum {A : Type} (p : A -> bool) (l : list A) :
  List.length (filter p l) = list_sum (map (fun x => if p x then 1 else 0) l).
Proof.
  induction l as [| x rest IH]; simpl; [reflexivity |].
  destruct (p x); simpl; rewrite IH; reflexivity.
Qed.

Lemma length_filter_flat_map {A B : Type} (p : B -> bool) (g : A -> list B)
    (l : list A) :
  List.length (filter p (flat_map g l))
  = list_sum (map (fun x => List.length (filter p (g x))) l).
Proof.
  induction l as [| x rest IH]; simpl; [reflexivity |].
  rewrite filter_app, length_app, IH. reflexivity.
Qed.

Lemma validateContentTypeIn_counts host fs clock contentType language s :
  filesValidated (stats (stateOf (validateContentTypeIn host fs clock contentType language s)))
  <= filesValidated (stats s)
     + (if existsSync fs (contentPath contentType language) then 1 else 0).
Proof.
  destruct (validateContentTypeIn_outcome host fs clock contentType language s)
    as (s' & E & H).
  destruct (existsSync fs (contentPath contentType language)) eqn:Hex.
  - rewrite E. simpl. destruct (H eq_refl) as [-> | [-> _]]; lia.
  - unfold validateContentTypeIn. rewrite Hex. simpl. lia.
Qed.

Lemma validateContentType_counts host fs clock contentType s :
  filesValidated (stats (stateOf (validateContentType host fs clock contentType s)))
  <= filesValidated (stats s)
     + List.length (filter (existsSync fs)
                      (map (contentPath contentType) supportedLanguages)).
Proof.
  rewrite length_filter_sum, map_map. unfold validateContentType.
  apply (grows_forEach (fun st => filesValidated (stats st))).
  intros language s0. apply validateContentTypeIn_counts.
Qed.

Lemma files_bound_addError n message :
  Preserves (fun s => filesValidated (stats s) <= n) (addError message).
Proof. intros s H. exact H. Qed.

Lemma files_bound_addWarning n message :
  Preserves (fun s => filesValidated (stats s) <= n) (addWarning message).
Proof. intros s H. exact H. Qed.

Lemma stages_count host fs clock s :
  filesValidated (stats (stateOf (stages host fs clock s)))
  <= filesValidated (stats s) + List.length (existingPaths fs).
Proof.
  pose proof files_bound_addError as HE. pose proof files_bound_addWarning as HW.
  replace (List.length (existingPaths fs))
    with (0 + (List.length (existingPaths fs) + (0 + (0 + 0)))) by lia.
  unfold stages.
  apply (grows_bind (fun st => filesValidated (stats st)));
    [apply (grows_preserved (fun st => filesValidated (stats st))); intros n; apply frame_validateContentStructure; auto |].
  intros _.
  apply (grows_bind (fun st => filesValidated (stats st))).
  { unfold existingPaths, contentPaths. rewrite length_filter_flat_map.
    apply (grows_forEach (fun st => filesValidated (stats st))).
    intros contentType s0. apply validateContentType_counts. }
  intros _.
  apply (grows_bind (fun st => filesValidated (stats st)));
    [apply (grows_preserved (fun st => filesValidated (stats st))); intros n; apply frame_validateCrossReferences; auto |].
  intros _.
  apply (grows_bind (fun st => filesValidated (stats st)));
    [apply (grows_preserved (fun st => filesValidated (stats st))); intros n;
     apply frame_validateTranslationCompleteness; auto |].
  intros _.
  apply (grows_preserved (fun st => filesValidated (stats st))); intros n; apply frame_validateContentQuality; auto.
Qed.

Lemma validateAll_count host fs clock :
  match validateAll host fs clock with
  | Reported report _ => filesValidated (statistics report)
  | Aborted _ s => filesValidated (stats s)
  end <= List.length (existingPaths fs).
Proof.
  pose proof (stages_count host fs clock constructor) as H.
  unfold validateAll, generateReport.
  destruct (stages host fs clock constructor) as [u s | e s]; simpl in *;
    [| exact H].
  destruct (writeFileSync host "validation-report.json"); simpl; exact H.
Qed.

(** The file counter of a run counts content files that exist: whether the
    run writes a report or aborts, [filesValidated] is at most the number of
    the twelve content paths that exist, hence at most 12.  No stage but
    [validateContentType] counts a file, and it counts a file at most
    once. *)
Theorem validated_files_bounded host fs clock :
  let counted :=
    match validateAll host fs clock with
    | Reported report _ => filesValidated (statistics report)
    | Aborted _ s => filesValidated (stats s)
    end in
  counted <= List.length (existingPaths fs) /\
  List.length (existingPaths fs) <= 12.
Proof.
  cbv zeta. split.
  - apply validateAll_count.
  - unfold existingPaths.
    etransitivity; [apply filter_length_le | reflexivity].
Qed.

(** The business rules and the cross-reference check only warn: the rules
    for habits, the rules for research and [validateCrossReferences] leave
    the errors, the error counter and the file counter as they found them,
    whether they return or throw. *)
Theorem business_rules_only_warn host fs clock record filePath index s :
  let untouched (s' : State) :=
    errors s' = errors s /\
    totalErrors (stats s') = totalErrors (stats s) /\
    filesValidated (stats s') = filesValidated (stats s) in
  untouched (stateOf (validateHabitSpecific host record filePath index s)) /\
  untouched (stateOf (validateResearchSpecific host clock record filePath index s)) /\
  untouched (stateOf (validateCrossReferences fs s)).
Proof.
  cbv zeta.
  assert (forall message,
            Preserves (fun s' => errors s' = errors s /\
                         totalErrors (stats s') = totalErrors (stats s) /\
                         filesValidated (stats s') = filesValidated (stats s))
              (addWarning message)) as HW.
  { intros message s' H. exact H. }
  split; [| split].
  - apply (frame_validateHabitSpecific _ HW). auto.
  - apply (frame_validateResearchSpecific _ HW). auto.
  - apply (frame_validateCrossReferences _ HW). auto.
Qed.

(** ** Cross references *)

Lemma warns_ret {A : Type} (a : A) : Warns (ret a) a [].
Proof. intros s. unfold ret. now rewrite appendWarnings_nil. Qed.

Lemma warns_bind {A B : Type} (m : M State A) (k : A -> M State B) a b ws1 ws2 :
  Warns m a ws1 -> Warns (k a) b ws2 -> Warns (bind m k) b (ws1 ++ ws2).
Proof.
  intros Hm Hk s. unfold bind. rewrite Hm, Hk, appendWarnings_app. reflexivity.
Qed.

Lemma warns_forEach {A : Type} (l : list A) (body : A -> M State unit)
    (f : A -> list string) :
  (forall x, In x l -> Warns (body x) tt (f x)) ->
  Warns (forEach l body) tt (flat_map f l).
Proof.
  induction l as [| x rest IH]; intros H; simpl.
  - apply warns_ret.
  - apply warns_bind with (a := tt).
    + apply H. now left.
    + apply IH. intros y Hy. apply H. now right.
Qed.

Lemma warns_forEachFrom {A : Type} (l : list A) (body : A -> nat -> M State unit)
    (f : nat -> A -> list string) :
  (forall index x, In x l -> Warns (body x index) tt (f index x)) ->
  forall index,
    Warns (forEachFrom index l body) tt
      (flat_map (fun entry => f (fst entry) (snd entry))
         (combine (seq index (List.length l)) l)).
Proof.
  induction l as [| x rest IH]; intros H index; simpl.
  - apply warns_ret.
  - apply warns_bind with (a := tt).
    + apply H. now left.
    + apply IH. intros i y Hy. apply H. now right.
Qed.

Lemma foldM_collect_ids (items : list json) (acc : JsSet) (s : State) :
  forallb (fun h => match h with JNull => false | _ => true end) items = true ->
  foldM (fun ids item => id <- get item "id" ;; ret (setAdd ids id)) items acc s
  = Ok (fold_left setAdd (map (fun h => member h "id") items) acc) s.
Proof.
  revert acc. induction items as [| h rest IH]; intros acc H; simpl; [reflexivity |].
  apply andb_true_iff in H as [Hh Hrest]. unfold bind at 1.
  destruct h; try discriminate; simpl; apply (IH _ Hrest).
Qed.

Lemma collectResearchIds_ready fs language acc s :
  match fs (contentPath "research" language) with
  | Missing => true
  | Content v => recordsReadable v
  | _ => false
  end = true ->
  collectResearchIds fs acc language s
  = Ok (fold_left setAdd (idsIn (loadedValue fs "research" language)) acc) s.
Proof.
  unfold collectResearchIds, loadedValue, existsSync, readJson, bind.
  change ("src/content/research/" +++ language +++ ".json")
    with (contentPath "research" language).
  destruct (fs (contentPath "research" language)) as [| | m | v]; try discriminate.
  - reflexivity.
  - destruct v; try discriminate. simpl. intros H. apply foldM_collect_ids. exact H.
Qed.

Lemma foldM_collectResearchIds fs (languages : list string) acc s :
  forallb (fun language =>
      match fs (contentPath "research" language) with
      | Missing => true
      | Content v => recordsReadable v
      | _ => false
      end) languages = true ->
  foldM (collectResearchIds fs) languages acc s
  = Ok (fold_left setAdd
          (flat_map (fun language => idsIn (loadedValue fs "research" language))
             languages) acc) s.
Proof.
  revert acc. induction languages as [| language rest IH]; intros acc H; simpl;
    [reflexivity |].
  apply andb_true_iff in H as [Hl Hrest]. unfold bind.
  rewrite (collectResearchIds_ready _ _ _ _ Hl), fold_left_app. apply IH. exact Hrest.
Qed.

(** A value that converts is rendered as [show] gives it. *)
Lemma render_converts {St : Type} (v : jsval) (s : St) :
  converts v = true -> render v s = Ok (show v) s.
Proof. intros H. unfold render. rewrite H. reflexivity. Qed.

Lemma forEach_when_render_addWarning (l : list json) (c : json -> bool)
    (label : string -> string) (s : State) :
  forallb convertible l = true ->
  forEach l (fun x =>
    when (c x) (shown <- render (Some x) ;; addWarning (label shown))) s
  = Ok tt (appendWarnings (map (fun x => label (toString x)) (filter c l)) s).
Proof.
  intros H.
  rewrite <- (forEach_when_addWarning l c (fun x => label (toString x)) s).
  apply forEach_ext. intros x Hx s0.
  rewrite forallb_forall in H. specialize (H x Hx).
  destruct (c x); [| reflexivity]. unfold when, bind.
  rewrite (render_converts (Some x) s0 H). reflexivity.
Qed.

Lemma warns_habit_sources (ids : JsSet) (habit : json) (label : string -> string) :
  sourcesReadable habit = true ->
  forallb convertible (sourcesOf habit) = true ->
  Warns (sources <- get habit "sources" ;;
         match sources with
         | Some list =>
             if truthy sources then
               sourceIds <- arrayOf "habit.sources" "forEach" list ;;
               forEach sourceIds (fun sourceId =>
                 when (negb (setHas ids (Some sourceId)))
                   (shown <- render (Some sourceId) ;;
                    addWarning (label shown)))
             else ret tt
         | None => ret tt
         end) tt
    (map (fun id => label (toString id))
       (filter (fun id => negb (setHas ids (Some id))) (sourcesOf habit))).
Proof.
  intros H Hc s. unfold sourcesReadable in H. revert Hc.
  unfold sourcesOf, bind at 1, get.
  destruct habit; try discriminate; simpl member in *; cbv beta iota;
    try (unfold ret; simpl; now rewrite appendWarnings_nil).
  unfold ret at 1. cbv beta iota.
  destruct (lookup "sources" props) as [[| b | n | text | elems | fields] |];
    simpl in H; try discriminate;
    try (apply negb_true_iff in H; simpl; rewrite ?H; unfold ret; simpl;
         now rewrite appendWarnings_nil).
  all: try (simpl; unfold ret; simpl; now rewrite appendWarnings_nil).
  intros Hc. simpl truthy. cbv iota. unfold bind at 1, arrayOf, ret.
  apply forEach_when_render_addWarning. exact Hc.
Qed.

Lemma warns_checkHabitSources fs language :
  match fs (contentPath "habits" language) with
  | Missing => true
  | Content (JArr items) => forallb sourcesReadable items
  | _ => false
  end = true ->
  forallb convertible
    match fs (contentPath "habits" language) with
    | Content (JArr items) => flat_map sourcesOf items
    | _ => []
    end = true ->
  Warns (checkHabitSources fs (allResearchIds fs) language) tt
    (unknownSources fs language).
Proof.
  unfold checkHabitSources, unknownSources, existsSync, readJson.
  change ("src/content/habits/" +++ language +++ ".json")
    with (contentPath "habits" language).
  destruct (fs (contentPath "habits" language)) as [| | m | v]; try discriminate.
  - intros _ _. apply warns_ret.
  - destruct v; try discriminate. intros H Hc s. unfold bind at 1, ret at 1.
    unfold bind at 1, arrayOf, ret at 1.
    apply (warns_forEachFrom items _
             (fun index habit => unknownSourcesOf fs language index habit)).
    intros index habit Hin. unfold unknownSourcesOf.
    apply (warns_habit_sources (allResearchIds fs) habit
             (fun shown => at_ (contentPath "habits" language) index +++
                           ": References unknown research: " +++ shown)).
    + rewrite forallb_forall in H. apply H. exact Hin.
    + rewrite forallb_forall in Hc. apply forallb_forall. intros id Hid.
      apply Hc. apply in_flat_map. eauto.
Qed.

Lemma validateCrossReferences_warns fs :
  referencesReady fs = true ->
  forallb convertible (citations fs) = true ->
  Warns (validateCrossReferences fs) tt
    (flat_map (unknownSources fs) supportedLanguages).
Proof.
  intros H Hc s. unfold validateCrossReferences, bind.
  rewrite foldM_collectResearchIds.
  - fold (newSet (flat_map (fun language => idsIn (loadedValue fs "research" language))
                    supportedLanguages)).
    fold (allResearchIds fs).
    apply (warns_forEach supportedLanguages). intros language Hin.
    apply warns_checkHabitSources.
    + unfold referencesReady in H. rewrite forallb_forall in H.
      specialize (H language Hin). apply andb_true_iff in H as [_ H]. exact H.
    + rewrite forallb_forall in Hc. apply forallb_forall. intros id Hid.
      apply Hc. unfold citations. apply in_flat_map. eauto.
  - unfold referencesReady in H. rewrite forallb_forall in H.
    apply forallb_forall. intros language Hin.
    specialize (H language Hin). apply andb_true_iff in H as [H _]. exact H.
Qed.

Lemma forallb_printable_convertible (l : list json) :
  forallb printable l = true -> forallb convertible l = true.
Proof.
  rewrite !forallb_forall. intros H x Hx. apply printable_convertible, H, Hx.
Qed.

(** When every research file is absent or an array of records, every
    habits file is absent or an array of records with walkable sources, and
    every cited ID converts to a string, [validateCrossReferences] returns,
    changes nothing but the warnings, and warns once per citation, in the
    order language, habit, citation, about exactly the cited IDs that no
    research record carries.  The research records of all languages count:
    a habit may cite a record that only another language has. *)
Theorem unknown_sources_warned fs :
  referencesReady fs = true ->
  forallb printable (citations fs) = true ->
  (forall s,
     validateCrossReferences fs s
     = Ok tt (appendWarnings (flat_map (unknownSources fs) supportedLanguages) s)) /\
  (forall id,
     setHas (allResearchIds fs) id = true <->
     exists language,
       In language supportedLanguages /\
       existsb (sameValueZero id) (idsIn (loadedValue fs "research" language)) = true).
Proof.
  intros H Hp.
  split; [apply validateCrossReferences_warns;
          [exact H | apply forallb_printable_convertible, Hp] |].
  intros id. unfold allResearchIds. rewrite setHas_newSet.
  rewrite existsb_exists. split.
  - intros (x & Hx & Hid). apply in_flat_map in Hx as (language & Hl & Hx).
    exists language. split; [exact Hl |]. apply existsb_exists. eauto.
  - intros (language & Hl & Hx). apply existsb_exists in Hx as (x & Hx & Hid).
    exists x. split; [| exact Hid]. apply in_flat_map. eauto.
Qed.

(** The German habit cites the study of the English research file and
    another one: only the other one is warned about. *)
Lemma unknown_sources_warned_witness :
  validateCrossReferences Inputs.citingTree constructor
  = Ok tt
      (appendWarnings
         ["src/content/habits/de.json[0]: References unknown research: ghost-study"]
         constructor).
Proof.
  destruct (unknown_sources_warned Inputs.citingTree) as [Hrun _].
  - vm_compute. reflexivity.
  - vm_compute. reflexivity.
  - rewrite Hrun. vm_compute. reflexivity.
Defined.

(** ** Identifiers across files *)

Lemma filter_nil_iff {A : Type} (p : A -> bool) (l : list A) :
  filter p l = [] <-> forall x, In x l -> p x = false.
Proof.
  induction l as [| y rest IH]; simpl.
  - split; [intros _ x [] | reflexivity].
  - destruct (p y) eqn:E.
    + split; [discriminate |]. intros H. specialize (H y (or_introl eq_refl)).
      congruence.
    + rewrite IH. split.
      * intros H x [<- | Hx]; auto.
      * intros H x Hx. apply H. now right.
Qed.

Lemma goal_fold_concat (files : list (list jsval)) (acc : JsSet * list jsval) :
  fold_left (fun acc file => fold_left GoalContent.noteId file acc) files acc
  = fold_left GoalContent.noteId (List.concat files) acc.
Proof.
  revert acc. induction files as [| file rest IH]; intros acc; simpl; [reflexivity |].
  rewrite fold_left_app. apply IH.
Qed.

Lemma goal_fold_fst (l : list jsval) (acc : JsSet * list jsval) :
  fst (fold_left GoalContent.noteId l acc) = fold_left setAdd l (fst acc).
Proof.
  revert acc. induction l as [| x rest IH]; intros acc; simpl; [reflexivity |].
  rewrite IH. unfold GoalContent.noteId, setAdd.
  destruct (setHas (fst acc) x); reflexivity.
Qed.

Lemma goal_fold_snoc (l : list jsval) (x : jsval) :
  snd (fold_left GoalContent.noteId (l ++ [x]) ([], []))
  = snd (fold_left GoalContent.noteId l ([], []))
    ++ (if existsb (sameValueZero x) l then [x] else []).
Proof.
  rewrite fold_left_app. simpl. unfold GoalContent.noteId at 1.
  rewrite goal_fold_fst. simpl fst. fold (newSet l). rewrite setHas_newSet.
  destruct (existsb (sameValueZero x) l); simpl; [reflexivity |].
  now rewrite app_nil_r.
Qed.

Lemma existsb_occurrences (x : jsval) (l : list jsval) :
  existsb (sameValueZero x) l = (0 <? occurrences x l)%nat.
Proof.
  unfold occurrences. induction l as [| y rest IH]; simpl; [reflexivity |].
  destruct (sameValueZero x y); simpl; [reflexivity | exact IH].
Qed.

Lemma goal_duplicates_occurrences (l : list jsval) (id : jsval) :
  occurrences id (snd (fold_left GoalContent.noteId l ([], [])))
  = Nat.pred (occurrences id l).
Proof.
  induction l as [| x rest IH] using rev_ind; [reflexivity |].
  rewrite goal_fold_snoc, !occurrences_app, IH, occurrences_one.
  destruct (sameValueZero id x) eqn:E.
  - apply sameValueZero_eq in E as Ex. subst x.
    rewrite existsb_occurrences.
    destruct (occurrences id rest) as [| n]; simpl.
    + reflexivity.
    + rewrite occurrences_one, E. lia.
  - destruct (existsb (sameValueZero x) rest); simpl.
    + rewrite occurrences_one, E. lia.
    + unfold occurrences. simpl. lia.
Qed.

Lemma goal_duplicates_reflexive (l : list jsval) (id : jsval) :
  In id (snd (fold_left GoalContent.noteId l ([], []))) ->
  sameValueZero id id = true.
Proof.
  induction l as [| x rest IH] using rev_ind; [intros [] |].
  rewrite goal_fold_snoc, in_app_iff. intros [H | H]; [auto |].
  destruct (existsb (sameValueZero x) rest) eqn:E; [| destruct H].
  destruct H as [<- | []].
  apply existsb_exists in E as (z & _ & Hz).
  apply (sameValueZero_refl_of _ _ Hz).
Qed.

(** The duplicate check of the goal script lists an ID once for each
    occurrence after its first, over all files in order: an ID that occurs
    [n] times is listed [n - 1] times.  The check throws exactly when some ID
    occurs more than once. *)
Theorem goal_duplicates_once_per_repeat (validatedFiles : list (list jsval)) :
  (forall id,
     occurrences id (GoalContent.duplicates validatedFiles)
     = Nat.pred (occurrences id (List.concat validatedFiles))) /\
  (GoalContent.duplicateError validatedFiles = None <->
   forall id, occurrences id (List.concat validatedFiles) <= 1).
Proof.
  unfold GoalContent.duplicateError, GoalContent.duplicates.
  rewrite goal_fold_concat.
  set (ids := List.concat validatedFiles).
  split; [intros id; apply goal_duplicates_occurrences |].
  pose proof (goal_duplicates_occurrences ids) as Hocc.
  pose proof (goal_duplicates_reflexive ids) as Hrefl.
  destruct (snd (fold_left GoalContent.noteId ids ([], []))) as [| d ds]; simpl.
  - split; [| reflexivity]. intros _ id. specialize (Hocc id).
    unfold occurrences at 1 in Hocc. simpl in Hocc. lia.
  - split; [discriminate |]. intros H. exfalso.
    specialize (Hocc d). specialize (H d).
    unfold occurrences at 1 in Hocc. simpl in Hocc.
    rewrite (Hrefl d (or_introl eq_refl)) in Hocc. simpl in Hocc. lia.
Qed.

Lemma mapM_get_id_in {St : Type} (items : list json) (s : St) :
  forallb (fun h => match h with JNull => false | _ => true end) items = true ->
  mapM (fun h => get h "id") items s = Ok (map (fun h => member h "id") items) s.
Proof.
  induction items as [| h rest IH]; simpl; intros H; [reflexivity |].
  apply andb_true_iff in H as [Hh Hrest]. unfold bind.
  destruct h; try discriminate; simpl; rewrite (IH Hrest); reflexivity.
Qed.

Lemma setDifference_nil_iff (a b : list jsval) :
  setDifference a b = [] <-> covers a b.
Proof.
  unfold setDifference, covers. rewrite filter_nil_iff. split; intros H x Hx.
  - specialize (H x (proj2 (in_firsts a x) Hx)). now apply negb_false_iff in H.
  - rewrite (H x (proj1 (in_firsts a x) Hx)). reflexivity.
Qed.

(** One error of the comparison: none when nothing is missing, else one
    that lists the missing IDs. *)
Lemma push_missing (label : string) (missing : list jsval) (s : ContentTests.State) :
  forallb converts missing = true ->
  when (0 <? List.length missing)%nat
    (shown <- renderJoin ", " missing ;; ContentTests.pushError (label +++ shown)) s
  = Ok tt (withErrors match missing with
                      | [] => []
                      | _ => [label +++ join ", " missing]
                      end s).
Proof.
  intros H. destruct missing as [| x rest].
  - simpl. unfold ret, withErrors. rewrite app_nil_r. destruct s; reflexivity.
  - cbn [List.length Nat.ltb Nat.leb when]. unfold bind, renderJoin.
    rewrite H. reflexivity.
Qed.

Lemma withErrors_app (a b : list string) (s : ContentTests.State) :
  withErrors b (withErrors a s) = withErrors (a ++ b) s.
Proof. unfold withErrors. simpl. rewrite app_assoc. reflexivity. Qed.

Lemma setDifference_converts (a b : list jsval) :
  forallb converts a = true -> forallb converts (setDifference a b) = true.
Proof.
  intros H. eapply subsequence_forallb; [apply setDifference_ordered | exact H].
Qed.

(** The comparison of the IDs of two files of records whose IDs convert
    returns, with the expected errors pushed. *)
Lemma checkMatchingIds_readable fs enItems deItems s :
  fs "multilingual-science-habits-en.json" = Content (JArr enItems) ->
  fs "multilingual-science-habits-de.json" = Content (JArr deItems) ->
  recordsReadable (JArr enItems) = true ->
  recordsReadable (JArr deItems) = true ->
  forallb converts (idsIn (JArr enItems)) = true ->
  forallb converts (idsIn (JArr deItems)) = true ->
  ContentTests.checkMatchingIds fs s
  = Ok tt (withErrors
             (translationErrors (idsIn (JArr enItems)) (idsIn (JArr deItems))) s).
Proof.
  intros Hen Hde Ren Rde Pen Pde.
  unfold ContentTests.checkMatchingIds, ContentTests.REQUIRED_FILES.
  cbn [nth]. cbv zeta. unfold existsSync. rewrite Hen, Hde. cbn [andb]. cbv iota.
  assert (forall path v (st : ContentTests.State),
            fs path = Content v -> readJson fs path st = Ok v st) as Hread.
  { intros path v st H. unfold readJson. rewrite H. reflexivity. }
  assert (forall name items (st : ContentTests.State),
            recordsReadable (JArr items) = true ->
            recordIds name (JArr items) st
            = Ok (map (fun h => member h "id") items) st) as Hids.
  { intros name items st H. unfold recordIds, bind, arrayOf, ret.
    apply (mapM_get_id_in items st H). }
  rewrite (bind_after_ok _ _ _ _ _ (Hread _ _ s Hen)).
  rewrite (bind_after_ok _ _ _ _ _ (Hread _ _ s Hde)).
  rewrite (bind_after_ok _ _ _ _ _ (Hids "enHabits" enItems s Ren)).
  rewrite (bind_after_ok _ _ _ _ _ (Hids "deHabits" deItems s Rde)).
  simpl idsIn in *.
  set (enList := map (fun h => member h "id") enItems) in *.
  set (deList := map (fun h => member h "id") deItems) in *.
  change (filter (fun id => negb (setHas (newSet deList) id)) (newSet enList))
    with (missingFrom (newSet enList) (newSet deList)).
  change (filter (fun id => negb (setHas (newSet enList) id)) (newSet deList))
    with (missingFrom (newSet deList) (newSet enList)).
  rewrite !missingFrom_setDifference.
  rewrite (bind_after_ok _ _ _ _ _
             (push_missing _ _ s (setDifference_converts enList deList Pen))).
  rewrite (push_missing _ _ _ (setDifference_converts deList enList Pde)).
  rewrite withErrors_app. unfold translationErrors.
  destruct (setDifference enList deList), (setDifference deList enList);
    reflexivity.
Qed.

(** When the English and the German habits file of the test suite both
    hold an array of records whose IDs convert to strings, the comparison of
    their IDs returns, leaves the warnings alone and adds at most two
    errors: first the one that lists the IDs that German lacks, then the one
    that lists the IDs that English lacks, each ID once and in the order of
    the file that has it.  It adds none exactly when every ID of either file
    occurs in the other. *)
Theorem matching_ids_checked fs enItems deItems s :
  fs "multilingual-science-habits-en.json" = Content (JArr enItems) ->
  fs "multilingual-science-habits-de.json" = Content (JArr deItems) ->
  recordsReadable (JArr enItems) = true ->
  recordsReadable (JArr deItems) = true ->
  forallb prints (idsIn (JArr enItems)) = true ->
  forallb prints (idsIn (JArr deItems)) = true ->
  let enIds := idsIn (JArr enItems) in
  let deIds := idsIn (JArr deItems) in
  ContentTests.checkMatchingIds fs s
  = Ok tt (withErrors (translationErrors enIds deIds) s) /\
  (translationErrors enIds deIds = [] <-> covers enIds deIds /\ covers deIds enIds) /\
  (forall x, In x (setDifference enIds deIds) <->
             In x enIds /\ existsb (sameValueZero x) deIds = false) /\
  (forall x, In x (setDifference deIds enIds) <->
             In x deIds /\ existsb (sameValueZero x) enIds = false) /\
  distinctValues (setDifference enIds deIds) = true /\
  distinctValues (setDifference deIds enIds) = true /\
  Subsequence (setDifference enIds deIds) enIds /\
  Subsequence (setDifference deIds enIds) deIds.
Proof.
  intros Hen Hde Ren Rde Pen Pde. cbv zeta.
  split; [| split; [| split; [apply in_setDifference
                             | split; [apply in_setDifference
                                      | repeat split; apply setDifference_ordered]]]].
  - apply checkMatchingIds_readable; try assumption;
      apply forallb_prints_converts; assumption.
  - rewrite <- !setDifference_nil_iff. unfold translationErrors.
    destruct (setDifference (idsIn (JArr enItems)) (idsIn (JArr deItems))),
      (setDifference (idsIn (JArr deItems)) (idsIn (JArr enItems)));
      simpl; split; try discriminate; intros H; try reflexivity;
      try (split; reflexivity); destruct H; discriminate.
Qed.

(** English has the habits a, b and c, German has a, b and d: two errors,
    the one for the missing German habit first. *)
Lemma matching_ids_checked_witness :
  ContentTests.checkMatchingIds Inputs.unmatchedHabits ContentTests.start
  = Ok tt (withErrors
             [ "Missing German translations for habit IDs: c";
               "Missing English translations for habit IDs: d" ]
             ContentTests.start).
Proof.
  apply (matching_ids_checked Inputs.unmatchedHabits
           [Inputs.idOnly "a"; Inputs.idOnly "b"; Inputs.idOnly "c"]
           [Inputs.idOnly "a"; Inputs.idOnly "b"; Inputs.idOnly "d"]
           ContentTests.start);
    reflexivity.
Defined.
(** ** The habits of the goal files *)

Lemma notNonEmptyArray_false (v : jsval) :
  GoalHabits.notNonEmptyArray v = false ->
  exists first rest, v = Some (JArr (first :: rest)).
Proof.
  destruct v as [[| | | | [| first rest] |] |]; try discriminate. eauto.
Qed.

Lemma pushes_bind (m : M (list string) unit) (k : M (list string) unit) c1 c2 :
  pushes m c1 -> pushes k c2 -> pushes (bind m (fun _ => k)) (c1 /\ c2).
Proof.
  intros Hm Hk errors errors' H. unfold bind in H.
  destruct (m errors) as [[] mid | e mid] eqn:E; [| discriminate].
  destruct (Hm _ _ E) as (a1 & -> & H1). destruct (Hk _ _ H) as (a2 & -> & H2).
  exists (a1 ++ a2). split; [now rewrite app_assoc |].
  intros Hnil. apply app_eq_nil in Hnil as [-> ->]. auto.
Qed.

Lemma pushes_when (b : bool) (message : string) :
  pushes (when b (GoalHabits.push message)) (b = false).
Proof.
  intros errors errors' H. destruct b; simpl in H; injection H as <-.
  - exists [message]. split; [reflexivity | discriminate].
  - exists []. split; [now rewrite app_nil_r | reflexivity].
Qed.

Lemma pushes_forEach_missing (habit : json) (fields : list string) :
  pushes
    (forEach fields (fun field =>
       when (GoalHabits.missing habit field)
         (GoalHabits.push ("Missing required field: " +++ field))))
    (filter (GoalHabits.missing habit) fields = []).
Proof.
  induction fields as [| field rest IH].
  - intros errors errors' H. injection H as <-. exists [].
    split; [now rewrite app_nil_r | reflexivity].
  - intros errors errors' H. cbn [forEach] in H.
    destruct (pushes_bind _ _ _ _ (pushes_when _ _) IH _ _ H) as (added & -> & Hc).
    exists added. split; [reflexivity |]. intros Hnil.
    destruct (Hc Hnil) as [Hm Hrest]. simpl. rewrite Hm. exact Hrest.
Qed.

Lemma pushes_checkListed name v valid :
  pushes (GoalHabits.checkListed name v valid) True.
Proof.
  intros errors errors' H. unfold GoalHabits.checkListed, when, bind, render in H.
  destruct (truthy v && negb (JsOps.includedIn valid v)).
  - destruct (converts v); [| discriminate]. injection H as <-.
    eexists. split; [reflexivity | auto].
  - injection H as <-. exists []. split; [now rewrite app_nil_r | auto].
Qed.

(** A range check that pushes nothing found the value falsy or within the
    range, as the host compares. *)
Lemma pushes_checkRange host name v low high range :
  pushes (GoalHabits.checkRange host name v low high range)
    (truthy v = true ->
     lessThan host v (Some (JNum low)) = false /\
     lessThan host (Some (JNum high)) v = false).
Proof.
  intros errors errors' H.
  unfold GoalHabits.checkRange, GoalHabits.outside, when, bind, render, less in H.
  destruct (truthy v).
  - destruct (converts v); simpl in H; [| discriminate].
    destruct (lessThan host v (Some (JNum low))) eqn:E1.
    + injection H as <-. eexists. split; [reflexivity |]. intros Hnil.
      discriminate.
    + destruct (lessThan host (Some (JNum high)) v) eqn:E2; injection H as <-.
      * eexists. split; [reflexivity |]. intros Hnil. discriminate.
      * exists []. split; [now rewrite app_nil_r | auto].
  - injection H as <-. exists []. split; [now rewrite app_nil_r |].
    intros _ Habs. discriminate.
Qed.

Lemma pushes_checkArray name v :
  pushes (GoalHabits.checkArray name v) (GoalHabits.notNonEmptyArray v = false).
Proof. apply pushes_when. Qed.

(** What an empty array of errors tells about the habit. *)
Lemma checks_nil host habit :
  GoalHabits.checks host habit [] = Ok tt [] ->
  filter (GoalHabits.missing habit) GoalHabits.requiredFields = [] /\
  (truthy (member habit "timeMinutes") = true ->
   lessThan host (member habit "timeMinutes") (Some (JNum 1)) = false /\
   lessThan host (Some (JNum GoalHabits.maxTimeMinutes)) (member habit "timeMinutes")
   = false) /\
  (truthy (member habit "effectivenessScore") = true ->
   lessThan host (member habit "effectivenessScore")
     (Some (JNum GoalHabits.minEffectivenessScore)) = false /\
   lessThan host (Some (JNum GoalHabits.maxEffectivenessScore))
     (member habit "effectivenessScore") = false) /\
  (truthy (member habit "priority") = true ->
   lessThan host (member habit "priority") (Some (JNum 1)) = false /\
   lessThan host (Some (JNum 100)) (member habit "priority") = false) /\
  JsOps.typeOf (member habit "isPrimaryRecommendation") = "boolean" /\
  GoalHabits.notNonEmptyArray (member habit "goalTags") = false /\
  GoalHabits.notNonEmptyArray (member habit "instructions") = false /\
  GoalHabits.notNonEmptyArray (member habit "sources") = false /\
  GoalHabits.notNonEmptyArray (member habit "progressionTips") = false.
Proof.
  intros H.
  assert (pushes (GoalHabits.checks host habit)
            (filter (GoalHabits.missing habit) GoalHabits.requiredFields = [] /\
             True /\ True /\
             (truthy (member habit "timeMinutes") = true ->
              lessThan host (member habit "timeMinutes") (Some (JNum 1)) = false /\
              lessThan host (Some (JNum GoalHabits.maxTimeMinutes))
                (member habit "timeMinutes") = false) /\
             (truthy (member habit "effectivenessScore") = true ->
              lessThan host (member habit "effectivenessScore")
                (Some (JNum GoalHabits.minEffectivenessScore)) = false /\
              lessThan host (Some (JNum GoalHabits.maxEffectivenessScore))
                (member habit "effectivenessScore") = false) /\
             (truthy (member habit "priority") = true ->
              lessThan host (member habit "priority") (Some (JNum 1)) = false /\
              lessThan host (Some (JNum 100)) (member habit "priority") = false) /\
             negb (JsOps.typeOf (member habit "isPrimaryRecommendation") =? "boolean")
             = false /\
             GoalHabits.notNonEmptyArray (member habit "goalTags") = false /\
             GoalHabits.notNonEmptyArray (member habit "instructions") = false /\
             GoalHabits.notNonEmptyArray (member habit "sources") = false /\
             GoalHabits.notNonEmptyArray (member habit "progressionTips") = false))
    as Hp.
  { unfold GoalHabits.checks.
    apply pushes_bind; [apply pushes_forEach_missing |].
    apply pushes_bind; [apply pushes_checkListed |].
    apply pushes_bind; [apply pushes_checkListed |].
    apply pushes_bind; [apply pushes_checkRange |].
    apply pushes_bind; [apply pushes_checkRange |].
    apply pushes_bind; [apply pushes_checkRange |].
    apply pushes_bind; [apply pushes_when |].
    apply pushes_bind; [apply pushes_checkArray |].
    apply pushes_bind; [apply pushes_checkArray |].
    apply pushes_bind; [apply pushes_checkArray |].
    apply pushes_checkArray. }
  destruct (Hp _ _ H) as (added & Hadded & Hc). simpl in Hadded. subst added.
  destruct (Hc eq_refl)
    as (Hreq & _ & _ & Htime & Hscore & Hpriority & Hbool & Htags & Hinstr & Hsrc
        & Htips).
  apply negb_false_iff, String.eqb_eq in Hbool.
  repeat (split; [assumption |]). assumption.
Qed.

(** What an accepted habit went through: no error was pushed. *)
Lemma passes_inv host habit filename :
  GoalHabits.validateHabitStructure host habit filename = GoalHabits.Passes ->
  (exists props, habit = JObj props) /\
  GoalHabits.checks host habit [] = Ok tt [].
Proof.
  unfold GoalHabits.validateHabitStructure.
  destruct habit as [| b | n | text | elems | props].
  1-4: discriminate.
  - destruct (GoalHabits.checks host (JArr elems) []) as [[] errors | e errors] eqn:E;
      [| discriminate].
    destruct errors as [| e es];
      [| cbn [List.length Nat.ltb Nat.leb]; destruct (converts _); discriminate].
    intros _. exfalso. apply checks_nil in E as (E & _).
    pose proof (proj1 (filter_nil_iff _ _) E "id") as Hid.
    assert (In "id" GoalHabits.requiredFields) as Hin by (left; reflexivity).
    specialize (Hid Hin). discriminate Hid.
  - destruct (GoalHabits.checks host (JObj props) []) as [[] errors | e errors] eqn:E;
      [| discriminate].
    destruct errors as [| e es];
      [eauto | cbn [List.length Nat.ltb Nat.leb]; destruct (converts _); discriminate].
Qed.

(** A habit that [validateHabitStructure] accepts is an object that has
    every required field with a value other than [null], a boolean
    [isPrimaryRecommendation], and non-empty arrays as [goalTags],
    [instructions], [sources] and [progressionTips].  An array or a value
    that is not an object is never accepted. *)
Theorem accepted_goal_habit_is_complete host habit filename :
  GoalHabits.validateHabitStructure host habit filename = GoalHabits.Passes ->
  exists props,
    habit = JObj props /\
    (forall field, In field GoalHabits.requiredFields ->
       exists v, lookup field props = Some v /\ v <> JNull) /\
    (exists b, lookup "isPrimaryRecommendation" props = Some (JBool b)) /\
    (forall field,
       In field ["goalTags"; "instructions"; "sources"; "progressionTips"] ->
       exists first rest, lookup field props = Some (JArr (first :: rest))).
Proof.
  intros H. apply passes_inv in H as [(props & ->) H]. exists props.
  split; [reflexivity |].
  apply checks_nil in H
    as (Hreq & _ & _ & _ & Hbool & Htags & Hinstr & Hsrc & Htips).
  cbn [member] in *.
  split; [| split].
  - intros field Hin.
    pose proof (proj1 (filter_nil_iff _ _) Hreq field Hin) as Hm.
    unfold GoalHabits.missing in Hm. cbn [member] in Hm.
    destruct (lookup field props) as [v |]; [| discriminate].
    exists v. split; [reflexivity |]. intros ->. discriminate.
  - destruct (lookup "isPrimaryRecommendation" props) as [[| b | | | |] |];
      try discriminate. eauto.
  - intros field [<- | [<- | [<- | [<- | []]]]];
      apply notNonEmptyArray_false; assumption.
Qed.

(** The theorem applies to the habit [restDay]. *)
Lemma accepted_goal_habit_is_complete_witness :
  exists props,
    Inputs.restDay = JObj props /\
    (forall field, In field GoalHabits.requiredFields ->
       exists v, lookup field props = Some v /\ v <> JNull) /\
    (exists b, lookup "isPrimaryRecommendation" props = Some (JBool b)) /\
    (forall field,
       In field ["goalTags"; "instructions"; "sources"; "progressionTips"] ->
       exists first rest, lookup field props = Some (JArr (first :: rest))).
Proof.
  apply (accepted_goal_habit_is_complete node Inputs.restDay
           "get_moving_habits-en.json").
  vm_compute. reflexivity.
Defined.

(** The range checks are guarded by the truth value of the field, so zero
    escapes them: under a host that compares numbers as numbers, an accepted
    habit with a numeric [timeMinutes] has 0 or a value from 1 to 60, with a
    numeric [priority] 0 or a value from 1 to 100, and with a numeric
    [effectivenessScore] a value from 0 to 10. *)
Theorem zero_escapes_range_checks host props filename :
  NumericHost host ->
  GoalHabits.validateHabitStructure host (JObj props) filename = GoalHabits.Passes ->
  (forall n, lookup "timeMinutes" props = Some (JNum n) ->
     n = 0 \/ 1 <= n <= 60)%Z /\
  (forall n, lookup "priority" props = Some (JNum n) ->
     n = 0 \/ 1 <= n <= 100)%Z /\
  (forall n, lookup "effectivenessScore" props = Some (JNum n) ->
     0 <= n <= 10)%Z.
Proof.
  intros Hhost H. apply passes_inv in H as [_ H].
  apply checks_nil in H as (_ & Htime & Hscore & Hpriority & _).
  cbn [member] in *.
  assert (forall n low high,
            (truthy (Some (JNum n)) = true ->
             lessThan host (Some (JNum n)) (Some (JNum low)) = false /\
             lessThan host (Some (JNum high)) (Some (JNum n)) = false) ->
            n = 0 \/ low <= n <= high)%Z as Hrange.
  { intros n low high Hn. rewrite !Hhost in Hn. cbn [truthy] in Hn.
    destruct (Z.eqb_spec n 0); [now left | right].
    destruct (Hn eq_refl) as [H1 H2].
    apply Z.ltb_ge in H1, H2. lia. }
  split; [| split]; intros n Hn.
  - rewrite Hn in Htime. apply (Hrange n 1 60)%Z. exact Htime.
  - rewrite Hn in Hpriority. apply (Hrange n 1 100)%Z. exact Hpriority.
  - rewrite Hn in Hscore. destruct (Hrange n 0 10 Hscore)%Z; lia.
Qed.

(** The habit [restDay] is accepted with [timeMinutes] 0 and [priority] 0,
    outside the ranges 1-60 and 1-100 that the messages of the checks
    name. *)
Lemma zero_escapes_range_checks_witness :
  (lookup "timeMinutes" Inputs.restDayFields = Some (JNum 0) /\
   lookup "priority" Inputs.restDayFields = Some (JNum 0)) /\
  (forall n, lookup "timeMinutes" Inputs.restDayFields = Some (JNum n) ->
     n = 0 \/ 1 <= n <= 60)%Z /\
  (forall n, lookup "priority" Inputs.restDayFields = Some (JNum n) ->
     n = 0 \/ 1 <= n <= 100)%Z /\
  (forall n, lookup "effectivenessScore" Inputs.restDayFields = Some (JNum n) ->
     0 <= n <= 10)%Z.
Proof.
  split; [split; reflexivity |].
  apply (zero_escapes_range_checks node Inputs.restDayFields
           "get_moving_habits-en.json").
  - intros a b. reflexivity.
  - vm_compute. reflexivity.
Defined.

(** ** The test suite *)

Lemma pres_read {A : Type} (P : ContentSuite.State -> Prop)
    (f : ContentSuite.State -> A) : Preserves P (ContentSuite.read f).
Proof. intros s H. exact H. Qed.

Section SuiteFrame.

(** A property of the state of the test suite that its four updates
    keep. *)
Variable P : ContentSuite.State -> Prop.
Hypothesis P_pushError : forall message, Preserves P (ContentSuite.pushError message).
Hypothesis P_countCategory : forall key, Preserves P (ContentSuite.countCategory key).
Hypothesis P_setLanguageCount :
  forall language count, Preserves P (ContentSuite.setLanguageCount language count).

#[local] Hint Resolve P_pushError P_countCategory P_setLanguageCount : frame.

Lemma suite_frame_validateSingleHabit habit index fileName language :
  Preserves P (ContentSuite.validateSingleHabit habit index fileName language).
Proof. unfold ContentSuite.validateSingleHabit. frame. Qed.

#[local] Hint Resolve suite_frame_validateSingleHabit : frame.

Lemma suite_frame_validateHabitData fs : Preserves P (ContentSuite.validateHabitData fs).
Proof. unfold ContentSuite.validateHabitData. frame. Qed.

End SuiteFrame.

Lemma suite_in_errors_pushError e message :
  Preserves (fun s => In e (ContentSuite.errors s)) (ContentSuite.pushError message).
Proof. intros s H. simpl. apply in_or_app. now left. Qed.

Lemma suite_in_errors_countCategory e key :
  Preserves (fun s => In e (ContentSuite.errors s)) (ContentSuite.countCategory key).
Proof. intros s H. exact H. Qed.

Lemma suite_in_errors_setLanguageCount e language count :
  Preserves (fun s => In e (ContentSuite.errors s))
    (ContentSuite.setLanguageCount language count).
Proof. intros s H. exact H. Qed.

(** The second loop of the file-structure test, for one file: it returns. *)
Lemma structure_file_returns fs file s :
  exists s',
    (if existsSync fs file then
       tryCatch
         (data <- readJson fs file ;;
          when (negb (JsOps.isArray (Some data)))
            (ContentSuite.pushError (file +++ " must contain an array of habits")))
         (fun message =>
            ContentSuite.pushError ("Invalid JSON in " +++ file +++ ": " +++ message))
     else ret tt) s = Ok tt s'.
Proof.
  unfold existsSync, tryCatch, bind, readJson.
  destruct (fs file) as [| | message | v]; simpl; try (eexists; reflexivity).
  destruct v; simpl; eexists; reflexivity.
Qed.

Lemma structure_file_records fs file s :
  notIterable (fs file) ->
  In (suiteRecordedError file (fs file))
    (ContentSuite.errors (stateOf
       ((if existsSync fs file then
           tryCatch
             (data <- readJson fs file ;;
              when (negb (JsOps.isArray (Some data)))
                (ContentSuite.pushError (file +++ " must contain an array of habits")))
             (fun message =>
                ContentSuite.pushError ("Invalid JSON in " +++ file +++ ": " +++ message))
         else ret tt) s))).
Proof.
  unfold existsSync, tryCatch, bind, readJson.
  destruct (fs file) as [| | message | v]; simpl; try contradiction.
  - intros _. apply in_or_app. right. now left.
  - intros _. apply in_or_app. right. now left.
  - destruct v; simpl; try contradiction; intros _;
      apply in_or_app; right; now left.
Qed.

Lemma validateFileStructure_records fs file s :
  In file ContentTests.REQUIRED_FILES ->
  notIterable (fs file) ->
  exists s',
    ContentSuite.validateFileStructure fs s = Ok tt s' /\
    In (suiteRecordedError file (fs file)) (ContentSuite.errors s').
Proof.
  intros Hin Hbad. unfold ContentSuite.validateFileStructure.
  destruct (forEach_returns ContentTests.REQUIRED_FILES
              (fun file => when (negb (existsSync fs file))
                 (ContentSuite.pushError ("Missing required file: " +++ file)))) with (s := s)
    as (s1 & E1).
  { intros x s0. destruct (negb (existsSync fs x)); simpl; eexists; reflexivity. }
  rewrite (bind_after_ok _ _ _ _ _ E1).
  set (body := fun file : string =>
         if existsSync fs file then
           tryCatch
             (data <- readJson fs file ;;
              when (negb (JsOps.isArray (Some data)))
                (ContentSuite.pushError (file +++ " must contain an array of habits")))
             (fun message =>
                ContentSuite.pushError ("Invalid JSON in " +++ file +++ ": " +++ message))
         else ret tt).
  destruct (forEach_returns ContentTests.REQUIRED_FILES body) with (s := s1)
    as (s2 & E2).
  { intros x s0. apply structure_file_returns. }
  exists s2. split; [exact E2 |].
  pose proof (forEach_establishes
                (fun st => In (suiteRecordedError file (fs file)) (ContentSuite.errors st))
                ContentTests.REQUIRED_FILES body file Hin) as H.
  specialize (H (fun y => ltac:(
    unfold body; destruct (existsSync fs y);
      [apply pres_tryCatch;
         [apply pres_bind; [apply pres_readJson | intros data; apply pres_when;
                            apply suite_in_errors_pushError]
         | intros e; apply suite_in_errors_pushError]
      | apply pres_ret]))).
  specialize (H (fun y s0 => structure_file_returns fs y s0)).
  specialize (H (fun s0 => structure_file_records fs file s0 Hbad) s1).
  rewrite E2 in H. exact H.
Qed.

Lemma habit_data_file_throws fs file :
  notIterable (fs file) ->
  Throws
    (if negb (existsSync fs file) then ret tt
     else
       habits <- readJson fs file ;;
       let language := if includes "-en." file then "en" else "de" in
       habitsValue <- defined (Some habits) "length" ;;
       _ <- render (lengthOf habitsValue) ;;
       ContentSuite.setLanguageCount language (lengthOf habitsValue) ;;
       items <- arrayOf "habits" "forEach" habits ;;
       forEachFrom 0 items (fun habit index =>
         ContentSuite.validateSingleHabit habit index file language)).
Proof.
  intros H s. unfold existsSync, readJson, bind.
  destruct (fs file) as [| | message | v]; simpl in *; try contradiction;
    unfold throw; eauto.
  destruct v; simpl in *; try contradiction; unfold throw; eauto.
  unfold render. destruct (converts (lookup "length" props)); simpl;
    unfold throw; eauto.
Qed.

(** The test suite has the defect of the validator: when a required habits
    file exists and is not an array (it does not parse, is a directory, or
    holds another JSON value), the file-structure test records the error
    and the habit-data test then reads the file again outside any [try], so
    the run ends in the [catch] of [validateAll] and the report with the
    recorded error is never printed. *)
Theorem suite_aborts_on_unusable_file fs file :
  In file ContentTests.REQUIRED_FILES ->
  notIterable (fs file) ->
  exists message s,
    ContentSuite.validateAll fs = ContentSuite.Aborted message s /\
    In (suiteRecordedError file (fs file)) (ContentSuite.errors s).
Proof.
  intros Hin Hbad.
  destruct (validateFileStructure_records fs file ContentSuite.constructor Hin Hbad)
    as (s1 & E1 & H1).
  assert (Throws (ContentSuite.validateHabitData fs)) as Hthrows.
  { unfold ContentSuite.validateHabitData.
    apply forEach_throws with (x := file); [exact Hin |].
    apply habit_data_file_throws. exact Hbad. }
  destruct (Hthrows s1) as (message & s2 & E2).
  pose proof (suite_frame_validateHabitData
                (fun st => In (suiteRecordedError file (fs file)) (ContentSuite.errors st))
                (suite_in_errors_pushError _) (suite_in_errors_countCategory _)
                (suite_in_errors_setLanguageCount _) fs s1 H1) as H2.
  rewrite E2 in H2. simpl in H2.
  exists message, s2. split; [| exact H2].
  unfold ContentSuite.validateAll, ContentSuite.tests.
  rewrite (bind_after_ok _ _ _ _ _ E1). unfold bind at 1. rewrite E2. reflexivity.
Qed.

(** The theorem applies to an English habits file that holds one habit
    object instead of an array. *)
Lemma suite_aborts_on_unusable_file_witness :
  exists message s,
    ContentSuite.validateAll
      (Inputs.files [("multilingual-science-habits-en.json", Content Inputs.morningWalk)])
    = ContentSuite.Aborted message s /\
    In "multilingual-science-habits-en.json must contain an array of habits"
      (ContentSuite.errors s).
Proof.
  apply (suite_aborts_on_unusable_file
           (Inputs.files
              [("multilingual-science-habits-en.json", Content Inputs.morningWalk)])
           "multilingual-science-habits-en.json").
  - left. reflexivity.
  - exact I.
Defined.

(** ** Category counts of the test suite *)

Section Counting.

Variable category : string.

Lemma counts_ret {A : Type} (a : A) : Counts category (ret a) 0.
Proof. intros s. exists a, s. split; [reflexivity | lia]. Qed.

Lemma counts_bind {A B : Type} (m : M ContentSuite.State A)
    (k : A -> M ContentSuite.State B) (n1 n2 : nat) :
  Counts category m n1 -> (forall a, Counts category (k a) n2) ->
  Counts category (bind m k) (n1 + n2).
Proof.
  intros Hm Hk s. destruct (Hm s) as (a & s1 & E1 & C1).
  destruct (Hk a s1) as (b & s2 & E2 & C2).
  exists b, s2. unfold bind. rewrite E1. split; [exact E2 | lia].
Qed.

Lemma counts_bind_ret {A B : Type} (a : A) (k : A -> M ContentSuite.State B)
    (n : nat) :
  Counts category (k a) n -> Counts category (bind (ret a) k) n.
Proof. intros H s. apply H. Qed.

Lemma counts_bind_quiet {A B : Type} (m : M ContentSuite.State A)
    (k : A -> M ContentSuite.State B) (n : nat) :
  Counts category m 0 -> (forall a, Counts category (k a) n) ->
  Counts category (bind m k) n.
Proof. intros Hm Hk. apply (counts_bind m k 0 n Hm Hk). Qed.

Lemma counts_pushError message : Counts category (ContentSuite.pushError message) 0.
Proof. intros s. eexists. eexists. split; [reflexivity | simpl; lia]. Qed.

Lemma counts_setLanguageCount language count :
  Counts category (ContentSuite.setLanguageCount language count) 0.
Proof. intros s. eexists. eexists. split; [reflexivity | simpl; lia]. Qed.

Lemma counts_when b (m : M ContentSuite.State unit) :
  Counts category m 0 -> Counts category (when b m) 0.
Proof. intros H. destruct b; [exact H | apply counts_ret]. Qed.

Lemma counts_forEach_quiet {A : Type} (l : list A)
    (body : A -> M ContentSuite.State unit) :
  (forall x, Counts category (body x) 0) -> Counts category (forEach l body) 0.
Proof.
  intros H. induction l as [| x rest IH]; simpl.
  - apply counts_ret.
  - apply counts_bind_quiet; [apply H | intros _; exact IH].
Qed.

Lemma counts_get habit key :
  habit <> JNull -> Counts category (get habit key) 0.
Proof.
  intros H s. destruct habit; try contradiction;
    eexists; eexists; (split; [reflexivity | lia]).
Qed.

Lemma counts_render {B : Type} (v : jsval) (k : string -> M ContentSuite.State B)
    (n : nat) :
  converts v = true -> Counts category (k (show v)) n ->
  Counts category (bind (render v) k) n.
Proof.
  intros Hv Hk s. unfold bind. rewrite (render_converts v s Hv). apply Hk.
Qed.

(** A check that quotes a value in the error it pushes. *)
Lemma counts_when_quoted b (v : jsval) (message : string -> string) :
  converts v = true ->
  Counts category
    (when b (shown <- render v ;; ContentSuite.pushError (message shown))) 0.
Proof.
  intros Hv. apply counts_when, counts_render; [exact Hv | apply counts_pushError].
Qed.

Lemma counts_countCategory (v : jsval) :
  converts v = true ->
  Counts category
    (when (truthy v) (key <- render v ;; ContentSuite.countCategory key))
    (if truthy v && (show v =? category) then 1 else 0).
Proof.
  intros Hv s. destruct (truthy v); simpl.
  - unfold bind. rewrite (render_converts v s Hv).
    eexists. eexists. split; [reflexivity |]. simpl.
    rewrite (String.eqb_sym category). destruct (show v =? category); lia.
  - eexists. eexists. split; [reflexivity | lia].
Qed.

Lemma orElse_converts (v : jsval) (d : json) :
  converts v = true -> convertible d = true -> converts (JsOps.orElse v d) = true.
Proof. intros Hv Hd. unfold JsOps.orElse. destruct (truthy v); assumption. Qed.

Lemma counts_validateSingleHabit habit index fileName language :
  habit <> JNull ->
  habitConverts habit = true ->
  Counts category (ContentSuite.validateSingleHabit habit index fileName language)
    (tally category [habit]).
Proof.
  intros H Hc. unfold habitConverts in Hc. cbn [forallb quotedFields] in Hc.
  apply andb_true_iff in Hc as [Hid Hc]. apply andb_true_iff in Hc as [Hcat Hc].
  apply andb_true_iff in Hc as [Hdiff Hc]. apply andb_true_iff in Hc as [Hlang _].
  unfold ContentSuite.validateSingleHabit.
  assert (get habit "id" = ret (member habit "id")
          :> M ContentSuite.State jsval) as ->.
  { destruct habit; try reflexivity. contradiction. }
  apply counts_bind_ret.
  apply counts_render; [apply orElse_converts; [exact Hid | reflexivity] |].
  cbv zeta.
  apply counts_bind_quiet;
    [apply counts_forEach_quiet; intros field; apply counts_when, counts_pushError
    | intros _].
  apply counts_bind_quiet; [apply counts_when, counts_pushError | intros _].
  apply counts_bind_quiet; [apply counts_when_quoted; exact Hcat | intros _].
  apply counts_bind_quiet.
  { destruct (truthy (member habit "difficulty"));
      [apply counts_when_quoted; exact Hdiff | apply counts_ret]. }
  intros _.
  apply counts_bind_quiet; [apply counts_when_quoted; exact Hlang | intros _].
  do 4 (apply counts_bind_quiet; [apply counts_when, counts_pushError | intros _]).
  unfold tally. cbn [filter].
  pose proof (counts_countCategory (member habit "category") Hcat) as Hcount.
  destruct (truthy (member habit "category") && (show (member habit "category") =? category));
    exact Hcount.
Qed.

Lemma tally_cons habit rest :
  tally category (habit :: rest) = tally category [habit] + tally category rest.
Proof.
  unfold tally. cbn [filter].
  destruct (truthy (member habit "category") && (show (member habit "category") =? category));
    reflexivity.
Qed.

Lemma counts_habits (items : list json) fileName language :
  forallb (fun h => match h with JNull => false | _ => true end) items = true ->
  forallb habitConverts items = true ->
  forall index,
    Counts category
      (forEachFrom index items (fun habit index =>
         ContentSuite.validateSingleHabit habit index fileName language))
      (tally category items).
Proof.
  induction items as [| habit rest IH]; intros H Hc index; simpl.
  - apply counts_ret.
  - apply andb_true_iff in H as [Hh Hrest]. simpl in Hc.
    apply andb_true_iff in Hc as [Hch Hcrest]. rewrite tally_cons.
    apply counts_bind.
    + apply counts_validateSingleHabit; [intros ->; discriminate | exact Hch].
    + intros _. apply IH; assumption.
Qed.

Lemma counts_file fs file :
  match fs file with
  | Missing => true
  | Content v => recordsReadable v
  | _ => false
  end = true ->
  forallb habitConverts (suiteHabits fs file) = true ->
  Counts category
    (if negb (existsSync fs file) then ret tt
     else
       habits <- readJson fs file ;;
       let language := if includes "-en." file then "en" else "de" in
       habitsValue <- defined (Some habits) "length" ;;
       _ <- render (lengthOf habitsValue) ;;
       ContentSuite.setLanguageCount language (lengthOf habitsValue) ;;
       items <- arrayOf "habits" "forEach" habits ;;
       forEachFrom 0 items (fun habit index =>
         ContentSuite.validateSingleHabit habit index file language))
    (tally category (suiteHabits fs file)).
Proof.
  unfold suiteHabits, existsSync, readJson.
  destruct (fs file) as [| | message | v]; try discriminate.
  - intros _ _. apply counts_ret.
  - destruct v; try discriminate. intros H Hc. cbn [negb]. cbv iota.
    apply counts_bind_ret. cbv zeta. unfold defined. apply counts_bind_ret.
    apply counts_render; [reflexivity |].
    apply counts_bind_quiet; [apply counts_setLanguageCount | intros _].
    unfold arrayOf. apply counts_bind_ret.
    apply counts_habits; assumption.
Qed.

End Counting.

Lemma validateHabitData_counts fs category :
  suiteReady fs = true ->
  suiteConverts fs = true ->
  Counts category (ContentSuite.validateHabitData fs)
    (tally category (suiteHabits fs "multilingual-science-habits-en.json")
     + (tally category (suiteHabits fs "multilingual-science-habits-de.json") + 0)).
Proof.
  intros H Hc. unfold suiteReady in H. unfold suiteConverts in Hc.
  cbn [forallb ContentTests.REQUIRED_FILES] in H, Hc.
  apply andb_true_iff in H as [Hen H]. apply andb_true_iff in H as [Hde _].
  apply andb_true_iff in Hc as [Hcen Hc]. apply andb_true_iff in Hc as [Hcde _].
  unfold ContentSuite.validateHabitData.
  cbn [forEach ContentTests.REQUIRED_FILES].
  apply counts_bind; [apply counts_file; assumption | intros _].
  apply counts_bind; [apply counts_file; assumption | intros _].
  apply counts_ret.
Qed.

(** The minimum of two habits per category is applied to the English and
    the German file together.  When each of the two files is absent or an
    array of records whose [id], [category], [difficulty] and [language]
    convert to strings, the habit-data test returns, and the count it
    leaves for a category is the count it found plus the habits of both
    files with that category: a category with one habit that both files
    hold reaches the minimum. *)
Theorem category_counts_add_up fs s :
  suiteReady fs = true ->
  suiteConverts fs = true ->
  exists s',
    ContentSuite.validateHabitData fs s = Ok tt s' /\
    forall category,
      In category ContentSuite.VALID_CATEGORIES ->
      ContentSuite.categoryCounts s' category
      = ContentSuite.categoryCounts s category
        + tally category (suiteHabits fs "multilingual-science-habits-en.json")
        + tally category (suiteHabits fs "multilingual-science-habits-de.json").
Proof.
  intros H Hc.
  destruct (validateHabitData_counts fs "" H Hc s) as ([] & s' & E & _).
  exists s'. split; [exact E |].
  intros category _.
  destruct (validateHabitData_counts fs category H Hc s) as ([] & s2 & E2 & C2).
  rewrite E in E2. injection E2 as <-. lia.
Qed.

(** Each file holds the one habit [restDay] of the category [get_moving]:
    the count is 2. *)
Lemma category_counts_add_up_witness :
  exists s',
    ContentSuite.validateHabitData
      (Inputs.files
         [ ("multilingual-science-habits-en.json", Content (JArr [Inputs.restDay]));
           ("multilingual-science-habits-de.json", Content (JArr [Inputs.restDay])) ])
      ContentSuite.constructor = Ok tt s' /\
    ContentSuite.categoryCounts s' "get_moving" = 2.
Proof.
  destruct (category_counts_add_up
              (Inputs.files
                 [ ("multilingual-science-habits-en.json",
                     Content (JArr [Inputs.restDay]));
                   ("multilingual-science-habits-de.json",
                     Content (JArr [Inputs.restDay])) ])
              ContentSuite.constructor) as (s' & E & C).
  - vm_compute. reflexivity.
  - vm_compute. reflexivity.
  - exists s'. split; [exact E |]. rewrite (C "get_moving").
    + vm_compute. reflexivity.
    + simpl. auto.
Defined.

(** ** Computations that return *)

Section Yielding.

Context {St : Type}.

Lemma yields_ret {A : Type} (a : A) (Q : A -> Prop) : Q a -> Yields (@ret St A a) Q.
Proof. intros H s. exists a, s. auto. Qed.

Lemma yields_bind {A B : Type} (m : M St A) (k : A -> M St B)
    (Q : A -> Prop) (R : B -> Prop) :
  Yields m Q -> (forall a, Q a -> Yields (k a) R) -> Yields (bind m k) R.
Proof.
  intros Hm Hk s. destruct (Hm s) as (a & s1 & E & Ha).
  destruct (Hk a Ha s1) as (b & s2 & E2 & Hb).
  exists b, s2. unfold bind. rewrite E. auto.
Qed.

Lemma returns_bind {A B : Type} (m : M St A) (k : A -> M St B) :
  Returns m -> (forall a, Returns (k a)) -> Returns (bind m k).
Proof. intros Hm Hk. apply (yields_bind m k _ _ Hm). intros a _. apply Hk. Qed.

Lemma yields_returns {A : Type} (m : M St A) (Q : A -> Prop) :
  Yields m Q -> Returns m.
Proof. intros H s. destruct (H s) as (a & s' & E & _). exists a, s'. auto. Qed.

Lemma returns_ret {A : Type} (a : A) : Returns (@ret St A a).
Proof. apply yields_ret. exact I. Qed.

Lemma returns_modify (f : St -> St) : Returns (modify f).
Proof. intros s. exists tt, (f s). auto. Qed.

Lemma returns_when (b : bool) (m : M St unit) : Returns m -> Returns (when b m).
Proof. intros H. destruct b; [exact H | apply returns_ret]. Qed.

Lemma returns_tryCatch {A : Type} (m : M St A) (handler : string -> M St A) :
  (forall e, Returns (handler e)) -> Returns (tryCatch m handler).
Proof.
  intros H s. unfold tryCatch. destruct (m s) as [a s' | e s'].
  - exists a, s'. auto.
  - apply H.
Qed.

Lemma returns_forEach {A : Type} (l : list A) (body : A -> M St unit) :
  (forall x, In x l -> Returns (body x)) -> Returns (forEach l body).
Proof.
  induction l as [| x rest IH]; intros H; simpl.
  - apply returns_ret.
  - apply returns_bind; [apply H; now left | intros _].
    apply IH. intros y Hy. apply H. now right.
Qed.

Lemma returns_forEachFrom {A : Type} (l : list A) (body : A -> nat -> M St unit) :
  (forall x index, In x l -> Returns (body x index)) ->
  forall index, Returns (forEachFrom index l body).
Proof.
  induction l as [| x rest IH]; intros H index; simpl.
  - apply returns_ret.
  - apply returns_bind; [apply H; now left | intros _].
    apply IH. intros y i Hy. apply H. now right.
Qed.

Lemma returns_foldM {A B : Type} (body : B -> A -> M St B) (l : list A) :
  (forall acc x, In x l -> Returns (body acc x)) ->
  forall acc, Returns (foldM body l acc).
Proof.
  induction l as [| x rest IH]; intros H acc; simpl.
  - apply returns_ret.
  - apply returns_bind; [apply H; now left | intros acc'].
    apply IH. intros acc0 y Hy. apply H. now right.
Qed.

Lemma returns_mapM {A B : Type} (f : A -> M St B) (l : list A) :
  (forall x, In x l -> Returns (f x)) -> Returns (mapM f l).
Proof.
  induction l as [| x rest IH]; intros H; simpl.
  - apply returns_ret.
  - apply returns_bind; [apply H; now left | intros y].
    apply returns_bind; [| intros ys; apply returns_ret].
    apply IH. intros z Hz. apply H. now right.
Qed.

Lemma yields_get (v : json) (key : string) :
  v <> JNull -> Yields (@get St v key) (eq (member v key)).
Proof.
  intros H s. destruct v; try contradiction; eexists; eexists; split; reflexivity.
Qed.

Lemma returns_get (v : json) (key : string) : v <> JNull -> Returns (@get St v key).
Proof. intros H. apply (yields_returns _ _ (yields_get v key H)). Qed.

Lemma yields_readJson (fs : FileSystem) (path : string) (v : json) :
  fs path = Content v -> Yields (@readJson St fs path) (eq v).
Proof. intros H s. unfold readJson. rewrite H. exists v, s. auto. Qed.

Lemma yields_arrayOf (name method : string) (items : list json) :
  Yields (@arrayOf St name method (JArr items)) (eq items).
Proof. intros s. exists items, s. auto. Qed.

(** A computation that returns and then runs into a throw, throws. *)
Lemma throws_after {A B : Type} (m : M St A) (k : A -> M St B) (Q : A -> Prop) :
  Yields m Q -> (forall a, Q a -> Throws (k a)) -> Throws (bind m k).
Proof.
  intros Hm Hk s. destruct (Hm s) as (a & s1 & E & Ha).
  unfold bind. rewrite E. apply Hk. exact Ha.
Qed.

Lemma throws_throw {A : Type} (message : string) : Throws (@throw St A message).
Proof. intros s. exists message, s. reflexivity. Qed.

Lemma forEachFrom_throws {A : Type} (l : list A) (body : A -> nat -> M St unit)
    (x : A) :
  In x l -> (forall index, Throws (body x index)) ->
  forall index, Throws (forEachFrom index l body).
Proof.
  intros Hin Hx. induction l as [| y rest IH]; [contradiction |].
  destruct Hin as [-> | Hin]; intros index; simpl.
  - apply throws_bind_l. apply Hx.
  - apply throws_bind_r. intros _. apply IH. exact Hin.
Qed.

Lemma mapM_throws {A B : Type} (f : A -> M St B) (l : list A) (x : A) :
  In x l -> Throws (f x) -> Throws (mapM f l).
Proof.
  intros Hin Hx. induction l as [| y rest IH]; [contradiction |].
  destruct Hin as [-> | Hin]; simpl.
  - apply throws_bind_l. exact Hx.
  - apply throws_bind_r. intros z. apply throws_bind_l. apply IH. exact Hin.
Qed.

(** A computation does not both return and throw. *)
Lemma returns_not_throws {A : Type} (m : M St A) (s : St) :
  Returns m -> Throws m -> False.
Proof.
  intros Hr Ht. destruct (Hr s) as (a & s1 & E & _).
  destruct (Ht s) as (e & s2 & E2). congruence.
Qed.

End Yielding.

Lemma forallb_false_exists {A : Type} (p : A -> bool) (l : list A) :
  forallb p l = false -> exists x, In x l /\ p x = false.
Proof.
  induction l as [| y rest IH]; simpl; [discriminate |].
  intros H. apply andb_false_iff in H as [H | H].
  - exists y. auto.
  - destruct (IH H) as (x & Hx & Hp). exists x. auto.
Qed.

(** A value whose record IDs cannot be read is not an array or holds
    [null]. *)
Lemma not_readable_cases (v : json) :
  recordsReadable v = false ->
  (match v with JArr _ => False | _ => True end)
  \/ exists items, v = JArr items /\ In JNull items.
Proof.
  destruct v as [| | | | items |]; simpl; auto. intros H. right.
  apply forallb_false_exists in H as (x & Hx & Hnull).
  destruct x; try discriminate. eauto.
Qed.

(** ** When the test suite reaches its report *)

Lemma returns_pushError message : Returns (ContentSuite.pushError message).
Proof. apply returns_modify. Qed.

Lemma returns_validateFileStructure fs :
  Returns (ContentSuite.validateFileStructure fs).
Proof.
  unfold ContentSuite.validateFileStructure.
  apply returns_bind; [| intros _].
  - apply returns_forEach. intros file _. apply returns_when, returns_pushError.
  - apply returns_forEach. intros file _ s.
    destruct (structure_file_returns fs file s) as (s' & E). exists tt, s'. auto.
Qed.

Lemma returns_validateHabitData fs :
  suiteReady fs = true -> suiteConverts fs = true ->
  Returns (ContentSuite.validateHabitData fs).
Proof.
  intros H Hc s.
  destruct (validateHabitData_counts fs "" H Hc s) as (a & s' & E & _).
  exists a, s'. auto.
Qed.

Lemma returns_onIssues {A : Type} (m : M ContentTests.State A) :
  Returns m -> Returns (ContentSuite.onIssues m).
Proof.
  intros H s. unfold ContentSuite.onIssues.
  destruct (H {| ContentTests.errors := ContentSuite.errors s;
                 ContentTests.warnings := ContentSuite.warnings s |})
    as (a & t & E & _).
  rewrite E. eexists. eexists. split; [reflexivity | exact I].
Qed.

Lemma suite_ready_file fs file :
  suiteReady fs = true -> In file ContentTests.REQUIRED_FILES ->
  fs file = Missing
  \/ exists items,
       fs file = Content (JArr items) /\ recordsReadable (JArr items) = true.
Proof.
  intros H Hin. unfold suiteReady in H. rewrite forallb_forall in H.
  specialize (H file Hin).
  destruct (fs file) as [| | message | v]; try discriminate; [now left |].
  destruct v; try discriminate. right. eauto.
Qed.

Lemma returns_checkFile fs file :
  suiteReady fs = true -> In file ContentTests.REQUIRED_FILES ->
  Returns (ContentTests.checkFile fs file).
Proof.
  intros H Hin s.
  destruct (suite_ready_file fs file H Hin) as [E | (items & E & Hitems)].
  - unfold ContentTests.checkFile, existsSync. rewrite E. exists tt, s. auto.
  - rewrite (checkFile_readable fs file items s E Hitems).
    eexists. eexists. split; [reflexivity | exact I].
Qed.

(** The IDs of the habits of a required file convert when their quoted
    fields do. *)
Lemma suite_ids_convert fs file items :
  suiteConverts fs = true -> In file ContentTests.REQUIRED_FILES ->
  fs file = Content (JArr items) ->
  forallb converts (idsIn (JArr items)) = true.
Proof.
  intros Hc Hin E. unfold suiteConverts in Hc. rewrite forallb_forall in Hc.
  specialize (Hc file Hin). unfold suiteHabits in Hc. rewrite E in Hc.
  rewrite forallb_forall in Hc. apply forallb_forall. intros id Hid.
  simpl in Hid. apply in_map_iff in Hid as (habit & <- & Hhabit).
  specialize (Hc habit Hhabit). unfold habitConverts in Hc.
  cbn [forallb quotedFields] in Hc. apply andb_true_iff in Hc. apply Hc.
Qed.

Lemma returns_checkMatchingIds fs :
  suiteReady fs = true -> suiteConverts fs = true ->
  Returns (ContentTests.checkMatchingIds fs).
Proof.
  intros H Hc s.
  destruct (suite_ready_file fs "multilingual-science-habits-en.json" H)
    as [Een | (enItems & Een & Hen)]; [simpl; auto | |].
  { unfold ContentTests.checkMatchingIds, ContentTests.REQUIRED_FILES, existsSync.
    cbn [nth]. rewrite Een. exists tt, s. auto. }
  destruct (suite_ready_file fs "multilingual-science-habits-de.json" H)
    as [Ede | (deItems & Ede & Hde)]; [simpl; auto | |].
  { unfold ContentTests.checkMatchingIds, ContentTests.REQUIRED_FILES, existsSync.
    cbn [nth]. rewrite Een, Ede. exists tt, s. auto. }
  rewrite (checkMatchingIds_readable fs enItems deItems s Een Ede Hen Hde).
  - eexists. eexists. split; [reflexivity | exact I].
  - apply (suite_ids_convert fs "multilingual-science-habits-en.json");
      [exact Hc | simpl; auto | exact Een].
  - apply (suite_ids_convert fs "multilingual-science-habits-de.json");
      [exact Hc | simpl; auto | exact Ede].
Qed.

Lemma returns_checkDuplicateIds fs :
  suiteReady fs = true -> suiteConverts fs = true ->
  Returns (ContentTests.checkDuplicateIds fs).
Proof.
  intros H Hc. unfold ContentTests.checkDuplicateIds.
  apply returns_bind; [| intros _; apply returns_checkMatchingIds; assumption].
  apply returns_forEach. intros file Hin. apply returns_checkFile; assumption.
Qed.

(** *** The language counts stay numbers *)

Lemma countsConvert_pushError message :
  Preserves countsConvert (ContentSuite.pushError message).
Proof. intros s H. exact H. Qed.

Lemma countsConvert_pushWarning message :
  Preserves countsConvert (ContentSuite.pushWarning message).
Proof. intros s H. exact H. Qed.

Lemma countsConvert_countCategory key :
  Preserves countsConvert (ContentSuite.countCategory key).
Proof. intros s H. exact H. Qed.

Lemma countsConvert_setLanguageCount language count :
  converts count = true ->
  Preserves countsConvert (ContentSuite.setLanguageCount language count).
Proof.
  intros Hc s H k. simpl. destruct (k =? language); [exact Hc | apply H].
Qed.

Lemma countsConvert_validateFileStructure fs :
  Preserves countsConvert (ContentSuite.validateFileStructure fs).
Proof.
  unfold ContentSuite.validateFileStructure.
  apply pres_bind; [| intros _]; apply pres_forEach; intros file.
  - apply pres_when, countsConvert_pushError.
  - destruct (existsSync fs file); [| apply pres_ret].
    apply pres_tryCatch; [| intros e; apply countsConvert_pushError].
    apply pres_bind; [apply pres_readJson | intros data].
    apply pres_when, countsConvert_pushError.
Qed.

(** The habit-data test stores a count only after it has printed it, so
    the count converts. *)
Lemma countsConvert_validateHabitData fs :
  Preserves countsConvert (ContentSuite.validateHabitData fs).
Proof.
  unfold ContentSuite.validateHabitData. apply pres_forEach. intros file.
  destruct (negb (existsSync fs file)); [apply pres_ret |].
  apply pres_bind; [apply pres_readJson | intros habits]. cbv zeta.
  apply pres_bind; [apply pres_defined | intros habitsValue].
  unfold render. destruct (converts (lengthOf habitsValue)) eqn:E;
    [| intros s Hs; exact Hs].
  apply pres_bind; [apply pres_ret | intros _].
  apply pres_bind; [apply countsConvert_setLanguageCount; exact E | intros _].
  apply pres_bind; [apply pres_arrayOf | intros items].
  apply pres_forEachFrom. intros habit index.
  apply suite_frame_validateSingleHabit;
    [apply countsConvert_pushError | apply countsConvert_countCategory].
Qed.

Lemma countsConvert_constructor : countsConvert ContentSuite.constructor.
Proof. intros language. reflexivity. Qed.

(** The business rules return when the language counts convert. *)
Lemma validateBusinessRules_returns fs s :
  suiteReady fs = true -> suiteConverts fs = true -> countsConvert s ->
  exists s', ContentSuite.validateBusinessRules fs s = Ok tt s'.
Proof.
  intros H Hc Hs. unfold ContentSuite.validateBusinessRules.
  set (loop := forEach ContentSuite.VALID_CATEGORIES _).
  assert (Returns loop) as Hloop.
  { apply returns_forEach. intros category _.
    apply returns_bind; [intros s0; eexists; eexists; split; [reflexivity | exact I]
                        | intros count].
    apply returns_when, returns_pushError. }
  assert (Preserves countsConvert loop) as Hkeep.
  { apply pres_forEach. intros category.
    apply pres_bind; [apply pres_read | intros count].
    apply pres_when, countsConvert_pushError. }
  destruct (Hloop s) as ([] & s1 & E1 & _).
  specialize (Hkeep s Hs). rewrite E1 in Hkeep. simpl in Hkeep.
  rewrite (bind_after_ok _ _ _ _ _ E1).
  unfold bind at 1, ContentSuite.read at 1. unfold bind at 1, ContentSuite.read at 1.
  cbv zeta.
  set (enCount := JsOps.orElse (ContentSuite.languageCounts s1 "en") (JNum 0)).
  set (deCount := JsOps.orElse (ContentSuite.languageCounts s1 "de") (JNum 0)).
  assert (converts enCount = true) as Hen
    by (apply orElse_converts; [apply Hkeep | reflexivity]).
  assert (converts deCount = true) as Hde
    by (apply orElse_converts; [apply Hkeep | reflexivity]).
  assert (exists s2,
            when (negb (JsOps.strictEquals enCount deCount))
              (shownEn <- render enCount ;;
               shownDe <- render deCount ;;
               ContentSuite.pushWarning
                 ("Language mismatch: EN has " +++ shownEn +++
                  " habits, DE has " +++ shownDe +++ " habits")) s1
            = Ok tt s2) as (s2 & E2).
  { destruct (negb (JsOps.strictEquals enCount deCount)); simpl;
      [| eexists; reflexivity].
    unfold bind. rewrite (render_converts enCount s1 Hen).
    rewrite (render_converts deCount _ Hde). eexists. reflexivity. }
  rewrite (bind_after_ok _ _ _ _ _ E2).
  destruct (returns_onIssues _ (returns_checkDuplicateIds fs H Hc) s2)
    as ([] & s3 & E3 & _).
  exists s3. exact E3.
Qed.

Lemma returns_validateCompatibility fs :
  suiteReady fs = true -> Returns (ContentSuite.validateCompatibility fs).
Proof.
  intros H. unfold ContentSuite.validateCompatibility. cbv zeta. unfold existsSync.
  destruct (suite_ready_file fs "multilingual-science-habits-en.json" H)
    as [E | (items & E & _)]; [simpl; auto | |]; rewrite E; cbn [negb].
  - apply returns_pushError.
  - apply (yields_bind _ _ _ _ (yields_readJson fs _ _ E)). intros v <-.
    apply returns_tryCatch. intros e. apply returns_pushError.
Qed.

Lemma validateSingleHabit_null index fileName language :
  Throws (ContentSuite.validateSingleHabit JNull index fileName language).
Proof. intros s. eexists. eexists. reflexivity. Qed.

Lemma validateHabitData_throws fs :
  suiteReady fs = false -> Throws (ContentSuite.validateHabitData fs).
Proof.
  intros H. unfold suiteReady in H.
  apply forallb_false_exists in H as (file & Hin & Hfile).
  unfold ContentSuite.validateHabitData.
  apply forEach_throws with (x := file); [exact Hin |].
  destruct (fs file) as [| | message | v] eqn:E; try discriminate.
  - apply habit_data_file_throws. rewrite E. exact I.
  - apply habit_data_file_throws. rewrite E. exact I.
  - destruct (not_readable_cases v Hfile) as [Hv | (items & -> & Hnull)].
    + apply habit_data_file_throws. rewrite E. destruct v; auto.
    + unfold existsSync. rewrite E. cbn [negb].
      apply (throws_after _ _ _ (yields_readJson fs file _ E)). intros v <-.
      cbv zeta. unfold defined.
      apply throws_bind_r. intros habitsValue.
      apply throws_bind_r. intros _.
      apply throws_bind_r. intros _.
      apply (throws_after _ _ _ (yields_arrayOf _ _ items)). intros items0 <-.
      apply forEachFrom_throws with (x := JNull); [exact Hnull |].
      intros index. apply validateSingleHabit_null.
Qed.

(** The tests of the suite return on files that are ready and whose quoted
    fields convert. *)
Lemma tests_return fs :
  suiteReady fs = true -> suiteConverts fs = true ->
  exists s, ContentSuite.tests fs ContentSuite.constructor = Ok tt s.
Proof.
  intros H Hc. unfold ContentSuite.tests.
  destruct (returns_validateFileStructure fs ContentSuite.constructor)
    as ([] & s1 & E1 & _).
  pose proof (countsConvert_validateFileStructure fs _ countsConvert_constructor)
    as P1. rewrite E1 in P1. simpl in P1.
  destruct (returns_validateHabitData fs H Hc s1) as ([] & s2 & E2 & _).
  pose proof (countsConvert_validateHabitData fs _ P1) as P2.
  rewrite E2 in P2. simpl in P2.
  destruct (validateBusinessRules_returns fs s2 H Hc P2) as (s3 & E3).
  destruct (returns_validateCompatibility fs H s3) as ([] & s4 & E4 & _).
  rewrite (bind_after_ok _ _ _ _ _ E1), (bind_after_ok _ _ _ _ _ E2),
    (bind_after_ok _ _ _ _ _ E3).
  exists s4. exact E4.
Qed.

(** When the [id], [category], [difficulty] and [language] of every habit
    convert to strings, the test suite reaches its report exactly when each
    of the two required habits files is absent or holds an array of
    records, none of them [null]; a file that does not parse, is a
    directory, is not an array or holds [null] ends the run in the [catch]
    of [validateAll], whatever the habits hold.  A run that reaches the
    report exits with code 0 exactly when no error was recorded. *)
Theorem suite_reports_iff_ready fs :
  (suiteReady fs = false -> isFinished (ContentSuite.validateAll fs) = false) /\
  (suiteConverts fs = true ->
   (isFinished (ContentSuite.validateAll fs) = true <-> suiteReady fs = true)) /\
  (forall code s,
     ContentSuite.validateAll fs = ContentSuite.Finished code s ->
     (code = 0%Z <-> ContentSuite.errors s = [])).
Proof.
  assert (suiteReady fs = false ->
          isFinished (ContentSuite.validateAll fs) = false) as Hnot.
  { intros Hready. unfold ContentSuite.validateAll.
    assert (Throws (ContentSuite.tests fs)) as Ht.
    { unfold ContentSuite.tests. apply throws_bind_r. intros _.
      apply throws_bind_l. apply validateHabitData_throws. exact Hready. }
    destruct (Ht ContentSuite.constructor) as (e & s' & E).
    rewrite E. reflexivity. }
  split; [exact Hnot |]. split.
  - intros Hc. split.
    + intros Hfin. destruct (suiteReady fs) eqn:Hready; [reflexivity |].
      rewrite (Hnot eq_refl) in Hfin. discriminate.
    + intros Hready. unfold ContentSuite.validateAll.
      destruct (tests_return fs Hready Hc) as (s' & E).
      rewrite E. reflexivity.
  - intros code s. unfold ContentSuite.validateAll.
    destruct (ContentSuite.tests fs ContentSuite.constructor) as [a s' | e s'];
      [| discriminate].
    intros H. injection H as <- <-.
    destruct (ContentSuite.errors s') as [| e es]; simpl; split;
      congruence || discriminate || reflexivity.
Qed.

(** Each required file holds the one habit [restDay]: the suite reaches its
    report. *)
Lemma suite_reports_iff_ready_witness :
  isFinished (ContentSuite.validateAll Inputs.restDays) = true.
Proof.
  apply (suite_reports_iff_ready Inputs.restDays); vm_compute; reflexivity.
Defined.

(** ** When the validator writes its report *)

Lemma yields_loadContentSafely fs contentType language :
  Yields (loadContentSafely fs contentType language)
    (eq (loadedValue fs contentType language)).
Proof.
  intros s. destruct (emits_loadContentSafely fs contentType language s)
    as (s' & E & _). eauto.
Qed.

Lemma throws_load fs contentType language {B : Type} (k : json -> M State B) :
  Throws (k (loadedValue fs contentType language)) ->
  Throws (bind (loadContentSafely fs contentType language) k).
Proof.
  intros H. apply (throws_after _ _ _ (yields_loadContentSafely fs contentType language)).
  intros v <-. exact H.
Qed.

Lemma returns_load fs contentType language {B : Type} (k : json -> M State B) :
  Returns (k (loadedValue fs contentType language)) ->
  Returns (bind (loadContentSafely fs contentType language) k).
Proof.
  intros H. apply (yields_bind _ _ _ _ (yields_loadContentSafely fs contentType language)).
  intros v <-. exact H.
Qed.

Lemma returns_addError message : Returns (addError message).
Proof. apply returns_modify. Qed.

Lemma returns_addWarning message : Returns (addWarning message).
Proof. apply returns_modify. Qed.

Lemma get_null_throws {St : Type} key : Throws (@get St JNull key).
Proof. apply throws_throw. Qed.

(** *** Cross references *)

Lemma collectResearchIds_null fs language items ids :
  fs (contentPath "research" language) = Content (JArr items) ->
  In JNull items ->
  Throws (collectResearchIds fs ids language).
Proof.
  intros E Hnull. unfold collectResearchIds, existsSync.
  change ("src/content/research/" +++ language +++ ".json")
    with (contentPath "research" language).
  rewrite E. apply (throws_after _ _ _ (yields_readJson fs _ _ E)). intros v <-.
  apply (throws_after _ _ _ (yields_arrayOf _ _ items)). intros items0 <-.
  apply foldM_throws with (x := JNull); [exact Hnull |].
  intros acc. apply throws_bind_l. apply get_null_throws.
Qed.

Lemma habit_sources_throw (ids : JsSet) filePath habit index :
  sourcesReadable habit = false ->
  Throws (sources <- get habit "sources" ;;
          match sources with
          | Some list =>
              if truthy sources then
                sourceIds <- arrayOf "habit.sources" "forEach" list ;;
                forEach sourceIds (fun sourceId =>
                  when (negb (setHas ids (Some sourceId)))
                    (shown <- render (Some sourceId) ;;
                     addWarning (at_ filePath index +++
                       ": References unknown research: " +++ shown)))
              else ret tt
          | None => ret tt
          end).
Proof.
  intros H s. unfold sourcesReadable in H. unfold bind at 1, get.
  destruct habit as [| b | n | text | elems | props]; try discriminate;
    [unfold throw; eauto |].
  simpl member in *. unfold ret at 1. cbv beta iota.
  destruct (lookup "sources" props) as [[| b | n | text | elems | fields] |];
    simpl in H; try discriminate;
    try apply negb_false_iff in H;
    unfold bind, arrayOf, throw; simpl; rewrite ?H; eauto.
Qed.

Lemma checkHabitSources_unreadable fs language items habit ids :
  fs (contentPath "habits" language) = Content (JArr items) ->
  In habit items ->
  sourcesReadable habit = false ->
  Throws (checkHabitSources fs ids language).
Proof.
  intros E Hin Hbad. unfold checkHabitSources, existsSync.
  change ("src/content/habits/" +++ language +++ ".json")
    with (contentPath "habits" language).
  rewrite E. apply (throws_after _ _ _ (yields_readJson fs _ _ E)). intros v <-.
  apply (throws_after _ _ _ (yields_arrayOf _ _ items)). intros items0 <-.
  apply forEachFrom_throws with (x := habit); [exact Hin |].
  intros index. apply habit_sources_throw. exact Hbad.
Qed.

Lemma cross_references_throw fs :
  referencesReady fs = false -> Throws (validateCrossReferences fs).
Proof.
  intros H. unfold referencesReady in H.
  apply forallb_false_exists in H as (language & Hin & H).
  apply andb_false_iff in H as [H | H]; unfold validateCrossReferences.
  - apply throws_bind_l. apply foldM_throws with (x := language); [exact Hin |].
    intros acc.
    destruct (fs (contentPath "research" language)) as [| | message | v] eqn:E;
      try discriminate.
    + apply collectResearchIds_throws. rewrite E. exact I.
    + apply collectResearchIds_throws. rewrite E. exact I.
    + destruct (not_readable_cases v H) as [Hv | (items & -> & Hnull)].
      * apply collectResearchIds_throws. rewrite E. destruct v; auto.
      * eapply collectResearchIds_null; eassumption.
  - apply throws_bind_r. intros ids.
    apply forEach_throws with (x := language); [exact Hin |].
    destruct (fs (contentPath "habits" language)) as [| | message | v] eqn:E;
      try discriminate.
    + apply checkHabitSources_throws. rewrite E. exact I.
    + apply checkHabitSources_throws. rewrite E. exact I.
    + destruct v as [| b | n | text | items | props];
        try (apply checkHabitSources_throws; rewrite E; exact I).
      apply forallb_false_exists in H as (habit & Hh & Hbad).
      eapply checkHabitSources_unreadable; eassumption.
Qed.

(** *** Translation completeness *)

Lemma recordIds_throws name v :
  recordsReadable v = false -> Throws (@recordIds State name v).
Proof.
  intros H. unfold recordIds.
  destruct (not_readable_cases v H) as [Hv | (items & -> & Hnull)].
  - apply throws_bind_l. intros s. destruct v; try contradiction;
      unfold arrayOf, throw; eauto.
  - apply (throws_after _ _ _ (yields_arrayOf _ _ items)). intros items0 <-.
    apply mapM_throws with (x := JNull); [exact Hnull | apply get_null_throws].
Qed.

Lemma objectKeys_throws v : keysReadable v = false -> Throws (objectKeys v).
Proof. destruct v; try discriminate. intros _. apply throws_throw. Qed.

Lemma supported_cases language :
  In language supportedLanguages -> language = "en" \/ In language otherLanguages.
Proof. simpl. intuition. Qed.

Lemma translation_throws fs :
  completenessReady fs = false -> Throws (validateTranslationCompleteness fs).
Proof.
  intros H. unfold completenessReady in H.
  apply forallb_false_exists in H as (language & Hin & H).
  apply supported_cases in Hin.
  unfold validateTranslationCompleteness.
  apply andb_false_iff in H as [H | H]; [apply andb_false_iff in H as [H | H] |].
  - (* habits *)
    destruct Hin as [-> | Hin].
    + apply throws_load. apply throws_bind_l. apply recordIds_throws. exact H.
    + apply throws_bind_r. intros v. apply throws_bind_r. intros ids.
      apply throws_bind_l. apply forEach_throws with (x := language); [exact Hin |].
      apply throws_load. apply throws_bind_l. apply recordIds_throws. exact H.
  - (* research *)
    do 3 (apply throws_bind_r; intro).
    destruct Hin as [-> | Hin].
    + apply throws_load. apply throws_bind_l. apply recordIds_throws. exact H.
    + apply throws_bind_r. intros v. apply throws_bind_r. intros ids.
      apply throws_bind_l. apply forEach_throws with (x := language); [exact Hin |].
      apply throws_load. apply throws_bind_l. apply recordIds_throws. exact H.
  - (* locales *)
    do 6 (apply throws_bind_r; intro).
    destruct Hin as [-> | Hin].
    + apply throws_load. apply throws_bind_l. apply objectKeys_throws. exact H.
    + apply throws_bind_r. intros v. apply throws_bind_r. intros keys.
      apply forEach_throws with (x := language); [exact Hin |].
      apply throws_load. apply throws_bind_l. apply objectKeys_throws. exact H.
Qed.

Lemma returns_of_emits {A : Type} (m : M State A) a ws : Emits m a ws -> Returns m.
Proof. intros H s. destruct (H s) as (s' & E & _). exists a, s'. auto. Qed.

Lemma translation_returns fs :
  completenessReady fs = true ->
  (forall contentType, In contentType contentTypes ->
     forallb converts (namesIn fs contentType "en") = true) ->
  Returns (validateTranslationCompleteness fs).
Proof.
  intros Hready Hc.
  apply (returns_of_emits _ _ _ (validateTranslationCompleteness_emits fs Hready Hc)).
Qed.

(** *** Content quality *)

Lemma hasText_false (v : jsval) : hasText v = false -> noText v.
Proof. destruct v as [[] |]; simpl; auto; discriminate. Qed.

Lemma returns_hasPlaceholder name v : hasText v = true -> Returns (hasPlaceholder name v).
Proof.
  intros H s. unfold hasPlaceholder, includesText, bind.
  destruct v as [[| b | n | text | elems | props] |]; try discriminate; simpl.
  - destruct (includes "TODO" text); eexists; eexists; split; reflexivity || exact I.
  - destruct (existsb _ elems); eexists; eexists; split; reflexivity || exact I.
Qed.

Lemma returns_render {St : Type} (v : jsval) :
  converts v = true -> Returns (@render St v).
Proof.
  intros H s. rewrite (render_converts v s H). eexists. eexists.
  split; [reflexivity | exact I].
Qed.

(** The checks of one record in the quality check: [limit] is the word
    count below which the record is warned about. *)
Lemma returns_quality_item (field : string) (item : json) (limit : nat)
    (low placeholder : string -> nat -> string) (name : string) totals :
  hasText (member item field) = true ->
  recordConverts field item = true ->
  Returns (title <- get item "title" ;;
           text <- get item field ;;
           words <- countWords title text ;;
           id <- get item "id" ;;
           when (words <? limit)%nat
             (shown <- render id ;; addWarning (low shown words)) ;;
           found <- hasPlaceholder name text ;;
           when found (shown <- render id ;; addError (placeholder shown words)) ;;
           ret (fst totals + words, S (snd totals))).
Proof.
  intros H Hc. unfold recordConverts in Hc.
  apply andb_true_iff in Hc as [Hc Htext]. apply andb_true_iff in Hc as [Hid Htitle].
  assert (item <> JNull) as Hitem by (intros ->; discriminate).
  apply (yields_bind _ _ _ _ (yields_get item "title" Hitem)). intros title <-.
  apply (yields_bind _ _ _ _ (yields_get item field Hitem)). intros text <-.
  apply returns_bind.
  { unfold countWords. rewrite Htitle, Htext. apply returns_ret. }
  intros words.
  apply (yields_bind _ _ _ _ (yields_get item "id" Hitem)). intros id <-.
  apply returns_bind; [| intros _].
  { apply returns_when, returns_bind;
      [apply returns_render; exact Hid | intros shown; apply returns_addWarning]. }
  apply returns_bind; [apply returns_hasPlaceholder; exact H | intros found].
  apply returns_bind; [| intros _; apply returns_ret].
  apply returns_when, returns_bind;
    [apply returns_render; exact Hid | intros shown; apply returns_addError].
Qed.

Lemma returns_habitQuality totals habit :
  hasText (member habit "description") = true ->
  recordConverts "description" habit = true ->
  Returns (habitQuality totals habit).
Proof.
  intros H Hc. unfold habitQuality.
  apply (returns_quality_item "description" habit 20
           (fun shown words => "Habit " +++ shown +++ " has low word count (" +++
                               showNat words +++ " words)")
           (fun shown _ => "Habit " +++ shown +++ " contains placeholder text")
           "habit.description" totals H Hc).
Qed.

Lemma returns_researchQuality totals article :
  hasText (member article "summary") = true ->
  recordConverts "summary" article = true ->
  Returns (researchQuality totals article).
Proof.
  intros H Hc. unfold researchQuality.
  apply (returns_quality_item "summary" article 30
           (fun shown words => "Research " +++ shown +++ " has low word count (" +++
                               showNat words +++ " words)")
           (fun shown _ => "Research " +++ shown +++ " contains placeholder text")
           "article.summary" totals H Hc).
Qed.

(** The loop over the records of one file in the quality check. *)
Lemma quality_items_return (field name : string) (v : json)
    (body : nat * nat -> json -> M State (nat * nat)) {B : Type}
    (k : nat * nat -> M State B) totals :
  textReadable field v = true ->
  forallb (recordConverts field) (itemsOf v) = true ->
  (forall acc item,
     hasText (member item field) = true -> recordConverts field item = true ->
     Returns (body acc item)) ->
  (forall acc, Returns (k acc)) ->
  Returns (items <- arrayOf name "forEach" v ;;
           acc <- foldM body items totals ;; k acc).
Proof.
  intros H Hc Hbody Hk. destruct v as [| | | | items |]; try discriminate.
  apply (yields_bind _ _ _ _ (yields_arrayOf _ _ items)). intros items0 <-.
  apply returns_bind; [| exact Hk].
  apply returns_foldM. intros acc item Hin. simpl in H, Hc.
  rewrite forallb_forall in H, Hc. apply Hbody; [apply H | apply Hc]; exact Hin.
Qed.

Lemma quality_items_throw (field name : string) (v : json)
    (body : nat * nat -> json -> M State (nat * nat)) {B : Type}
    (k : nat * nat -> M State B) totals :
  textReadable field v = false ->
  (forall acc item, noText (member item field) -> Throws (body acc item)) ->
  Throws (items <- arrayOf name "forEach" v ;;
          acc <- foldM body items totals ;; k acc).
Proof.
  intros H Hbody.
  destruct v as [| b | n | text | items | props];
    try (apply throws_bind_l; apply throws_throw).
  apply (throws_after _ _ _ (yields_arrayOf _ _ items)). intros items0 <-.
  simpl in H. apply forallb_false_exists in H as (item & Hin & Hbad).
  apply throws_bind_l. apply foldM_throws with (x := item); [exact Hin |].
  intros acc. apply Hbody. apply hasText_false. exact Hbad.
Qed.

Lemma languageQuality_returns fs totals language :
  textReadable "description" (loadedValue fs "habits" language) = true ->
  textReadable "summary" (loadedValue fs "research" language) = true ->
  forallb (recordConverts "description") (itemsOf (loadedValue fs "habits" language))
  = true ->
  forallb (recordConverts "summary") (itemsOf (loadedValue fs "research" language))
  = true ->
  Returns (languageQuality fs totals language).
Proof.
  intros Hh Hr Hch Hcr. unfold languageQuality.
  apply returns_load.
  apply (quality_items_return "description" "habits" _ habitQuality _ totals Hh Hch).
  { intros acc item. apply returns_habitQuality. }
  intros acc. apply returns_load.
  pose proof (quality_items_return "summary" "research" _ researchQuality
                (fun acc => ret acc) acc Hr Hcr) as H.
  intros s. destruct (H (fun acc0 item => returns_researchQuality acc0 item)
                        (fun acc0 => returns_ret acc0) s) as (a & s' & E & _).
  unfold bind in *. destruct (arrayOf "research" "forEach" _ s) as [items s1 | e s1];
    [| discriminate].
  destruct (foldM researchQuality items acc s1) as [r s2 | e s2]; [| discriminate].
  eexists. eexists. split; [reflexivity | exact I].
Qed.

Lemma languageQuality_unreadable fs totals language :
  textReadable "description" (loadedValue fs "habits" language)
  && textReadable "summary" (loadedValue fs "research" language) = false ->
  Throws (languageQuality fs totals language).
Proof.
  intros H. unfold languageQuality. apply andb_false_iff in H as [H | H].
  - apply throws_load.
    apply (quality_items_throw "description" "habits" _ habitQuality _ totals H).
    intros acc item Hno. apply habitQuality_throws. exact Hno.
  - do 3 (apply throws_bind_r; intro).
    apply throws_load.
    intros s.
    destruct (quality_items_throw "summary" "research" _ researchQuality
                (fun acc => ret acc) a1 H
                (fun acc item Hno => researchQuality_throws item Hno acc) s)
      as (e & s' & E).
    unfold bind in *.
    destruct (arrayOf "research" "forEach" _ s) as [items s1 | e1 s1].
    + destruct (foldM researchQuality items a1 s1) as [r s2 | e2 s2];
        [discriminate | eauto].
    + eauto.
Qed.

Lemma quality_returns fs :
  textReady fs = true ->
  forallb (fun language =>
      forallb (recordConverts "description")
        (itemsOf (loadedValue fs "habits" language))
      && forallb (recordConverts "summary")
           (itemsOf (loadedValue fs "research" language)))
    supportedLanguages = true ->
  Returns (validateContentQuality fs).
Proof.
  intros H Hc. unfold validateContentQuality.
  apply returns_bind; [| intros totals; apply returns_when, returns_addWarning].
  apply returns_foldM. intros acc language Hin.
  unfold textReady in H. rewrite forallb_forall in H, Hc.
  specialize (H language Hin). apply andb_true_iff in H as [Hh Hr].
  specialize (Hc language Hin). apply andb_true_iff in Hc as [Hch Hcr].
  apply languageQuality_returns; assumption.
Qed.

Lemma quality_throws fs :
  textReady fs = false -> Throws (validateContentQuality fs).
Proof.
  intros H. unfold textReady in H.
  apply forallb_false_exists in H as (language & Hin & H).
  unfold validateContentQuality. apply throws_bind_l.
  apply foldM_throws with (x := language); [exact Hin |].
  intros acc. apply languageQuality_unreadable. exact H.
Qed.

(** *** The run *)

(** The names of the English records convert when the quoted fields of the
    records do; the keys of a locale file are strings. *)
Lemma baseline_converts fs contentType :
  contentConverts fs = true -> In contentType contentTypes ->
  forallb converts (namesIn fs contentType "en") = true.
Proof.
  intros H Hin. unfold contentConverts in H. apply andb_true_iff in H as [_ H].
  rewrite forallb_forall in H.
  assert (In "en" supportedLanguages) as Hen by (simpl; auto).
  specialize (H "en" Hen). apply andb_true_iff in H as [Hh Hr].
  assert (forall field v,
            forallb (recordConverts field) (itemsOf v) = true ->
            forallb converts (idsIn v) = true) as Hids.
  { intros field v Hv. destruct v; try reflexivity. simpl in *.
    rewrite forallb_forall in Hv. apply forallb_forall. intros id Hid.
    apply in_map_iff in Hid as (item & <- & Hitem).
    specialize (Hv item Hitem). unfold recordConverts in Hv.
    apply andb_true_iff in Hv as [Hv _]. apply andb_true_iff in Hv as [Hv _].
    exact Hv. }
  unfold namesIn.
  destruct Hin as [<- | [<- | [<- | []]]]; cbn [String.eqb Ascii.eqb Bool.eqb].
  - apply (Hids "description"). exact Hh.
  - apply (Hids "summary"). exact Hr.
  - destruct (loadedValue fs "locales" "en"); simpl; try reflexivity;
      apply forallb_forall; intros key Hkey; apply in_map_iff in Hkey as (x & <- & _);
      reflexivity.
Qed.

Lemma stages_return host fs clock :
  contentReady fs = true -> contentConverts fs = true ->
  Returns (stages host fs clock).
Proof.
  intros H Hconv. unfold contentReady in H.
  apply andb_true_iff in H as [H Ht]. apply andb_true_iff in H as [Hr Hc].
  pose proof Hconv as Hparts. unfold contentConverts in Hparts.
  apply andb_true_iff in Hparts as [Hcited Hrecords].
  unfold stages.
  apply returns_bind; [| intros _].
  { intros s. rewrite validateContentStructure_issues. eexists. eexists.
    split; [reflexivity | exact I]. }
  apply returns_bind; [| intros _].
  { apply returns_forEach. intros contentType _ s.
    destruct (validateContentType_returns host fs clock contentType s) as (s' & E).
    exists tt, s'. auto. }
  apply returns_bind; [| intros _].
  { intros s. rewrite (validateCrossReferences_warns fs Hr Hcited s).
    eexists. eexists. split; [reflexivity | exact I]. }
  apply returns_bind; [| intros _].
  { apply translation_returns; [exact Hc |].
    intros contentType Hin. apply baseline_converts; assumption. }
  apply quality_returns; assumption.
Qed.

Lemma stages_throw host fs clock :
  contentReady fs = false -> Throws (stages host fs clock).
Proof.
  intros H. unfold contentReady in H. unfold stages.
  do 2 (apply throws_bind_r; intros _).
  apply andb_false_iff in H as [H | Ht]; [apply andb_false_iff in H as [Hr | Hc] |].
  - apply throws_bind_l. apply cross_references_throw. exact Hr.
  - apply throws_bind_r. intros _. apply throws_bind_l.
    apply translation_throws. exact Hc.
  - do 2 (apply throws_bind_r; intros _). apply quality_throws. exact Ht.
Qed.

(** A run writes no report when a later stage throws on the content, or
    when the report cannot be written: the content is not ready when a
    habits or research file exists and is not an array of records that are
    not [null], whose [sources] are an array or falsy and whose description
    (summary for research) is a string or an array, or when a locales file
    holds [null].  When moreover every cited ID and the [id], [title] and
    text of every record convert to strings, the validator writes its
    report exactly when the content is ready and the report file can be
    written.  The condition depends neither on the schemas of the host nor
    on the clock. *)
Theorem report_written_iff_content_ready host fs clock :
  (contentReady fs = false -> isReported (validateAll host fs clock) = false) /\
  (writeFileSync host "validation-report.json" <> None ->
   isReported (validateAll host fs clock) = false) /\
  (contentConverts fs = true ->
   (isReported (validateAll host fs clock) = true <->
    contentReady fs = true /\ writeFileSync host "validation-report.json" = None)).
Proof.
  assert (contentReady fs = false ->
          isReported (validateAll host fs clock) = false) as Hnot.
  { intros Hready. unfold validateAll.
    destruct (stages_throw host fs clock Hready constructor) as (e & s' & E).
    rewrite E. reflexivity. }
  assert (writeFileSync host "validation-report.json" <> None ->
          isReported (validateAll host fs clock) = false) as Hwrite.
  { intros Hw. unfold validateAll, generateReport.
    destruct (stages host fs clock constructor) as [u s | e s]; [| reflexivity].
    destruct (writeFileSync host "validation-report.json");
      [reflexivity | contradiction]. }
  split; [exact Hnot |]. split; [exact Hwrite |].
  intros Hconv. split.
  - intros Hrep. split.
    + destruct (contentReady fs) eqn:Hready; [reflexivity |].
      rewrite (Hnot eq_refl) in Hrep. discriminate.
    + destruct (writeFileSync host "validation-report.json") eqn:Hw;
        [| reflexivity].
      rewrite Hwrite in Hrep; [discriminate | congruence].
  - intros [Hready Hw]. unfold validateAll, generateReport.
    destruct (stages_return host fs clock Hready Hconv constructor)
      as (a & s' & E & _).
    rewrite E, Hw. reflexivity.
Qed.

(** The English research file holds one record: the validator writes its
    report. *)
Lemma report_written_iff_content_ready_witness :
  isReported (validateAll node Inputs.oneStudy Inputs.clock1) = true.
Proof.
  apply (report_written_iff_content_ready node Inputs.oneStudy Inputs.clock1).
  - vm_compute. reflexivity.
  - split; vm_compute; reflexivity.
Defined.

(** ** The summary statistics *)

Lemma countContent_files fs language t contentType :
  ContentStats.totalFiles (ContentStats.countContent fs language t contentType)
  = ContentStats.totalFiles t
    + (if existsSync fs (contentPath contentType language) then 1 else 0).
Proof.
  unfold ContentStats.countContent. cbv zeta.
  destruct (existsSync fs (contentPath contentType language)); [| lia].
  repeat match goal with
         | |- context [if ?c then _ else _] => destruct c
         end; simpl; lia.
Qed.

(** The statistics script counts every content path that exists as a file
    of the summary, also a file that does not parse or a directory; the
    validator counts a file only when it validated it, so its
    [filesValidated] never exceeds the [totalFiles] of the statistics.  The
    averages per language are the totals divided by 4 and rounded: they
    differ from a quarter of the total by at most one half. *)
Theorem statistics_count_existing_files host fs clock :
  let summary := ContentStats.calculateSummaryStats fs in
  let files := ContentStats.totalFiles (ContentStats.totals summary) in
  files = List.length (existingPaths fs) /\
  match validateAll host fs clock with
  | Reported report _ => filesValidated (statistics report)
  | Aborted _ s => filesValidated (stats s)
  end <= files /\
  4 * ContentStats.averageHabitsPerLanguage summary
    <= ContentStats.totalHabits (ContentStats.totals summary) + 2 /\
  ContentStats.totalHabits (ContentStats.totals summary) + 2
    < 4 * ContentStats.averageHabitsPerLanguage summary + 4.
Proof.
  cbv zeta.
  assert (ContentStats.totalFiles (ContentStats.totals (ContentStats.calculateSummaryStats fs))
          = List.length (existingPaths fs)) as Hfiles.
  { unfold ContentStats.calculateSummaryStats, ContentStats.summaryTotals.
    cbv zeta. cbn [ContentStats.totals].
    unfold supportedLanguages, contentTypes. cbn [fold_left].
    rewrite !countContent_files. cbn [ContentStats.totalFiles].
    unfold existingPaths, contentPaths, supportedLanguages, contentTypes.
    rewrite length_filter_sum. cbn [flat_map map app]. unfold list_sum. cbn [fold_right]. lia. }
  split; [exact Hfiles |]. split.
  - rewrite Hfiles. apply validateAll_count.
  - unfold ContentStats.calculateSummaryStats. cbv zeta.
    cbn [ContentStats.averageHabitsPerLanguage ContentStats.totals].
    unfold ContentStats.roundedAverage, supportedLanguages. cbn [List.length].
    set (total := ContentStats.totalHabits (ContentStats.summaryTotals fs)).
    pose proof (Nat.div_mod_eq (2 * total + 4) (2 * 4)) as Hd.
    pose proof (Nat.mod_upper_bound (2 * total + 4) (2 * 4)) as Hm.
    lia.
Qed.

(** ** A DOI that is not a string *)

Lemma validateResearchSpecific_throws host clock record filePath index :
  unmatchableDoi record = true ->
  Throws (validateResearchSpecific host clock record filePath index).
Proof.
  intros H. unfold unmatchableDoi in H. apply andb_true_iff in H as [Ht Hs].
  assert (record <> JNull) as Hrecord by (intros ->; discriminate).
  unfold validateResearchSpecific.
  apply (throws_after _ _ _ (yields_get record "doi" Hrecord)). intros doi <-.
  apply throws_bind_l. rewrite Ht.
  apply throws_bind_l.
  destruct (member record "doi") as [[] |]; try discriminate; apply throws_throw.
Qed.

Lemma validateContentItem_throws host clock record language filePath index :
  unmatchableDoi record = true ->
  Throws (validateContentItem host clock record "research" language filePath index).
Proof.
  intros H. unfold validateContentItem. cbv zeta.
  apply throws_bind_r. intros errs. apply throws_bind_r. intros _.
  apply throws_bind_l. cbn [String.eqb Ascii.eqb Bool.eqb andb].
  apply validateResearchSpecific_throws. exact H.
Qed.

(** A research file whose JSON is valid is reported as invalid JSON when one
    of its records has a DOI that is truthy and not a string (a number, an
    array, an object, [true]): the format check calls [match] on it, the
    TypeError is caught by [validateContentType], and the file gets the error
    [Invalid JSON in <path>: <message>], is not counted as validated, and
    its later records are not checked. *)
Theorem unmatchable_doi_reported_as_invalid_json host fs clock language items record s :
  fs (contentPath "research" language) = Content (JArr items) ->
  In record items ->
  unmatchableDoi record = true ->
  exists s' earlier message,
    validateContentTypeIn host fs clock "research" language s = Ok tt s' /\
    errors s' = errors s ++ earlier ++
      ["Invalid JSON in " +++ contentPath "research" language +++ ": " +++ message] /\
    filesValidated (stats s') = filesValidated (stats s).
Proof.
  intros E Hin Hdoi.
  set (path := contentPath "research" language).
  assert (Throws (content <- readJson fs path ;;
                  validateContentFile host clock content "research" language path))
    as Hthrows.
  { apply (throws_after _ _ _ (yields_readJson fs path _ E)). intros v <-.
    unfold validateContentFile. cbn [String.eqb Ascii.eqb Bool.eqb andb].
    apply forEachFrom_throws with (x := record); [exact Hin |].
    intros index. apply validateContentItem_throws. exact Hdoi. }
  destruct (Hthrows s) as (e & s1 & E1).
  pose proof (validateContentFile_frame host fs clock path "research" language path s)
    as [Hf (es & He)].
  cbv zeta in Hf, He. rewrite E1 in Hf, He. simpl in Hf, He.
  unfold validateContentTypeIn. fold path. cbv zeta.
  unfold existsSync. subst path. rewrite E. cbn [negb]. unfold tryCatch.
  assert ((content <- readJson fs (contentPath "research" language) ;;
           validateContentFile host clock content "research" language
             (contentPath "research" language) ;; countFile) s = Throw e s1) as ->.
  { unfold bind in *.
    destruct (readJson fs (contentPath "research" language) s) as [v s0 | e0 s0];
      [| exact E1].
    rewrite E1. reflexivity. }
  eexists. exists es, e. split; [reflexivity |]. simpl.
  rewrite He, <- app_assoc. auto.
Qed.

(** The English research file holds one record whose DOI is the number
    1234. *)
Lemma unmatchable_doi_reported_as_invalid_json_witness :
  exists s' earlier message,
    validateContentTypeIn node Inputs.numberedTree Inputs.clock1 "research" "en" constructor
    = Ok tt s' /\
    errors s' = [] ++ earlier ++
      ["Invalid JSON in " +++ contentPath "research" "en" +++ ": " +++ message] /\
    filesValidated (stats s') = 0.
Proof.
  apply (unmatchable_doi_reported_as_invalid_json node Inputs.numberedTree Inputs.clock1 "en"
           [Inputs.numberedStudy] Inputs.numberedStudy constructor).
  - reflexivity.
  - simpl. auto.
  - reflexivity.
Defined.

(** ** The two DOI checks *)

Lemma matchesDoi_prefix (doi : string) :
  matchesDoi doi = true -> Schema.patternTest Schema.PatDoiPrefix doi = true.
Proof.
  intros H. unfold matchesDoi in H. simpl.
  destruct doi as [| a [| b [| c rest]]]; try discriminate;
    try (destruct a as [[] [] [] [] [] [] [] []]; discriminate).
  - destruct a as [[] [] [] [] [] [] [] []]; try discriminate.
    destruct b as [[] [] [] [] [] [] [] []]; discriminate.
  - destruct a as [[] [] [] [] [] [] [] []]; try discriminate.
    destruct b as [[] [] [] [] [] [] [] []]; try discriminate.
    destruct c as [[] [] [] [] [] [] [] []]; try discriminate.
    reflexivity.
Qed.

(** Every DOI string that passes the format check of
    [validateResearchSpecific] matches the pattern of the research schema.
    Neither check implies the other's verdict beyond that: the DOI [10.1/x]
    matches the schema pattern and gets the format warning, and the empty
    DOI fails the schema pattern and gets no format warning, since the
    format check is guarded by the truth value of the DOI. *)
Theorem doi_format_refines_schema_pattern :
  (forall doi, matchesDoi doi = true ->
     Schema.patternTest Schema.PatDoiPrefix doi = true) /\
  (Schema.patternTest Schema.PatDoiPrefix "10.1/x" = true /\
   matchesDoi "10.1/x" = false /\
   validateResearchSpecific node Inputs.clock1 (JObj [("doi", JStr "10.1/x")])
     "src/content/research/en.json" 0 constructor
   = Ok tt (appendWarnings
              ["src/content/research/en.json[0]: DOI format may be invalid: 10.1/x"]
              constructor)) /\
  (Schema.patternTest Schema.PatDoiPrefix "" = false /\
   existsb (fun e => Ajv.instancePath e =? "/doi")
     (Ajv.validate (Schema.research 2025) (JObj [("doi", JStr "")])) = true /\
   validateResearchSpecific node Inputs.clock1 (JObj [("doi", JStr "")])
     "src/content/research/en.json" 0 constructor
   = Ok tt constructor).
Proof.
  split; [exact matchesDoi_prefix |].
  split; repeat split; vm_compute; reflexivity.
Qed.
